(* ===== verification/_CoqProject ===== *)
-Q . S2P
Prelude.v
PyStr.v
Shelves.v
Width.v
PyInt.v
CsvReader.v
Categorize.v
Balanced.v
SpaceUsage.v
Adaptive.v
Report.v
FloatBands.v
Pipeline.v
Format.v
Render.v
Console.v
Screenshot.v
