(* ===== verification/Prelude.v ===== *)
(** * Inventory: a verification development of the library organiser
      and the screenshot script

    The repository holds two independent Python scripts.

    - src/generate_organization.py (Pipeline B) reads LibIB CSV exports
      ([parse_csv_file]), keeps the books, places every book on a
      (shelf, row) with a keyword categorizer, sums estimated spine widths
      per row and shelf ([calculate_space_usage]), and renders an HTML
      guide ([generate_html]).  [main] runs this once through
      [iterative_balance], which calls the calculator with
      [balanced_categorize_book]; [categorize_book] is the calculator's
      default and [create_adaptive_categorizer] is never called.
    - src/frontend/scripts/selenium-screenshot.py (Pipeline A) opens a
      headless Chrome, loads a URL, waits for [document.readyState],
      sleeps, saves a screenshot and quits the browser in a [finally];
      its [main] maps the result to the exit code.

    ** Files, in dependency order

    - Prelude.v (this file): Python exceptions as [py_error] and the
      error monad [pyres] with the notation [x <- c ;; k]; a Python
      dict as an ordered association list ([dict_get] is [d.get(k)],
      [dict_index] is [d[k]] raising [KeyError], [dict_set] is
      [d[k] = v], which keeps the position of an existing key); [sumZ]
      for [sum(...)]; the hint database [inventory] and the tactics
      [py_inv] and [case_ifs].
    - PyStr.v: [str.lower] on ASCII, the substring test [w in s],
      [any(w in s for w in ws)] and the combined text
      [f'{title_lower} {tags_lower} {group_lower} {desc_lower}'] shared
      by the three categorizers; a [None] title raises [AttributeError].
    - Shelves.v: [SHELF_DIMENSIONS] and [ORGANIZATION] in source order,
      CSV rows as [item] (a column is absent, [None] for a short line,
      or a string), locations, and the class [ValidCategorizer], the
      interface between the categorizers and the calculator: a
      categorizer only returns existing locations.  Each categorizer
      gives an instance; the calculator's theorems assume the class.
    - Width.v: [estimate_book_width] in quarter inches.
    - PyInt.v: [int(s)] for base 10 (whitespace, sign, underscores) and
      [str(n)], used for the page column and the wait argument.
    - CsvReader.v (Module CsvReader): what [open] in text mode and
      [csv.DictReader] compute from the text of an export: universal
      newlines ([translate_newlines]), CPython's reader state machine
      ([csv_step], [parse_process_char] of _csv.c for the [excel]
      dialect, with the field size limit), the records ([read_records])
      and the row dicts ([dict_rows], [dict_row] with [restval] [None]).
      Python's [csv.writer] ([write_rows]) is modelled too, as the
      reference the reader is proved against.
    - Categorize.v (Module Categorize): [categorize_book] and the ordered
      rule table the specification asks for.
    - Balanced.v (Module Balanced): [balanced_categorize_book].
    - SpaceUsage.v (Module SpaceUsage): [calculate_space_usage]: the
      nested dictionary as [space_usage], the item loop as
      [process_items] threading it through [add_book], the final loop as
      [finalize]; the configuration is the section variable [dims].  The
      abstract specification is [placements] (where each book goes, in
      order) and [usage_refines].
    - Adaptive.v (Module Adaptive): [create_adaptive_categorizer] and its
      [find_best_shelf], over the utilization data as a section variable.
    - Report.v (Module Report): [generate_html] as structured data:
      counts, banners with their status band, and per row the book lines
      sorted by title ([sorted] as a stable insertion sort) with title
      and author through [html.escape] (CPython's chain of [replace]).
    - FloatBands.v (Module FloatBands): the utilization of line 217 as
      CPython computes it, in binary64 primitive floats, and its
      comparisons with 90, 75 and 100.
    - Pipeline.v (Module Pipeline): [parse_csv_file], [iterative_balance]
      and [main]; a CSV file is the list of rows [csv.DictReader] yields
      and whether reading raises after them, and [read_source] computes
      that from the text of the file with CsvReader.v.
    - Format.v (Module Format): [format(x, '.1f')] and ['.2f'] on
      binary64 floats ([format_fixed]: correctly rounded from the exact
      binary value, ties to even), and the printed percentage and widths.
    - Render.v (Module Render): the text [generate_html] returns
      ([generate_html_text]), appended loop by loop as the code does
      ([banner_step], [shelf_step], [row_step], [book_step] over the
      fallible loop [foldM]), with the template's literal text as
      constants [t_head0] ... [t_tail] holding the source's UTF-8 bytes;
      [render], the text of a structured report of Report.v; and
      [main_page], the page [main] writes.  The modification time of the
      script (line 432) is an input ([None] when the file is absent).
    - Console.v (Module Console): [main] as a whole ([main_io]), with its
      prints, those of [iterative_balance] ([iterative_balance_io]) and
      of [parse_csv_file] ([parse_csv_file_io]), and the write of
      library_organization.html, in a state and error monad [io] over a
      [world] (standard output, contents of the output file) with
      stdpp's [MRet]/[MBind] notation.  [main] is split at the code's
      phases: [main_read] (lines 544-559), [main_balance] (561-573) and
      [main_write] (575-585).  The paths [glob] yields, in its order,
      and the message of an [OSError] raised by [open] are inputs.
    - Screenshot.v (Module Screenshot): [capture_screenshot] as the step
      relation [step] on [session] states (phase, driver, live process,
      file written, trace of driver calls) with the browser as an oracle
      [browser], the executable run [capture_run], and [screenshot_main];
      [capture_run_io] and [screenshot_main_io] add the text they print.

    ** What the theorems show

    - End to end ([Pipeline]): [main_total]: [main] raises nothing when
      every book row has a title and a creator, and
      [main_crashes_on_short_row] is the converse: one book row with a
      [None] title or creator makes it raise; [main_error_attribute]:
      on any input the only exception it can raise is [AttributeError];
      [main_conserves_width]: the shelved width is the width of all book
      rows read; [main_order_independent]: the shelves' totals,
      utilizations and rows do not depend on the order of the files.
    - CSV ingestion ([CsvReader]): [csv_roundtrip]: reading back what
      [csv.writer] writes gives the records written (quotes, commas,
      line breaks inside fields, empty records); [dict_row_columns]: with
      distinct header names a row dict maps the i-th name to the i-th
      field or to [None]; [csv_field_limit]: a field over 131072
      characters raises [csv.Error] after the earlier records;
      [read_records_short]: nothing else raises, so a malformed export
      is read, not rejected; [read_source_written] (Pipeline.v): on a
      well-formed export [parse_csv_file] yields one dict per record;
      [parse_csv_file_keeps_rows_of_failed_file]: on an export with an
      over-long field it keeps the rows read before [csv.Error].
    - Calculator ([SpaceUsage]): [calculate_space_usage_refines], a
      refinement of the abstract specification proved through the loop
      invariant [usage_inv]; [calculate_space_usage_conserves_width];
      [calculate_space_usage_no_error] (its exceptions are exactly those
      of reading [item['item_type']] and of the categorizer) and
      [calculate_space_usage_default_total]; [calculate_space_usage_float_bands]: the
      bands and the over-capacity test on CPython's float are those of
      the exact utilization; [calculate_space_usage_printed_percentage]
      (Format.v): the banner prints the utilization to within 0.05.
    - Classifiers: [categorize_book_total_valid] and
      [adaptive_categorize_book_valid] (only configured rows), with
      [categorize_combined_first_match], [categorize_combined_default],
      [categorize_book_core_language], [least_utilized_minimal] and
      [estimate_book_width_monotone] as supporting lemmas.
    - Report: [html_escape_per_char], [html_escape_markup_free],
      [html_escape_roundtrip], [sort_by_title_spec] (sorted, permutation,
      stable), [status_of_utilization], [over_capacity_spec],
      [generate_html_ok]; [py_int_roundtrip].
    - Page text ([Render]): [generate_html_text_refines], a refinement:
      on every dictionary the calculator returns, the text raises
      exactly when the structured report does and otherwise is
      [render] of it; [generate_html_text_tags]: whatever the export
      holds, the page has 500 [<] and 499 [>] besides the date and ten
      of each per listed book, so user text adds no markup.
    - Effects ([Console]): [main_io_refines]: [main] only appends to
      standard output and writes exactly the page of [main_page], or
      raises its exception and leaves the file as it was;
      [main_io_crash_transcript]: after a crash the console ends with
      the line of the phase that raised and the file is untouched;
      [console_good_page_over]: the console marks a shelf good exactly
      when its books fit, so between 90% and 100% it says good while
      the page says over capacity.  The effect lemmas ([behaves],
      [behaves_ending]) compose phase by phase.
    - Screenshot: [reachable_no_leak] (rule induction on [step]: every
      returned state has quit the browser once iff it was created),
      [reachable_polls_bounded], [capture_run_refines] (the run is a path
      of [step], so the function returns), [reachable_eventually_returns]
      (liveness: every run from a reachable state terminates, and ends
      returned with the browser quit), [capture_steps_bounded] (at most
      26 transitions), [capture_screenshot_spec] (with [time.sleep]
      raising on a negative wait, from [sleep_limit] seconds on, and
      when its deadline passes the end of the clock),
      [capture_unreachable_no_leak], [screenshot_main_exit].
    - Findings, as theorems: [calculate_space_usage_none_title] and
      [main_crashes_on_short_row] (a short line in the text of an export
      crashes the script), [estimate_book_width_unknown_wider] (the
      width is not monotone at 0),
      [parse_csv_file_keeps_rows_of_failed_file] (a malformed export
      still contributes its first rows),
      [capture_screenshot_ignores_write_failure], [console_good_page_over],
      [generate_html_text_tags] (the raw [<100 pages] of the notes leaves
      one [<] unmatched).  The specification's examples are checked on
      their inputs by [main_flow_categorizer_diverges] and
      [genki_example_width], and the dependence on the order of the
      files by [report_depends_on_file_order].

    ** Numbers, bounds and fuel

    - Widths are integers counting quarter inches: every estimate is a
      multiple of 0.25, so the float sums of the code are exact and equal
      to the model's integers divided by 4.
    - Utilization is the exact rational [25 * total / available].  The
      code compares its float [(total / available) * 100] against 90, 75
      and 100; FloatBands.v computes that float with Rocq's primitive
      binary64 floats and proves, by an exhaustive check evaluated in the
      kernel, that on every configured shelf and every total up to 100
      times its capacity the float comparisons agree with the exact ones.
      The bound is a hundredfold overfull shelf; beyond it the exact
      utilization exceeds 10000 and every band is settled far from the
      boundaries.  Format.v checks the printed percentage the same way,
      on totals up to ten times the capacity ([print_bound]), which keeps
      the kernel's re-check of the evaluation short; Console.v checks
      the console's [util <= 100] on the same range.
    - [digits_of] (for [str(n)]) runs on the fuel [log2 (n + 1) + 1],
      which is at least the number of decimal digits; [unescape] on the
      length of the string, since each step consumes a character.
    - The CSV reader runs structurally on the list of characters of the
      text; its only bound is CPython's default field size limit
      (131072), kept as [field_limit] in [N].
    - [wait_ready] makes at most [ready_polls] = 20 polls:
      [WebDriverWait(driver, 10)] polls every 0.5 s and stops once 10 s
      have passed.  The relation [step] also lets the wait time out
      earlier, when slow polls use up the time; the run takes the case
      of instantaneous polls.

    ** Not modelled

    Decoding of the file (UTF-8 errors; a text is one Rocq character
    per code point), NUL characters and the [restkey] entry of records
    longer than the header in [csv.DictReader], a failure of the write of the HTML file ([OSError]; the write always
    succeeds in [write_file]), the file system queries whose results are
    inputs (the paths of [Path.glob], the text of a file, the message of
    a failed [open], the modification time of the script), case mapping
    beyond ASCII, and the internals of Selenium and Chrome (the options
    of lines 24-29 of the screenshot script only configure them), whose observable outcomes are the oracle
    [browser].  [driver.quit()] in the [finally] is taken to return: an
    exception it raises would replace the function's result.
    *)

From Stdlib Require Import ZArith QArith List String Ascii Bool Lia Permutation.
From stdpp Require Import base list strings.

Open Scope string_scope.
Open Scope list_scope.
Import ListNotations.

(** ** Python exceptions and the error monad

    The scripts raise a handful of built-in exceptions; a computation that
    may raise one is a value of [pyres A]. *)

Inductive py_error : Type :=
  | AttributeError   (** a method called on [None] *)
  | KeyError         (** [d[k]] with [k] absent *)
  | ValueError       (** [int(s)] on a malformed string *)
  | TypeError        (** [int(None)] *)
  | ZeroDivisionError
  | CsvError.        (** [csv.Error] raised by the CSV reader *)

#[export] Instance py_error_eq_dec : EqDecision py_error.
Proof. solve_decision. Defined.

Inductive pyres (A : Type) : Type :=
  | Ok (a : A)
  | Err (e : py_error).
Arguments Ok {A} a.
Arguments Err {A} e.

Declare Scope py_scope.
Delimit Scope py_scope with py.

Notation "x <- c1 ;; c2" :=
  (match c1 with Ok x => c2 | Err e => Err e end)
  (at level 60, c1 at next level, right associativity) : py_scope.

Open Scope py_scope.

Definition is_ok {A} (r : pyres A) : bool :=
  match r with Ok _ => true | Err _ => false end.

(** A [for] loop building a list, stopping at the first exception. *)
Fixpoint mapM {A B} (f : A -> pyres B) (l : list A) : pyres (list B) :=
  match l with
  | [] => Ok []
  | x :: l' => y <- f x ;; ys <- mapM f l' ;; Ok (y :: ys)
  end.

Lemma mapM_Ok {A B} (f : A -> pyres B) l l' :
  mapM f l = Ok l' -> Forall2 (fun x y => f x = Ok y) l l'.
Proof.
  revert l'. induction l as [|x l IH]; intros l' H; simpl in H.
  - injection H as <-. constructor.
  - destruct (f x) as [y|] eqn:E; [|discriminate].
    destruct (mapM f l) as [ys|]; [|discriminate]. injection H as <-.
    constructor; [done | by apply IH].
Qed.

Lemma mapM_ok {A B} (f : A -> pyres B) l :
  (forall x, In x l -> exists y, f x = Ok y) -> exists l', mapM f l = Ok l'.
Proof.
  induction l as [|x l IH]; intros H; simpl; [eauto|].
  destruct (H x (or_introl eq_refl)) as [y ->].
  destruct IH as [ys ->]; [intros; apply H; by right | eauto].
Qed.

(** [mapM] raises the first error of the elements. *)
Lemma mapM_Err {A B} (f : A -> pyres B) l e :
  mapM f l = Err e -> exists x, In x l /\ f x = Err e.
Proof.
  induction l as [|x l IH]; simpl; [discriminate|].
  destruct (f x) as [y|e'] eqn:E; [|intros [= <-]; eauto].
  destruct (mapM f l) as [ys|e']; [discriminate|]. intros H.
  destruct (IH H) as (z & Hz & Hf). eauto.
Qed.

(** ** Python dictionaries

    A Python [dict] keeps its keys in insertion order, and the scripts
    iterate over dictionaries ([for shelf_id in SHELF_DIMENSIONS],
    [ORGANIZATION.items()]) and break ties by that order.  A dictionary is
    therefore an association list with its keys in insertion order;
    assignment to an existing key updates it in place. *)

Definition dict (K V : Type) := list (K * V).

Section Dict.
Context {K V : Type} `{EqDecision K}.

(** [d.get(k)] *)
Fixpoint dict_get (k : K) (d : dict K V) : option V :=
  match d with
  | [] => None
  | (k', v) :: d' => if decide (k = k') then Some v else dict_get k d'
  end.

(** [d[k] = v] *)
Fixpoint dict_set (k : K) (v : V) (d : dict K V) : dict K V :=
  match d with
  | [] => [(k, v)]
  | (k', v') :: d' =>
      if decide (k = k') then (k, v) :: d' else (k', v') :: dict_set k v d'
  end.

(** [d[k]]: raises [KeyError] when [k] is absent. *)
Definition dict_index (k : K) (d : dict K V) : pyres V :=
  match dict_get k d with Some v => Ok v | None => Err KeyError end.

(** [d.get(k, default)] *)
Definition dict_get_or (k : K) (dflt : V) (d : dict K V) : V :=
  match dict_get k d with Some v => v | None => dflt end.

Definition dict_keys (d : dict K V) : list K := map fst d.

Lemma dict_get_set_eq k v d : dict_get k (dict_set k v d) = Some v.
Proof.
  induction d as [|[k' v'] d IH]; simpl.
  - by rewrite decide_True.
  - case_decide; simpl; [by rewrite decide_True | by rewrite decide_False].
Qed.

Lemma dict_get_set_ne k k2 v d :
  k <> k2 -> dict_get k2 (dict_set k v d) = dict_get k2 d.
Proof.
  intros Hne. induction d as [|[k' v'] d IH]; simpl.
  - by rewrite decide_False.
  - case_decide as Hk; simpl.
    + subst k'. by rewrite !decide_False.
    + case_decide; [done | exact IH].
Qed.

(** Assigning to a key that is present keeps the keys and their order. *)
Lemma dict_keys_set k v d :
  dict_get k d <> None -> dict_keys (dict_set k v d) = dict_keys d.
Proof.
  induction d as [|[k' v'] d IH]; simpl; intros Hk; [done|].
  case_decide; simpl; [by subst | by rewrite IH].
Qed.

Lemma dict_get_In k v d : dict_get k d = Some v -> In (k, v) d.
Proof.
  induction d as [|[k' v'] d IH]; simpl; [done|].
  case_decide; [intros [= ->]; subst; by left | intros; right; auto].
Qed.

Lemma dict_get_None_keys k d : dict_get k d = None <-> ~ In k (dict_keys d).
Proof.
  induction d as [|[k' v'] d IH]; simpl; [tauto|].
  case_decide; [subst; split; [done | tauto] |].
  rewrite IH. intuition congruence.
Qed.

Lemma dict_index_Ok k d v : dict_index k d = Ok v <-> dict_get k d = Some v.
Proof. unfold dict_index. destruct (dict_get k d); split; congruence. Qed.

Lemma dict_set_fresh k v d : dict_get k d = None -> dict_set k v d = d ++ [(k, v)].
Proof.
  induction d as [|[k' v'] d IH]; simpl; [done|].
  case_decide; [done | intros H'; by rewrite IH].
Qed.

Lemma dict_get_app_fresh k k' v d :
  k <> k' -> dict_get k (d ++ [(k', v)]) = dict_get k d.
Proof.
  intros Hne. induction d as [|[k0 v0] d IH]; simpl; [by rewrite decide_False|].
  case_decide; [done | exact IH].
Qed.

Lemma dict_get_Some_keys k v d : dict_get k d = Some v -> In k (dict_keys d).
Proof. intros H. apply dict_get_In in H. unfold dict_keys. by apply (in_map fst) in H. Qed.

Lemma dict_keys_get k d : In k (dict_keys d) -> exists v, dict_get k d = Some v.
Proof.
  intros Hin. destruct (dict_get k d) as [v|] eqn:E; [eauto|].
  by apply dict_get_None_keys in E.
Qed.

Lemma dict_get_NoDup_In k v d :
  NoDup (dict_keys d) -> In (k, v) d -> dict_get k d = Some v.
Proof.
  induction d as [|[k' v'] d IH]; simpl; intros Hnd Hin; [done|].
  apply NoDup_cons in Hnd as [Hk Hnd].
  destruct Hin as [[= -> ->]|Hin]; [by rewrite decide_True|].
  rewrite decide_False; [by apply IH|].
  intros ->. apply Hk, list_elem_of_In. by apply (in_map fst) in Hin.
Qed.

(** A loop [for k in ks: d[k] = g(k)] over distinct fresh keys appends. *)
Lemma fold_dict_set_keys (g : K -> V) ks acc :
  NoDup (dict_keys acc ++ ks) ->
  fold_left (fun d k => dict_set k (g k) d) ks acc = acc ++ map (fun k => (k, g k)) ks.
Proof.
  revert acc. induction ks as [|k ks IH]; intros acc Hnd; simpl; [by rewrite app_nil_r|].
  rewrite dict_set_fresh.
  - rewrite IH, <- app_assoc; [done|]. unfold dict_keys. rewrite map_app.
    simpl. by rewrite <- app_assoc.
  - apply dict_get_None_keys. intros Hin. apply NoDup_app in Hnd as (_ & Hd & _).
    apply (Hd k); apply list_elem_of_In; [done | by left].
Qed.

(** The same loop over the entries of another dictionary. *)
Lemma fold_dict_set_pairs {X} (f : X -> V) (l : list (K * X)) acc :
  NoDup (dict_keys acc ++ map fst l) ->
  fold_left (fun d '(k, x) => dict_set k (f x) d) l acc =
  acc ++ map (fun '(k, x) => (k, f x)) l.
Proof.
  revert acc. induction l as [|[k x] l IH]; intros acc Hnd; simpl; [by rewrite app_nil_r|].
  rewrite dict_set_fresh.
  - rewrite IH, <- app_assoc; [done|]. unfold dict_keys. rewrite map_app.
    simpl. by rewrite <- app_assoc.
  - apply dict_get_None_keys. intros Hin. apply NoDup_app in Hnd as (_ & Hd & _).
    apply (Hd k); apply list_elem_of_In; [done | by left].
Qed.
End Dict.

(** ** Sums over lists

    Python's [sum(...)] over a generator, on integers. *)

Definition sumZ {A} (f : A -> Z) (l : list A) : Z :=
  fold_right (fun a acc => (f a + acc)%Z) 0%Z l.

Lemma sumZ_app {A} (f : A -> Z) l1 l2 :
  sumZ f (l1 ++ l2) = (sumZ f l1 + sumZ f l2)%Z.
Proof. induction l1; simpl; lia. Qed.

Lemma sumZ_ext {A} (f g : A -> Z) l :
  (forall a, In a l -> f a = g a) -> sumZ f l = sumZ g l.
Proof.
  induction l as [|a l IH]; simpl; intros H; [done|].
  rewrite (H a (or_introl eq_refl)), IH; auto.
Qed.

Lemma sumZ_map {A B} (f : B -> Z) (g : A -> B) l :
  sumZ f (map g l) = sumZ (fun a => f (g a)) l.
Proof. induction l; simpl; lia. Qed.

Lemma sumZ_filter_split {A} (f : A -> Z) (p : A -> bool) l :
  sumZ f l = (sumZ f (List.filter p l) + sumZ f (List.filter (fun a => negb (p a)) l))%Z.
Proof. induction l as [|a l IH]; simpl; [done|]. destruct (p a); simpl; lia. Qed.

(** Lookups in a dictionary whose values are mapped. *)
Lemma dict_get_map_values {K X V} `{EqDecision K} (f : X -> V) (l : dict K X) k :
  dict_get k (map (fun '(k, x) => (k, f x)) l) = option_map f (dict_get k l).
Proof. induction l as [|[k' x] l IH]; simpl; [done|]. by case_decide. Qed.

Lemma dict_keys_map_values {K X V} (f : X -> V) (l : dict K X) :
  dict_keys (map (fun '(k, x) => (k, f x)) l) = dict_keys l.
Proof. induction l as [|[k' x] l IH]; simpl; [done|]. unfold dict_keys in *. simpl. by f_equal. Qed.

Lemma dict_get_map_keys {K V} `{EqDecision K} (g : K -> V) ks k v :
  dict_get k (map (fun k => (k, g k)) ks) = Some v -> v = g k.
Proof.
  induction ks as [|k' ks IH]; simpl; [done|].
  case_decide; [intros [= <-]; by subst | exact IH].
Qed.

Lemma dict_keys_map_keys {K V} (g : K -> V) ks :
  dict_keys (map (fun k => (k, g k)) ks) = ks.
Proof. unfold dict_keys. rewrite map_map. apply map_id. Qed.

  (** Summing over the entries of a dictionary with distinct keys is
    summing over its keys. *)
Lemma sumZ_dict {K V} `{EqDecision K} (f : V -> Z) (d : dict K V) :
  NoDup (dict_keys d) ->
  sumZ (fun p => f p.2) d =
  sumZ (fun k => match dict_get k d with Some v => f v | None => 0%Z end) (dict_keys d).
Proof.
  induction d as [|[k v] d IH]; intros Hnd; simpl; [done|].
  apply NoDup_cons in Hnd as [Hk Hnd].
  rewrite decide_True by done. f_equal. rewrite IH by done.
  apply sumZ_ext. intros k' Hk'. rewrite decide_False; [done|].
  intros ->. apply Hk. by apply list_elem_of_In.
Qed.

Lemma Forall_list_filter {A} (P : A -> Prop) (f : A -> bool) l :
  Forall P l -> Forall P (List.filter f l).
Proof.
  induction 1 as [|x l Hx Hl IH]; simpl; [constructor|].
  destruct (f x); [by constructor | done].
Qed.

Lemma list_filter_idem {A} (f : A -> bool) l :
  List.filter f (List.filter f l) = List.filter f l.
Proof.
  induction l as [|x l IH]; simpl; [done|].
  destruct (f x) eqn:E; simpl; [by rewrite E, IH | done].
Qed.

Lemma sumZ_zero {A} (l : list A) : sumZ (fun _ => 0%Z) l = 0%Z.
Proof. induction l; simpl; lia. Qed.

Lemma sumZ_add {A} (f g : A -> Z) l :
  sumZ (fun a => (f a + g a)%Z) l = (sumZ f l + sumZ g l)%Z.
Proof. induction l; simpl; lia. Qed.

Section Partition.
Context {A K : Type} `{EqDecision K}.

(** The indicator of one key sums to its weight over distinct keys. *)
Lemma sumZ_indicator (k : K) (c : Z) keys :
  NoDup keys -> In k keys ->
  sumZ (fun k' => if bool_decide (k = k') then c else 0%Z) keys = c.
Proof.
  induction keys as [|k0 keys IH]; simpl; intros Hnd Hin; [done|].
  apply NoDup_cons in Hnd as [Hk0 Hnd].
  case_bool_decide as E.
  - subst k0. rewrite (sumZ_ext _ (fun _ => 0%Z)), sumZ_zero; [lia|].
    intros k' Hk'. case_bool_decide; [subst | done].
    exfalso. apply Hk0. by apply list_elem_of_In.
  - destruct Hin as [->|Hin]; [done|]. rewrite IH; auto.
Qed.

(** Splitting a weighted list by a key over a set of distinct keys that
    covers every element preserves its total weight. *)
Lemma sumZ_partition (key : A -> K) (w : A -> Z) keys xs :
  NoDup keys -> Forall (fun x => In (key x) keys) xs ->
  sumZ (fun k => sumZ w (List.filter (fun x => bool_decide (key x = k)) xs)) keys
  = sumZ w xs.
Proof.
  intros Hnd. induction xs as [|x xs IH]; intros Hall; simpl.
  - apply sumZ_zero.
  - apply Forall_cons in Hall as [Hx Hall].
    rewrite (sumZ_ext _ (fun k => (if bool_decide (key x = k) then w x else 0)
                                  + sumZ w (List.filter (fun x => bool_decide (key x = k)) xs))%Z).
    + rewrite sumZ_add, sumZ_indicator, IH; auto.
    + intros k _. case_bool_decide; simpl; lia.
Qed.
End Partition.

(** ** Automation shared by the component files *)

Lemma sumZ_nonneg {A} (f : A -> Z) l :
  (forall x, In x l -> (0 <= f x)%Z) -> (0 <= sumZ f l)%Z.
Proof.
  induction l as [|x l IH]; simpl; intros H; [lia|].
  assert (0 <= f x)%Z by (apply H; left; reflexivity).
  assert (0 <= sumZ f l)%Z by (apply IH; intros y Hy; apply H; right; exact Hy). lia.
Qed.

(** ** Order independence *)

Lemma sumZ_Permutation {A} (f : A -> Z) l l' :
  Permutation l l' -> sumZ f l = sumZ f l'.
Proof. induction 1; simpl; lia. Qed.

Lemma Permutation_list_filter {A} (f : A -> bool) l l' :
  Permutation l l' -> Permutation (List.filter f l) (List.filter f l').
Proof.
  induction 1 as [|x l l' _ IH|x y l|l l' l'' _ IH1 _ IH2]; simpl.
  - constructor.
  - destruct (f x); [apply perm_skip|]; exact IH.
  - destruct (f x), (f y); try apply perm_swap; apply Permutation_refl.
  - exact (Permutation_trans IH1 IH2).
Qed.

Lemma Permutation_concat {A} (l l' : list (list A)) :
  Permutation l l' -> Permutation (concat l) (concat l').
Proof.
  induction 1; simpl; [constructor | by apply Permutation_app_head | | eauto using Permutation_trans].
  rewrite !app_assoc. apply Permutation_app_tail, Permutation_app_comm.
Qed.

(** A computation that runs element by element gives, on a permuted
    input, a permuted output. *)
Lemma mapM_Permutation {A B} (f : A -> pyres B) l l' ys :
  Permutation l l' -> mapM f l = Ok ys -> exists ys', mapM f l' = Ok ys' /\ Permutation ys ys'.
Proof.
  intros Hp. revert ys. induction Hp as [|x l l' Hp IH|x y l|l l' l'' _ IH1 _ IH2]; intros ys H;
    simpl in *.
  - eauto.
  - destruct (f x) as [y|]; [|discriminate]. destruct (mapM f l) as [zs|]; [|discriminate].
    injection H as <-. destruct (IH zs eq_refl) as (zs' & -> & Hz). eauto using Permutation.
  - destruct (f y) as [b|]; [|discriminate]. destruct (f x) as [a|]; [|discriminate].
    destruct (mapM f l) as [zs|]; [|discriminate]. injection H as <-. eauto using Permutation.
  - destruct (IH1 ys H) as (ys1 & H1 & P1). destruct (IH2 ys1 H1) as (ys2 & H2 & P2).
    eauto using Permutation_trans.
Qed.

Create HintDb inventory discriminated.
Create Rewrite HintDb inventory.
#[export] Hint Rewrite @dict_get_set_eq @sumZ_app @sumZ_map : inventory.
#[export] Hint Resolve dict_get_In : inventory.

(** [py_inv H] splits a hypothesis [H : (x <- m ;; k) = Ok v] into the
    result of [m] and the rest, as many times as [H] has binds. *)
Ltac py_inv H :=
  repeat match type of H with
  | (match ?m with Ok _ => _ | Err _ => _ end) = Ok _ =>
      let r := fresh "r" in let E := fresh "E" in
      destruct m as [r|] eqn:E; [|discriminate H]
  | Ok _ = Ok _ => injection H as H
  end.

(** [case_ifs] splits the goal on every boolean [if] it contains, outermost
    first: the case analysis of a chain of guarded rules. *)
Ltac case_ifs :=
  repeat match goal with
  | |- context [if ?b then _ else _] =>
      lazymatch b with
      | context [if _ then _ else _] => fail
      | _ => destruct b
      end
  end.
