(* ===== verification/PyStr.v ===== *)
(** * Python string operations used by the categorizers

    [str.lower] on ASCII text, the substring test [w in s], the
    [any(word in combined for word in [...])] idiom of every rule, and the
    [combined] text of [categorize_book] (src/generate_organization.py,
    lines 75-80, repeated at 225-230 and 314-319).  Each operation comes
    with its specification: [contains] is proved equivalent to the
    existence of a decomposition [s = a ++ w ++ b]. *)

From Stdlib Require Import ZArith List String Ascii Bool Lia.
From stdpp Require Import base list strings.
From S2P Require Import Prelude.

Open Scope string_scope.
Open Scope list_scope.
Import ListNotations.

(** ** [str.lower] on ASCII characters *)

Definition lower_char (c : ascii) : ascii :=
  let n := nat_of_ascii c in
  if (65 <=? n)%nat && (n <=? 90)%nat then ascii_of_nat (n + 32) else c.

Fixpoint lower (s : string) : string :=
  match s with
  | EmptyString => EmptyString
  | String c s' => String (lower_char c) (lower s')
  end.

(** ** The substring test [w in s] *)

Fixpoint starts_with (w s : string) : bool :=
  match w, s with
  | EmptyString, _ => true
  | String c w', String d s' => Ascii.eqb c d && starts_with w' s'
  | String _ _, EmptyString => false
  end.

Fixpoint contains (w s : string) : bool :=
  starts_with w s ||
  match s with
  | EmptyString => false
  | String _ s' => contains w s'
  end.

(** [any(word in combined for word in ws)] *)
Definition any_in (ws : list string) (s : string) : bool :=
  existsb (fun w => contains w s) ws.

(** [x.lower() if x else ""]: [None] and [""] are falsy. *)
Definition lower_or_empty (x : option string) : string :=
  match x with Some s => lower s | None => "" end.

(** [f"{a} {b} {c} {d}"] *)
Definition join4 (a b c d : string) : string :=
  a +:+ " " +:+ b +:+ " " +:+ c +:+ " " +:+ d.

(** Lines 75-80: [title.lower()] raises [AttributeError] when the title is
    [None] (a short CSV row); the other three fields are guarded. *)
Definition combined_text (title tags group description : option string)
    : pyres string :=
  match title with
  | None => Err AttributeError
  | Some t =>
      Ok (join4 (lower t) (lower_or_empty tags) (lower_or_empty group)
                (lower_or_empty description))
  end.

(** ** Specification lemmas *)

(** stdpp makes [String.append] opaque to [simpl]; these two equations
    are its defining clauses. *)
Lemma str_app_nil s : "" +:+ s = s.
Proof. reflexivity. Qed.
Lemma str_app_cons c a s : String c a +:+ s = String c (a +:+ s).
Proof. reflexivity. Qed.

Ltac str_simpl := rewrite ?str_app_nil, ?str_app_cons in *.

Lemma str_app_assoc a b c : a +:+ b +:+ c = (a +:+ b) +:+ c.
Proof. induction a; str_simpl; congruence. Qed.

Lemma starts_with_spec w s : starts_with w s = true <-> exists b, s = w +:+ b.
Proof.
  revert s. induction w as [|c w IH]; intros [|d s]; simpl; str_simpl.
  - split; [by exists "" | done].
  - split; [by exists (String d s) | done].
  - split; [done | by intros [b Hb]].
  - rewrite andb_true_iff, IH, Ascii.eqb_eq. split.
    + intros [-> [b ->]]. by exists b.
    + intros [b Hb]. injection Hb as -> ->. eauto.
Qed.

Lemma contains_spec w s : contains w s = true <-> exists a b, s = a +:+ w +:+ b.
Proof.
  induction s as [|d s IH]; simpl; rewrite orb_true_iff, starts_with_spec.
  - split.
    + intros [[b Hb] | ?]; [exists "", b; exact Hb | discriminate].
    + intros [[|x a] [b Hb]]; str_simpl; [left; by exists b | discriminate].
  - rewrite IH. split.
    + intros [[b Hb] | [a [b Hb]]]; [exists "", b; exact Hb |].
      exists (String d a), b. str_simpl. by rewrite Hb.
    + intros [[|x a] [b Hb]]; str_simpl; [left; by exists b |].
      injection Hb as -> ->. right. eauto.
Qed.

Lemma contains_app_l w a s :
  contains w s = true -> contains w (a +:+ s) = true.
Proof.
  rewrite !contains_spec. intros [x [y ->]].
  exists (a +:+ x), y. by rewrite <- str_app_assoc.
Qed.

Lemma contains_app_r w s b :
  contains w s = true -> contains w (s +:+ b) = true.
Proof.
  rewrite !contains_spec. intros [x [y ->]].
  exists x, (y +:+ b). by rewrite <- !str_app_assoc.
Qed.

Lemma any_in_spec ws s :
  any_in ws s = true <-> exists w, In w ws /\ contains w s = true.
Proof. unfold any_in. by rewrite existsb_exists. Qed.

Lemma any_in_cons_contains w ws s :
  contains w s = true -> any_in (w :: ws) s = true.
Proof. simpl. intros ->. done. Qed.

Lemma lower_app a b : lower (a +:+ b) = lower a +:+ lower b.
Proof. induction a; simpl; str_simpl; simpl; congruence. Qed.

Lemma lower_char_idem c : lower_char (lower_char c) = lower_char c.
Proof. destruct c as [[] [] [] [] [] [] [] []]; reflexivity. Qed.

Lemma lower_idem s : lower (lower s) = lower s.
Proof. induction s; simpl; [done|]. by rewrite lower_char_idem, IHs. Qed.

(** What the title contributes to the combined text is found in it. *)
Lemma combined_text_title w t tags group description :
  contains w (lower t) = true ->
  combined_text (Some t) tags group description
    = Ok (join4 (lower t) (lower_or_empty tags) (lower_or_empty group)
               (lower_or_empty description)) /\
  contains w (join4 (lower t) (lower_or_empty tags) (lower_or_empty group)
                    (lower_or_empty description)) = true.
Proof. intros H. split; [done|]. unfold join4. by apply contains_app_r. Qed.

Lemma any_in_app l1 l2 s : any_in (l1 ++ l2) s = any_in l1 s || any_in l2 s.
Proof. unfold any_in. apply existsb_app. Qed.

(** A keyword list that matches a text matches every text containing it. *)
Lemma any_in_mono ws s1 s2 :
  (forall w, contains w s1 = true -> contains w s2 = true) ->
  any_in ws s1 = true -> any_in ws s2 = true.
Proof. rewrite !any_in_spec. intros H [w [Hw Hc]]. eauto. Qed.

(** Keywords found in the title are found in the combined text. *)
Lemma any_in_join4_title ws t b c d :
  any_in ws (lower t) = true -> any_in ws (join4 (lower t) b c d) = true.
Proof. apply any_in_mono. intros w. unfold join4. apply contains_app_r. Qed.

(** [case_keywords] decides a chain of keyword rules: it takes the
    leftmost substring test of the outermost [if] and splits on it, then
    reduces the boolean connectives, until no rule is left undecided. *)
Ltac case_keywords :=
  unfold any_in in *; cbn [existsb] in *;
  repeat (match goal with
          | |- context [if ?c then _ else _] =>
              match c with context [contains ?w ?s] => destruct (contains w s) end
          end; cbn [orb andb negb] in *).

#[export] Hint Resolve contains_app_l contains_app_r any_in_cons_contains : inventory.
#[export] Hint Rewrite lower_app lower_idem : inventory.
