(* ===== verification/Shelves.v ===== *)
(** * Shelf configuration and the categorizer interface

    The two module-level constants of src/generate_organization.py,
    [SHELF_DIMENSIONS] (lines 13-20) and [ORGANIZATION] (lines 23-52), as
    ordered dictionaries; a CSV row ([item]); the location a categorizer
    returns; and the interface [ValidCategorizer] that
    [calculate_space_usage] relies on: every location a categorizer
    returns names a shelf of the configuration and one of its rows.  Each
    of the three categorizers of the script discharges it in its own file. *)

From Stdlib Require Import ZArith List String Bool Lia.
From stdpp Require Import base list strings.
From S2P Require Import Prelude.

Open Scope string_scope.
Open Scope list_scope.
Import ListNotations.

(** ** Data *)

(** A value of [SHELF_DIMENSIONS]: [{'rows': r, 'width': w, 'depth': d}]
    (inches). *)
Record shelf_dim := mk_shelf_dim { sd_rows : Z; sd_width : Z; sd_depth : Z }.

Definition SHELF_DIMENSIONS : dict string shelf_dim :=
  [("office_a", mk_shelf_dim 5 32 26);
   ("office_b", mk_shelf_dim 4 32 26);
   ("dining",   mk_shelf_dim 3 24 24);
   ("hallway",  mk_shelf_dim 2 16 16);
   ("crate_h",  mk_shelf_dim 1 32 12);
   ("crate_v",  mk_shelf_dim 1 12 32)].

Definition ORGANIZATION : dict string (dict Z string) :=
  [("office_a", [(1, "Core Language Learning"); (2, "Essential Programming & Math");
                 (3, "Core Science Textbooks"); (4, "Essential Philosophy");
                 (5, "Professional Writing & Development")]);
   ("office_b", [(1, "Philosophy & Political Thought");
                 (2, "Academic Textbooks & References");
                 (3, "Essays & Collections"); (4, "Gaming & Strategy")]);
   ("dining",   [(1, "Japanese Language & Asian Cooking");
                 (2, "Chinese Language & Global Cooking");
                 (3, "Other Languages & Kitchen References")]);
   ("hallway",  [(1, "History & Historical Works");
                 (2, "Literature, Fiction & Classics")]);
   ("crate_h",  [(1, "General Overflow Storage")]);
   ("crate_v",  [(1, "Mathematics, Science & References")])]%Z.

(** A row of [csv.DictReader]: column name to value; a value is [None]
    when the line has fewer fields than the header (DictReader's
    [restval]). *)
Definition item := dict string (option string).

(** [item.get(k, dflt)] *)
Definition item_get (it : item) (k : string) (dflt : option string) : option string :=
  dict_get_or k dflt it.

(** A [(shelf_id, row_num)] pair. *)
Definition location := (string * Z)%type.

(** [range(1, n + 1)] *)
Definition row_range (n : Z) : list Z :=
  map (fun i => Z.of_nat i + 1)%Z (seq 0 (Z.to_nat n)).

(** A location names a shelf of [dims] and one of its rows
    [1 .. rows]. *)
Definition valid_location (dims : dict string shelf_dim) (loc : location) : bool :=
  match dict_get loc.1 dims with
  | Some d => (1 <=? loc.2)%Z && (loc.2 <=? sd_rows d)%Z
  | None => false
  end.

(** ** The categorizer interface

    [calculate_space_usage(items, categorizer_func)] calls
    [categorizer_func(title, tags, group, description, item)]. *)

Definition categorizer : Type :=
  option string -> option string -> option string -> option string -> item ->
  pyres location.

(** What a categorizer promises its caller: every location it returns is
    a valid location of the configuration. *)
Class ValidCategorizer (dims : dict string shelf_dim) (cat : categorizer) : Prop :=
  categorizer_valid :
    forall title tags group description it loc,
      cat title tags group description it = Ok loc -> valid_location dims loc = true.

(** ** Lemmas *)

Lemma In_row_range n r : In r (row_range n) <-> (1 <= r <= n)%Z.
Proof.
  unfold row_range. rewrite in_map_iff. split.
  - intros [i [<- Hi]]. apply in_seq in Hi. lia.
  - intros Hr. exists (Z.to_nat (r - 1)). rewrite in_seq. lia.
Qed.

Lemma valid_location_spec dims sid r :
  valid_location dims (sid, r) = true <->
  exists d, dict_get sid dims = Some d /\ (1 <= r <= sd_rows d)%Z.
Proof.
  unfold valid_location; simpl. destruct (dict_get sid dims) as [d|].
  - rewrite andb_true_iff, !Z.leb_le. split; [eauto | intros [? [[= <-] ?]]; lia].
  - split; [done | by intros [? [? _]]].
Qed.

(** The locations a categorizer may return on the real configuration. *)
Definition all_locations : list location :=
  flat_map (fun '(sid, d) => map (fun r => (sid, r)) (row_range (sd_rows d)))
           SHELF_DIMENSIONS.

(** Whether each shelf of [ORGANIZATION] is a shelf of [SHELF_DIMENSIONS]
    whose rows are exactly the rows [ORGANIZATION] names, in order. *)
Definition organization_matches (dims : dict string shelf_dim)
    (org : dict string (dict Z string)) : bool :=
  forallb (fun '(sid, rows) =>
             match dict_get sid dims with
             | Some d => bool_decide (dict_keys rows = row_range (sd_rows d))
             | None => false
             end) org
  && bool_decide (dict_keys org = dict_keys dims).

#[export] Hint Resolve categorizer_valid : inventory.

Lemma row_range_NoDup n : NoDup (row_range n).
Proof.
  unfold row_range. apply (NoDup_fmap_2_strong (fun i : nat => Z.of_nat i + 1)%Z);
    [intros x y _ _ Hxy; lia | apply NoDup_seq].
Qed.

Lemma organization_matches_In dims org sid rows :
  organization_matches dims org = true -> In (sid, rows) org ->
  exists d, dict_get sid dims = Some d /\ dict_keys rows = row_range (sd_rows d).
Proof.
  unfold organization_matches. rewrite andb_true_iff, forallb_forall.
  intros [H _] Hin. specialize (H _ Hin). simpl in H.
  destruct (dict_get sid dims) as [d|]; [|done]. exists d. split; [done|].
  by apply bool_decide_eq_true_1 in H.
Qed.

(** The report's layout agrees with the configuration. *)
Lemma ORGANIZATION_matches : organization_matches SHELF_DIMENSIONS ORGANIZATION = true.
Proof. vm_compute. reflexivity. Qed.
