(* ===== verification/Width.v ===== *)
(** * Book width estimation

    [estimate_book_width] (src/generate_organization.py, lines 54-71).
    The function returns the floats 0.5, 0.75, 1.0, 1.25, 1.5 and 2.0;
    every one is a whole number of quarter inches, and so is every sum of
    them, so a width is modelled exactly as an integer count of quarter
    inches ([Z]): 2, 3, 4, 5, 6 and 8.  (A float sum of multiples of 0.25
    is exact below 2^51 inches, far beyond any collection.) *)

From Stdlib Require Import ZArith List Lia.
From stdpp Require Import base list.
From S2P Require Import Prelude.

Open Scope Z_scope.

(** A width in quarter inches. *)
Definition quarters := Z.

(** [estimate_book_width(pages: Optional[int])]: [not pages] holds for
    [None] and for [0]. *)
Definition estimate_book_width (pages : option Z) : quarters :=
  match pages with
  | None => 4
  | Some p =>
      if (p =? 0) || (p <=? 0) then 4
      else if p <=? 100 then 2
      else if p <=? 200 then 3
      else if p <=? 300 then 4
      else if p <=? 500 then 5
      else if p <=? 750 then 6
      else 8
  end.

(** Case analysis on the comparisons of [estimate_book_width]. *)
Ltac width_cases :=
  unfold estimate_book_width;
  repeat match goal with
  | |- context [?a =? ?b] => destruct (Z.eqb_spec a b)
  | |- context [?a <=? ?b] => destruct (Z.leb_spec a b)
  end; simpl; lia.

Lemma estimate_book_width_range pages :
  2 <= estimate_book_width pages <= 8.
Proof. destruct pages as [p|]; [width_cases | simpl; lia]. Qed.

#[export] Hint Resolve estimate_book_width_range : inventory.

(** ** Properties *)

(** On positive page counts the estimate is a non-decreasing step
    function: a longer book is never estimated thinner. *)
Theorem estimate_book_width_monotone (p q : Z) :
  0 < p -> p <= q -> estimate_book_width (Some p) <= estimate_book_width (Some q).
Proof. intros Hp Hpq. width_cases. Qed.

Lemma estimate_book_width_monotone_witness :
  (0 < 101 /\ 101 <= 300) /\
  estimate_book_width (Some 101) <= estimate_book_width (Some 300).
Proof.
  split; [lia|]. apply (estimate_book_width_monotone 101 300); lia.
Defined.

(** C31: the estimate on the whole integer line is not monotone: a book
    whose page count is unknown ([0], or a malformed [length] column) is
    estimated at 1.0", wider than a 1-page book (0.5"), contrary to the
    "monotonic step function of page count" of the specification. *)
Theorem estimate_book_width_unknown_wider :
  forall p, 0 < p <= 200 ->
  estimate_book_width (Some p) < estimate_book_width (Some 0).
Proof. intros p Hp. width_cases. Qed.

Lemma estimate_book_width_unknown_wider_witness :
  (0 < 1 <= 200) /\ estimate_book_width (Some 1) < estimate_book_width (Some 0).
Proof. split; [lia|]. apply estimate_book_width_unknown_wider; lia. Defined.
