(* ===== verification/PyInt.v ===== *)
(** * Python's [int(str)] on ASCII text

    [int(item.get('length', 0) or 0)] (src/generate_organization.py,
    line 198) and [int(sys.argv[3])] (src/frontend/scripts/
    selenium-screenshot.py, line 71) parse a decimal integer the way
    CPython's [int()] does with base 10: surrounding whitespace is
    stripped, one optional sign, then at least one digit, with single
    underscores allowed between digits; leading zeros are accepted.
    Anything else raises [ValueError], modelled as [None].

    Theorem: [int(str(n)) == n] for every integer ([py_int_roundtrip]). *)

From Stdlib Require Import ZArith List String Ascii Bool Lia.
From stdpp Require Import base list strings.
From S2P Require Import Prelude PyStr.

Open Scope string_scope.
Open Scope list_scope.
Import ListNotations.

(** ** Characters *)

(** [str.isspace] on ASCII: tab, newline, vertical tab, form feed,
    carriage return, the separators 0x1c-0x1f, and space. *)
Definition is_py_space (c : ascii) : bool :=
  let n := nat_of_ascii c in
  ((9 <=? n) && (n <=? 13) || (28 <=? n) && (n <=? 32))%nat.

Definition digit_value (c : ascii) : option Z :=
  let n := nat_of_ascii c in
  if ((48 <=? n) && (n <=? 57))%nat then Some (Z.of_nat n - 48)%Z else None.

(** ** Parsing *)

Fixpoint lstrip (s : string) : string :=
  match s with
  | String c s' => if is_py_space c then lstrip s' else s
  | EmptyString => EmptyString
  end.

Fixpoint rstrip (s : string) : string :=
  match s with
  | EmptyString => EmptyString
  | String c s' =>
      match rstrip s' with
      | EmptyString => if is_py_space c then EmptyString else String c EmptyString
      | r => String c r
      end
  end.

(** The digits after the sign; [after_digit] says whether the previous
    character was a digit, which an underscore and the end require. *)
Fixpoint parse_digits (s : string) (acc : Z) (after_digit : bool) : option Z :=
  match s with
  | EmptyString => if after_digit then Some acc else None
  | String c s' =>
      match digit_value c with
      | Some d => parse_digits s' (10 * acc + d)%Z true
      | None =>
          if Ascii.eqb c "_" && after_digit then parse_digits s' acc false else None
      end
  end.

Definition parse_signed (s : string) : option Z :=
  match s with
  | String "-" s' => option_map Z.opp (parse_digits s' 0 false)
  | String "+" s' => parse_digits s' 0 false
  | _ => parse_digits s 0 false
  end.

(** [int(s)]: [None] is [ValueError]. *)
Definition py_int (s : string) : option Z := parse_signed (rstrip (lstrip s)).

(** ** Printing: [str(n)] *)

Definition digit_char (d : Z) : ascii := ascii_of_nat (Z.to_nat d + 48).

(** Decimal digits of [n], most significant first; [fuel] bounds the
    number of digits and the bit length of [n + 1] is enough. *)
Fixpoint digits_of (fuel : nat) (n : Z) (tail : string) : string :=
  match fuel with
  | O => tail
  | S fuel' =>
      let tail' := String (digit_char (n mod 10)) tail in
      if (n <? 10)%Z then tail' else digits_of fuel' (n / 10) tail'
  end.

Definition py_str (n : Z) : string :=
  let m := Z.abs n in
  let ds := digits_of (Z.to_nat (Z.log2 (m + 1) + 1)) m EmptyString in
  if (n <? 0)%Z then String "-" ds else ds.

(** ** Lemmas *)

Lemma digit_cases d : (0 <= d < 10)%Z ->
  d = 0%Z \/ d = 1%Z \/ d = 2%Z \/ d = 3%Z \/ d = 4%Z \/
  d = 5%Z \/ d = 6%Z \/ d = 7%Z \/ d = 8%Z \/ d = 9%Z.
Proof. lia. Qed.

Lemma digit_char_value d : (0 <= d < 10)%Z -> digit_value (digit_char d) = Some d.
Proof. intros H. destruct (digit_cases d H) as [->|[->|[->|[->|[->|[->|[->|[->|[->| ->]]]]]]]]]; reflexivity. Qed.

Lemma digit_char_not_space d : (0 <= d < 10)%Z -> is_py_space (digit_char d) = false.
Proof. intros H. destruct (digit_cases d H) as [->|[->|[->|[->|[->|[->|[->|[->|[->| ->]]]]]]]]]; reflexivity. Qed.

(** A string that starts with a digit is parsed without a sign. *)
Lemma parse_signed_digit d s : (0 <= d < 10)%Z ->
  parse_signed (String (digit_char d) s) = parse_digits (String (digit_char d) s) 0 false.
Proof. intros H. destruct (digit_cases d H) as [->|[->|[->|[->|[->|[->|[->|[->|[->| ->]]]]]]]]]; reflexivity. Qed.

Lemma rstrip_last s c : is_py_space c = false -> rstrip (s +:+ String c "") = s +:+ String c "".
Proof.
  intros Hc. induction s as [|c' s IH]; str_simpl; simpl.
  - by rewrite Hc.
  - rewrite IH. destruct (s +:+ String c "") eqn:E; [|reflexivity].
    destruct s; str_simpl; discriminate.
Qed.

Lemma lstrip_first c s : is_py_space c = false -> lstrip (String c s) = String c s.
Proof. simpl. by intros ->. Qed.

(** Parsing the printed digits of [n] continues with accumulator [n]. *)
Lemma digits_of_S f n tail :
  digits_of (S f) n tail =
  if (n <? 10)%Z then String (digit_char (n mod 10)) tail
  else digits_of f (n / 10) (String (digit_char (n mod 10)) tail).
Proof. reflexivity. Qed.

Lemma digits_of_parse f n tail b :
  (0 <= n < 10 ^ Z.of_nat (S f))%Z ->
  parse_digits (digits_of (S f) n tail) 0 b = parse_digits tail n true.
Proof.
  revert n tail b. induction f as [|f IH]; intros n tail b Hn;
    rewrite Nat2Z.inj_succ, Z.pow_succ_r in Hn by lia;
    (assert (Hm : (0 <= n mod 10 < 10)%Z) by (apply Z.mod_pos_bound; lia)).
  - simpl in Hn. assert (n mod 10 = n)%Z by (apply Z.mod_small; lia).
    simpl. destruct (n <? 10)%Z; simpl; rewrite digit_char_value by done; f_equal; lia.
  - rewrite digits_of_S. destruct (Z.ltb_spec n 10).
    + simpl. rewrite digit_char_value by done. f_equal. rewrite Z.mod_small; lia.
    + rewrite IH by (split; [apply Z.div_pos | apply Z.div_lt_upper_bound]; lia).
      simpl. rewrite digit_char_value by done. f_equal.
      pose proof (Z.div_mod n 10). lia.
Qed.

Lemma digits_of_last f n tail : (0 <= n)%Z ->
  exists pre, digits_of (S f) n tail = pre +:+ String (digit_char (n mod 10)) tail.
Proof.
  revert n tail. induction f as [|f IH]; intros n tail Hn; simpl.
  - destruct (n <? 10)%Z; by exists "".
  - destruct (n <? 10)%Z; [by exists ""|].
    destruct (IH (n / 10)%Z (String (digit_char (n mod 10)) tail)) as [pre Hpre];
      [apply Z.div_pos; lia|].
    simpl in Hpre. rewrite Hpre.
    exists (pre +:+ String (digit_char ((n / 10) mod 10)) "").
    by rewrite <- str_app_assoc.
Qed.

Lemma digits_of_first f n tail : (0 <= n)%Z ->
  exists d rest, (0 <= d < 10)%Z /\ digits_of (S f) n tail = String (digit_char d) rest.
Proof.
  revert n tail. induction f as [|f IH]; intros n tail Hn; simpl;
    (assert (Hm : (0 <= n mod 10 < 10)%Z) by (apply Z.mod_pos_bound; lia)).
  - destruct (n <? 10)%Z; eauto.
  - destruct (n <? 10)%Z; [eauto|]. apply IH. apply Z.div_pos; lia.
Qed.

Lemma py_str_fuel m : (0 <= m)%Z ->
  (0 <= m < 10 ^ Z.of_nat (Z.to_nat (Z.log2 (m + 1) + 1)))%Z.
Proof.
  intros Hm. pose proof (Z.log2_nonneg (m + 1)).
  rewrite Z2Nat.id by lia.
  destruct (Z.log2_spec (m + 1)) as [_ Hlt]; [lia|].
  split; [lia|].
  enough (2 ^ (Z.log2 (m + 1) + 1) <= 10 ^ (Z.log2 (m + 1) + 1))%Z by lia.
  apply Z.pow_le_mono_l. lia.
Qed.

(** ** Round trip *)

(** [int(str(n)) == n]: parsing the decimal text of any integer gives
    the integer back. *)
Theorem py_int_roundtrip (n : Z) : py_int (py_str n) = Some n.
Proof.
  unfold py_int, py_str.
  set (m := Z.abs n). set (f := Z.to_nat (Z.log2 (m + 1) + 1)).
  assert (Hm : (0 <= m)%Z) by lia.
  assert (Hf : f = S (Nat.pred f)) by (unfold f; pose proof (Z.log2_nonneg (m + 1)); lia).
  pose proof (py_str_fuel m Hm) as Hfuel. fold f in Hfuel.
  assert (Hmod : (0 <= m mod 10 < 10)%Z) by (apply Z.mod_pos_bound; lia).
  destruct (digits_of_last (Nat.pred f) m "" Hm) as [pre Hpre].
  destruct (digits_of_first (Nat.pred f) m "" Hm) as [d [rest [Hd Hfirst]]].
  rewrite <- Hf in Hpre, Hfirst.
  destruct (Z.ltb_spec n 0).
  - rewrite lstrip_first by reflexivity.
    replace (String "-" (digits_of f m "")) with (String "-" pre +:+ String (digit_char (m mod 10)) "")
      by (rewrite Hpre; reflexivity).
    rewrite rstrip_last by (apply digit_char_not_space; done).
    rewrite str_app_cons, <- Hpre. simpl. rewrite Hf.
    rewrite digits_of_parse by (rewrite <- Hf; done). simpl. f_equal. lia.
  - rewrite Hfirst, lstrip_first by (apply digit_char_not_space; done).
    rewrite <- Hfirst, Hpre, rstrip_last by (apply digit_char_not_space; done).
    rewrite <- Hpre, Hfirst, parse_signed_digit, <- Hfirst by done. rewrite Hf.
    rewrite digits_of_parse by (rewrite <- Hf; done). simpl. f_equal. lia.
Qed.
