(* ===== verification/CsvReader.v ===== *)
(** * The CSV reader behind [parse_csv_file]

    [parse_csv_file] (src/generate_organization.py, lines 150-166) opens
    the export in text mode and iterates over
    [csv.DictReader(f, quoting=csv.QUOTE_MINIMAL)].  This file models
    what that call computes from the text of the file.

    - [translate_newlines]: text mode with universal newlines turns
      CR LF and a lone CR into LF before the reader sees the text.
    - [csv_step]: one transition of CPython's reader state machine
      ([parse_process_char] of Modules/_csv.c, dialect [excel]: comma,
      double quote, [doublequote], not [strict], no escape character),
      on a character or on the end-of-line signal [EOL] the reader
      feeds after every line.  A field longer than [field_limit]
      (131072 characters) raises [csv.Error].
    - [read_records]: [Reader_iternext] repeated: a record is returned
      when the state is back at [StartRecord] after an end of line; at
      the end of the text an unterminated quoted field is saved.
    - [dict_rows]: [DictReader]: the first record is the header, empty
      records are skipped, each record is zipped with the header, and the
      names a short record does not reach get [None] ([restval]).

    Python's [csv.writer] ([write_rows], [QUOTE_MINIMAL]) is modelled as
    the reference for the reader.  Theorems: reading back what the writer
    writes gives the records ([csv_roundtrip]); a row dict maps each
    header name to its column ([dict_row_columns]); an over-long field
    raises [csv.Error] ([csv_field_limit]), and nothing else does: an
    export of at most [field_limit] characters, malformed or not, is
    read without error ([read_records_short]).

    The text is the decoded file, one Rocq character per code point;
    decoding errors, NUL characters and the [restkey] entry of an
    over-long record (stored under the key [None], which no string key
    of the program reads) are not modelled. *)

From Stdlib Require Import ZArith NArith List String Ascii Bool Lia.
From stdpp Require Import base list strings.
From S2P Require Import Prelude PyStr Shelves.

Open Scope string_scope.
Open Scope list_scope.
Import ListNotations.

Module CsvReader.

(** ** Characters *)

Definition nl : ascii := ascii_of_nat 10.
Definition cr : ascii := ascii_of_nat 13.
Definition comma : ascii := ascii_of_nat 44.
Definition quote : ascii := ascii_of_nat 34.

(** Universal newlines: CR LF and a lone CR become LF. *)
Fixpoint translate_newlines (s : list ascii) : list ascii :=
  match s with
  | [] => []
  | c :: s' =>
      if Ascii.eqb c cr then
        match s' with
        | c2 :: s'' => if Ascii.eqb c2 nl then nl :: translate_newlines s''
                       else nl :: translate_newlines s'
        | [] => [nl]
        end
      else c :: translate_newlines s'
  end.

(** ** The reader state machine *)

Inductive pstate :=
  | StartRecord | StartField | EscapedChar | InField | InQuotedField
  | EscapeInQuotedField | QuoteInQuotedField | EatCrnl.

#[export] Instance pstate_eq_dec : EqDecision pstate.
Proof. solve_decision. Defined.

(** A character of a line, or the end-of-line signal the reader feeds
    after each line. *)
Inductive sym := Ch (c : ascii) | EOL.

Definition field_limit : N := 131072.

(** The parser's state: the control state, the fields of the record so
    far, and the current field (reversed) with its length. *)
Record reader := mk_reader {
  rd_state : pstate;
  rd_fields : list string;
  rd_field : list ascii;
  rd_len : N }.

Definition reset : reader := mk_reader StartRecord [] [] 0%N.

(** [parse_save_field] *)
Definition save_field (r : reader) (st : pstate) : reader :=
  mk_reader st (rd_fields r ++ [string_of_list_ascii (rev (rd_field r))]) [] 0%N.

(** [parse_add_char]: [csv.Error] once the field has [field_limit]
    characters. *)
Definition add_char (r : reader) (c : ascii) (st : pstate) : pyres reader :=
  if (field_limit <=? rd_len r)%N then Err CsvError
  else Ok (mk_reader st (rd_fields r) (c :: rd_field r) (N.succ (rd_len r))).

Definition set_state (r : reader) (st : pstate) : reader :=
  mk_reader st (rd_fields r) (rd_field r) (rd_len r).

Definition is_eol_char (c : ascii) : bool := Ascii.eqb c nl || Ascii.eqb c cr.

(** [START_FIELD] (also reached from [START_RECORD] on a normal
    character). *)
Definition start_field (r : reader) (x : sym) : pyres reader :=
  match x with
  | EOL => Ok (save_field r StartRecord)
  | Ch c =>
      if is_eol_char c then Ok (save_field r EatCrnl)
      else if Ascii.eqb c quote then Ok (set_state r InQuotedField)
      else if Ascii.eqb c comma then Ok (save_field r StartField)
      else add_char r c InField
  end.

(** [parse_process_char] *)
Definition csv_step (r : reader) (x : sym) : pyres reader :=
  match rd_state r with
  | StartRecord =>
      match x with
      | EOL => Ok r
      | Ch c => if is_eol_char c then Ok (set_state r EatCrnl) else start_field r x
      end
  | StartField => start_field r x
  | InField =>
      match x with
      | EOL => Ok (save_field r StartRecord)
      | Ch c =>
          if is_eol_char c then Ok (save_field r EatCrnl)
          else if Ascii.eqb c comma then Ok (save_field r StartField)
          else add_char r c InField
      end
  | InQuotedField =>
      match x with
      | EOL => Ok r
      | Ch c => if Ascii.eqb c quote then Ok (set_state r QuoteInQuotedField)
                else add_char r c InQuotedField
      end
  | QuoteInQuotedField =>
      match x with
      | EOL => Ok (save_field r StartRecord)
      | Ch c =>
          if Ascii.eqb c quote then add_char r c InQuotedField
          else if Ascii.eqb c comma then Ok (save_field r StartField)
          else if is_eol_char c then Ok (save_field r EatCrnl)
          else add_char r c InField
      end
  | EatCrnl =>
      match x with
      | EOL => Ok (set_state r StartRecord)
      | Ch c => if is_eol_char c then Ok r else Err CsvError
      end
  (** No escape character in the [excel] dialect: never reached. *)
  | EscapedChar | EscapeInQuotedField => Ok r
  end.

(** ** Lines and records *)

(** The symbols the reader is fed: the characters of each line (a line
    ends after a newline), each line followed by [EOL]. *)
Fixpoint line_syms (s : list ascii) : list sym :=
  match s with
  | [] => []
  | c :: s' => Ch c :: (if Ascii.eqb c nl then EOL :: line_syms s' else line_syms s')
  end.

(** Whether the last line has no newline (it still gets its [EOL]). *)
Definition ends_open (s : list ascii) : bool :=
  match last s with
  | None => false
  | Some c => negb (Ascii.eqb c nl)
  end.

Definition reader_syms (s : list ascii) : list sym :=
  line_syms s ++ (if ends_open s then [EOL] else []).

(** [Reader_iternext] repeated until the end of the text or an error:
    the records and the error that stopped the reading, if any.  A record
    is complete when an end of line leaves the state at [StartRecord]. *)
Fixpoint run (r : reader) (xs : list sym) : list (list string) * option py_error :=
  match xs with
  | [] =>
      if (negb (rd_len r =? 0)%N) || bool_decide (rd_state r = InQuotedField)
      then ([rd_fields (save_field r StartRecord)], None)
      else ([], None)
  | x :: xs' =>
      match csv_step r x with
      | Err e => ([], Some e)
      | Ok r' =>
          match x, rd_state r' with
          | EOL, StartRecord =>
              let '(rs, e) := run reset xs' in (rd_fields r' :: rs, e)
          | _, _ => run r' xs'
          end
      end
  end.

(** [csv.reader] on the text of a file opened in text mode. *)
Definition read_records (text : string) : list (list string) * option py_error :=
  run reset (reader_syms (translate_newlines (list_ascii_of_string text))).

(** ** [csv.DictReader] *)

(** [dict(zip(fieldnames, row))], then [restval] ([None]) for the names a
    short row does not reach. *)
Definition dict_row (header row : list string) : item :=
  let d := fold_left (fun d '(k, v) => dict_set k (Some v) d) (combine header row) [] in
  fold_left (fun d k => dict_set k None d) (skipn (List.length row) header) d.

(** The rows [DictReader] yields, and the error that ended the
    iteration, if any. *)
Definition dict_rows (text : string) : list item * option py_error :=
  let '(recs, e) := read_records text in
  match recs with
  | [] => ([], e)
  | header :: rows => (map (dict_row header) (List.filter (fun r => negb (bool_decide (r = []))) rows), e)
  end.

(** ** The writer, as a reference

    [csv.writer(f).writerow(fields)] with the [excel] dialect and
    [QUOTE_MINIMAL]: a field with a comma, a double quote, CR or LF is
    quoted with its quotes doubled, a record made of one empty field is
    written as two quotes, and the line ends with CR LF.  The program
    itself writes no CSV; the writer serves to state what the reader
    reads. *)

Definition special (c : ascii) : bool := Ascii.eqb c comma || Ascii.eqb c quote || is_eol_char c.

Fixpoint double_quotes (s : list ascii) : list ascii :=
  match s with
  | [] => []
  | c :: s' => if Ascii.eqb c quote then quote :: quote :: double_quotes s' else c :: double_quotes s'
  end.

Definition write_field (f : list ascii) : list ascii :=
  if existsb special f then quote :: double_quotes f ++ [quote] else f.

Fixpoint join_fields (fs : list (list ascii)) : list ascii :=
  match fs with
  | [] => []
  | [f] => write_field f
  | f :: fs' => write_field f ++ comma :: join_fields fs'
  end.

Definition row_body (fs : list string) : list ascii :=
  if bool_decide (fs = [""]) then [quote; quote] else join_fields (map list_ascii_of_string fs).

Definition write_rows (rows : list (list string)) : string :=
  string_of_list_ascii (concat (map (fun fs => row_body fs ++ [cr; nl]) rows)).

(** The fields the round trip preserves: no CR (text mode turns it into
    LF) and at most [field_limit] characters. *)
Definition field_ok (f : string) : Prop :=
  ~ In cr (list_ascii_of_string f) /\ (N.of_nat (String.length f) <= field_limit)%N.

(** A record the round trip preserves: each field is preserved.  An
    empty record is written as a blank line, which [csv.reader] reads as
    an empty record. *)
Definition row_ok (fs : list string) : Prop := Forall field_ok fs.

#[export] Instance field_ok_dec f : Decision (field_ok f).
Proof. apply and_dec; [apply not_dec, in_dec, ascii_dec|apply _]. Defined.

#[export] Instance row_ok_dec fs : Decision (row_ok fs).
Proof. apply _. Defined.

(** An export as the inventory tool writes it: a header, a title with a
    comma, an empty record, a record of one empty field, a field with a
    double quote and a line break, an empty trailing field. *)
Definition sample_export : list (list string) :=
  [["item_type"; "title"; "creators"];
   ["book"; "Dune, Messiah"; "Frank Herbert"];
   [];
   [""];
   ["book"; String quote ("Genki" ++ String quote (String nl "I")); ""]].

(** Symbol sequences the reader is fed in text mode: no CR, and every
    newline is followed by the end-of-line signal. *)
Inductive fed : list sym -> Prop :=
| fed_nil : fed []
| fed_eol xs : fed xs -> fed (EOL :: xs)
| fed_ch c xs : Ascii.eqb c cr = false -> Ascii.eqb c nl = false -> fed xs -> fed (Ch c :: xs)
| fed_nl xs : fed xs -> fed (Ch nl :: EOL :: xs).

Fixpoint chars (xs : list sym) : nat :=
  match xs with [] => 0 | Ch _ :: xs' => S (chars xs') | EOL :: xs' => chars xs' end.

(** ** Steps of the reader *)

Lemma reader_eta r st : rd_state r = st -> r = mk_reader st (rd_fields r) (rd_field r) (rd_len r).
Proof. destruct r; simpl; congruence. Qed.

Lemma run_step r x xs r' :
  csv_step r x = Ok r' -> (x <> EOL \/ rd_state r' <> StartRecord) -> run r (x :: xs) = run r' xs.
Proof.
  intros Hs Hx. cbn [run]. rewrite Hs. destruct x; [reflexivity|].
  destruct Hx as [Hx|Hx]; [congruence|]. destruct (rd_state r'); congruence.
Qed.

Lemma run_emit r xs r' :
  csv_step r EOL = Ok r' -> rd_state r' = StartRecord ->
  run r (EOL :: xs) = let '(rs, e) := run reset xs in (rd_fields r' :: rs, e).
Proof. intros Hs Hx. cbn [run]. rewrite Hs, Hx. reflexivity. Qed.

Lemma add_char_ok r c st :
  (rd_len r < field_limit)%N ->
  add_char r c st = Ok (mk_reader st (rd_fields r) (c :: rd_field r) (N.succ (rd_len r))).
Proof. intros H. unfold add_char. destruct (N.leb_spec field_limit (rd_len r)); [lia|done]. Qed.

Lemma special_false c :
  special c = false ->
  Ascii.eqb c comma = false /\ Ascii.eqb c quote = false /\ is_eol_char c = false /\
  Ascii.eqb c nl = false.
Proof.
  unfold special, is_eol_char. rewrite !orb_false_iff. intros [[H1 H2] [H3 H4]]. auto.
Qed.

Lemma line_syms_app a b : line_syms (a ++ b) = line_syms a ++ line_syms b.
Proof. induction a as [|c a IH]; simpl; [done|]. destruct (Ascii.eqb c nl); simpl; by rewrite IH. Qed.

Lemma quote_nl : Ascii.eqb quote nl = false.
Proof. reflexivity. Qed.

(** The characters of an unquoted field. *)
Lemma run_unquoted f r ys :
  Forall (fun c => special c = false) f -> rd_state r = InField ->
  (rd_len r + N.of_nat (length f) <= field_limit)%N ->
  run r (line_syms f ++ ys) =
  run (mk_reader InField (rd_fields r) (rev f ++ rd_field r) (rd_len r + N.of_nat (length f))) ys.
Proof.
  revert r. induction f as [|c f IH]; intros r Hf Hst Hlen.
  - cbn. rewrite N.add_0_r. by rewrite <- reader_eta.
  - apply Forall_cons in Hf as [Hc Hf]. destruct (special_false c Hc) as (Hco & Hq & He & Hn).
    cbn [line_syms app]. rewrite Hn. simpl in Hlen.
    rewrite (run_step r (Ch c) _ (mk_reader InField (rd_fields r) (c :: rd_field r) (N.succ (rd_len r))));
      [|unfold csv_step; rewrite Hst, He, Hco; apply add_char_ok; lia|left; discriminate].
    rewrite IH by (simpl in *; done || lia). cbn [rev length rd_fields rd_field rd_len].
    rewrite <- app_assoc. do 2 f_equal. lia.
Qed.

(** The characters of a quoted field, quotes doubled; a newline inside it
    ends a line, and the reader goes on with the next one. *)
Lemma run_quoted f r ys :
  ~ In cr f -> rd_state r = InQuotedField ->
  (rd_len r + N.of_nat (length f) <= field_limit)%N ->
  run r (line_syms (double_quotes f) ++ ys) =
  run (mk_reader InQuotedField (rd_fields r) (rev f ++ rd_field r) (rd_len r + N.of_nat (length f))) ys.
Proof.
  revert r. induction f as [|c f IH]; intros r Hf Hst Hlen.
  - cbn. rewrite N.add_0_r. by rewrite <- reader_eta.
  - cbn [double_quotes]. apply not_in_cons in Hf as [_ Hf]. simpl in Hlen.
    set (r1 := mk_reader InQuotedField (rd_fields r) (c :: rd_field r) (N.succ (rd_len r))).
    assert (Hr1 : (rd_len r1 + N.of_nat (length f) <= field_limit)%N) by (simpl; lia).
    assert (Hend : run r1 (line_syms (double_quotes f) ++ ys) =
      run (mk_reader InQuotedField (rd_fields r) (rev (c :: f) ++ rd_field r)
                     (rd_len r + N.of_nat (length (c :: f)))) ys).
    { rewrite IH by done. cbn [rev length rd_fields rd_field rd_len r1].
      rewrite <- app_assoc. do 2 f_equal. lia. }
    destruct (Ascii.eqb c quote) eqn:Hq.
    + apply Ascii.eqb_eq in Hq. subst c. cbn [line_syms app]. rewrite quote_nl.
      rewrite (run_step r (Ch quote) _ (set_state r QuoteInQuotedField));
        [|unfold csv_step; rewrite Hst; reflexivity|left; discriminate].
      cbn [app]. rewrite (run_step _ (Ch quote) _ r1); [exact Hend| |left; discriminate].
      unfold csv_step. simpl. apply add_char_ok. cbn. lia.
    + assert (Hstep : csv_step r (Ch c) = Ok r1)
        by (unfold csv_step; rewrite Hst, Hq; apply add_char_ok; lia).
      cbn [line_syms app]. destruct (Ascii.eqb c nl) eqn:Hn.
      * rewrite (run_step r (Ch c) _ r1 Hstep) by (left; discriminate).
        cbn [app]. rewrite (run_step r1 EOL _ r1); [exact Hend|reflexivity|right; discriminate].
      * cbn [app]. rewrite (run_step r (Ch c) _ r1 Hstep) by (left; discriminate). exact Hend.
Qed.

(** ** Reading what the writer wrote *)

Lemma comma_nl : Ascii.eqb comma nl = false.
Proof. reflexivity. Qed.

Lemma line_syms_nl : line_syms [nl] = [Ch nl; EOL].
Proof. reflexivity. Qed.

Lemma existsb_false_Forall {A} (p : A -> bool) l : existsb p l = false -> Forall (fun x => p x = false) l.
Proof. induction l as [|x l IH]; simpl; [done|]. rewrite orb_false_iff. intros [? ?]. auto. Qed.

Lemma length_list_ascii_of_string s : length (list_ascii_of_string s) = String.length s.
Proof. induction s; simpl; auto. Qed.

(** A comma ends a field in every state a field can end in. *)
Lemma term_comma r :
  rd_state r = InField \/ rd_state r = QuoteInQuotedField \/ rd_state r = StartField \/
  rd_state r = StartRecord ->
  csv_step r (Ch comma) = Ok (save_field r StartField).
Proof. unfold csv_step, start_field. intros [H|[H|[H|H]]]; rewrite H; reflexivity. Qed.

(** A newline followed by the end of the line ends the record. *)
Lemma term_nl r ys :
  rd_state r = InField \/ rd_state r = QuoteInQuotedField \/ rd_state r = StartField ->
  run r (Ch nl :: EOL :: ys) =
  let '(rs, e) := run reset ys in (rd_fields (save_field r StartRecord) :: rs, e).
Proof.
  intros Hst. rewrite (run_step r (Ch nl) _ (save_field r EatCrnl)); [|
    unfold csv_step, start_field; destruct Hst as [H|[H|H]]; rewrite H; reflexivity|left; discriminate].
  by rewrite (run_emit _ _ (set_state (save_field r EatCrnl) StartRecord)).
Qed.

(** A quoted field from the start of a field. *)
Lemma run_quoted_field f r ys :
  ~ In cr f -> rd_state r = StartRecord \/ rd_state r = StartField -> rd_field r = [] ->
  rd_len r = 0%N -> (N.of_nat (length f) <= field_limit)%N ->
  run r (line_syms (quote :: double_quotes f ++ [quote]) ++ ys) =
  run (mk_reader QuoteInQuotedField (rd_fields r) (rev f) (N.of_nat (length f))) ys.
Proof.
  intros Hcr Hst Hfl Hl Hlen. cbn [line_syms app]. rewrite quote_nl.
  rewrite (run_step r (Ch quote) _ (set_state r InQuotedField)); [|
    unfold csv_step, start_field; destruct Hst as [H|H]; rewrite H; reflexivity|left; discriminate].
  rewrite line_syms_app, <- app_assoc, run_quoted; [|done|done|cbn; lia].
  cbn [line_syms app]. rewrite quote_nl. cbn [app].
  rewrite (run_step _ (Ch quote) _ (mk_reader QuoteInQuotedField (rd_fields r) (rev f) (N.of_nat (length f))));
    [done| |left; discriminate].
  cbn. by rewrite Hfl, Hl, app_nil_r.
Qed.

(** An unquoted, non-empty field from the start of a field. *)
Lemma run_plain_field c f r ys :
  Forall (fun c => special c = false) (c :: f) -> rd_state r = StartRecord \/ rd_state r = StartField ->
  rd_field r = [] -> rd_len r = 0%N -> (N.of_nat (length (c :: f)) <= field_limit)%N ->
  run r (line_syms (c :: f) ++ ys) =
  run (mk_reader InField (rd_fields r) (rev (c :: f)) (N.of_nat (length (c :: f)))) ys.
Proof.
  intros Hf Hst Hfl Hl Hlen. apply Forall_cons in Hf as [Hc Hf].
  destruct (special_false c Hc) as (Hco & Hq & He & Hn).
  assert (Hstep : csv_step r (Ch c) = Ok (mk_reader InField (rd_fields r) [c] 1%N)).
  { assert (Ha : add_char r c InField = Ok (mk_reader InField (rd_fields r) [c] 1%N))
      by (rewrite add_char_ok, Hfl, Hl; [done|rewrite Hl; reflexivity]).
    unfold csv_step, start_field. destruct Hst as [H|H]; by rewrite H, ?He, Hq, Hco. }
  cbn [line_syms app]. rewrite Hn, (run_step _ _ _ _ Hstep) by (left; discriminate).
  rewrite run_unquoted by (cbn in *; done || lia). cbn [rev length rd_fields rd_field rd_len].
  do 2 f_equal. lia.
Qed.

(** A field as the writer writes it: afterwards the reader holds the
    field, in a state where a comma or a newline ends it. *)
Lemma run_write_field f r ys :
  ~ In cr f -> rd_state r = StartRecord \/ rd_state r = StartField -> rd_field r = [] ->
  rd_len r = 0%N -> (N.of_nat (length f) <= field_limit)%N ->
  exists st, (st = InField \/ st = QuoteInQuotedField \/ (f = [] /\ st = rd_state r)) /\
    run r (line_syms (write_field f) ++ ys) = run (mk_reader st (rd_fields r) (rev f) (N.of_nat (length f))) ys.
Proof.
  intros Hcr Hst Hfl Hl Hlen. unfold write_field. destruct (existsb special f) eqn:Hs.
  - exists QuoteInQuotedField. split; [auto|]. by apply run_quoted_field.
  - apply existsb_false_Forall in Hs. destruct f as [|c f].
    + exists (rd_state r). split; [auto|]. destruct r; cbn in *; by subst.
    + exists InField. split; [auto|]. by apply run_plain_field.
Qed.

Lemma save_field_fields st fs f n st' :
  rd_fields (save_field (mk_reader st fs (rev f) n) st') = fs ++ [string_of_list_ascii f].
Proof. cbn. by rewrite rev_involutive. Qed.

(** The fields of a record, as the writer joins them, up to the newline:
    the reader emits the record.  A record of one empty field is the one
    that would be read as a blank line. *)
Lemma run_join fs r ys :
  fs <> [] -> Forall (fun f => ~ In cr f /\ (N.of_nat (length f) <= field_limit)%N) fs ->
  rd_state r = StartRecord \/ rd_state r = StartField -> rd_field r = [] -> rd_len r = 0%N ->
  (rd_state r = StartRecord -> fs <> [[]]) ->
  run r (line_syms (join_fields fs) ++ Ch nl :: EOL :: ys) =
  let '(rs, e) := run reset ys in ((rd_fields r ++ map string_of_list_ascii fs) :: rs, e).
Proof.
  revert r. induction fs as [|f fs IH]; intros r Hne Hok Hst Hfl Hl Hsr; [done|].
  apply Forall_cons in Hok as [[Hcr Hlen] Hok]. destruct fs as [|f2 fs].
  - destruct (run_write_field f r (Ch nl :: EOL :: ys) Hcr Hst Hfl Hl Hlen) as (st & Hst' & Hrun).
    cbn [join_fields]. rewrite Hrun, term_nl, save_field_fields; [done|].
    destruct Hst' as [->|[->|[-> ->]]]; auto. destruct Hst as [H|H]; [|auto].
    by destruct (Hsr H).
  - destruct (run_write_field f r (line_syms (comma :: join_fields (f2 :: fs)) ++ Ch nl :: EOL :: ys)
      Hcr Hst Hfl Hl Hlen) as (st & Hst' & Hrun).
    change (join_fields (f :: f2 :: fs)) with (write_field f ++ comma :: join_fields (f2 :: fs)).
    rewrite line_syms_app, <- app_assoc, Hrun.
    cbn [line_syms app]. rewrite comma_nl. cbn [app].
    assert (Hc : csv_step (mk_reader st (rd_fields r) (rev f) (N.of_nat (length f))) (Ch comma) =
      Ok (save_field (mk_reader st (rd_fields r) (rev f) (N.of_nat (length f))) StartField)).
    { apply term_comma. cbn. destruct Hst' as [->|[->|[_ ->]]]; intuition. }
    rewrite (run_step _ _ _ _ Hc) by (left; discriminate).
    rewrite IH by (cbn; auto || done). cbn [map]. by rewrite save_field_fields, <- app_assoc.
Qed.

Lemma double_quotes_no_cr f : ~ In cr f -> ~ In cr (double_quotes f).
Proof.
  induction f as [|c f IH]; simpl; [done|]. intros H.
  destruct (Ascii.eqb c quote); simpl; intuition discriminate.
Qed.

Lemma join_fields_no_cr fs : Forall (fun f => ~ In cr f) fs -> ~ In cr (join_fields fs).
Proof.
  assert (Hw : forall f, ~ In cr f -> ~ In cr (write_field f)).
  { intros f Hf. unfold write_field. destruct (existsb special f); [|done].
    simpl. rewrite in_app_iff. simpl. pose proof (double_quotes_no_cr f Hf). intuition discriminate. }
  induction fs as [|f fs IH]; intros Hok; [simpl; tauto|]. apply Forall_cons in Hok as [Hf Hok].
  destruct fs as [|f2 fs]; [by apply Hw|].
  change (join_fields (f :: f2 :: fs)) with (write_field f ++ comma :: join_fields (f2 :: fs)).
  rewrite in_app_iff. simpl. pose proof (Hw f Hf). pose proof (IH Hok). intuition discriminate.
Qed.

Lemma field_ok_ascii f :
  field_ok f -> ~ In cr (list_ascii_of_string f) /\
  (N.of_nat (length (list_ascii_of_string f)) <= field_limit)%N.
Proof. by rewrite length_list_ascii_of_string. Qed.

Lemma row_body_no_cr fs : Forall field_ok fs -> ~ In cr (row_body fs).
Proof.
  intros Hok. unfold row_body. case_bool_decide; [simpl; intuition discriminate|].
  apply join_fields_no_cr, Forall_map. eapply Forall_impl; [exact Hok|]. intros f Hf. apply Hf.
Qed.

(** The records as the writer writes them, with LF line ends, followed
    by any text: the reader returns these records, then reads on. *)
Lemma run_rows rows ys :
  Forall row_ok rows ->
  run reset (line_syms (concat (map (fun fs => row_body fs ++ [nl]) rows)) ++ ys) =
  let '(rs, e) := run reset ys in (rows ++ rs, e).
Proof.
  destruct (run reset ys) as [rs e] eqn:Hys.
  induction rows as [|fs rows IH]; intros Hok; [done|].
  apply Forall_cons in Hok as [Hfs Hok].
  cbn [map concat]. rewrite <- app_assoc, !line_syms_app, line_syms_nl, <- !app_assoc. cbn [app].
  set (tl := line_syms (concat (map (fun fs => row_body fs ++ [nl]) rows)) ++ ys).
  assert (Htl : run reset tl = (rows ++ rs, e)) by (apply IH, Hok). clearbody tl.
  destruct fs as [|f0 fs0]; [change (row_body []) with (@nil ascii); cbn [line_syms app];
    rewrite (run_step reset (Ch nl) _ (set_state reset EatCrnl)) by (reflexivity || (right; discriminate));
    by rewrite (run_emit _ _ (set_state (set_state reset EatCrnl) StartRecord)), Htl|].
  remember (f0 :: fs0) as fs eqn:Efs. assert (Hne : fs <> []) by (by subst). clear Efs.
  unfold row_body. case_bool_decide as Hone.
  - change [quote; quote] with (quote :: double_quotes [] ++ [quote]).
    rewrite run_quoted_field, term_nl, Htl by (cbn; auto || lia). by rewrite Hone.
  - rewrite run_join, Htl; [|by destruct fs|..|done|done|].
    + cbn. by rewrite map_map, (map_ext _ id), map_id by apply string_of_list_ascii_of_string.
    + apply Forall_map. eapply Forall_impl; [exact Hfs|]. apply field_ok_ascii.
    + auto.
    + intros _ Hmap. apply Hone. destruct fs as [|f [|]]; try done. inversion Hmap as [Hf].
      rewrite <- (string_of_list_ascii_of_string f), Hf. reflexivity.
Qed.

Lemma translate_no_cr a b : ~ In cr a -> translate_newlines (a ++ b) = a ++ translate_newlines b.
Proof.
  induction a as [|c a IH]; intros H; [done|]. apply not_in_cons in H as [Hc H].
  cbn [app translate_newlines]. destruct (Ascii.eqb_spec c cr); [done|]. by rewrite IH.
Qed.

(** Text mode turns the writer's CR LF into LF. *)
Lemma translate_rows rows b :
  Forall row_ok rows ->
  translate_newlines (concat (map (fun fs => row_body fs ++ [cr; nl]) rows) ++ b) =
  concat (map (fun fs => row_body fs ++ [nl]) rows) ++ translate_newlines b.
Proof.
  induction rows as [|fs rows IH]; intros Hok; [done|]. apply Forall_cons in Hok as [Hfs Hok].
  cbn [map concat]. rewrite <- !app_assoc, translate_no_cr by (by apply row_body_no_cr).
  by rewrite <- IH.
Qed.

Lemma ends_open_rows rows : ends_open (concat (map (fun fs => row_body fs ++ [nl]) rows)) = false.
Proof.
  destruct rows as [|fs rows _] using rev_ind; [done|].
  rewrite map_app, concat_app. cbn [map concat]. rewrite app_nil_r, !app_assoc.
  unfold ends_open. by rewrite last_snoc.
Qed.

Lemma read_write_rows rows : Forall row_ok rows -> read_records (write_rows rows) = (rows, None).
Proof.
  intros Hok. unfold read_records, write_rows. rewrite list_ascii_of_string_of_list_ascii.
  rewrite <- (app_nil_r (concat _)), translate_rows, !app_nil_r by done.
  unfold reader_syms. rewrite ends_open_rows.
  rewrite run_rows by done. change (run reset []) with (@nil (list string), @None py_error).
  cbv iota beta. by rewrite app_nil_r.
Qed.

(** C13: Reading back the writer's output.  [csv.reader], on the text
    Python's [csv.writer] writes for a list of records (opened in text
    mode, as [parse_csv_file] opens the export), returns exactly those
    records and no error, provided no field holds a CR or more than
    [field_limit] characters. *)
Theorem csv_roundtrip rows : Forall row_ok rows -> read_records (write_rows rows) = (rows, None).
Proof. apply read_write_rows. Qed.

Lemma csv_roundtrip_witness :
  Forall row_ok sample_export /\ read_records (write_rows sample_export) = (sample_export, None).
Proof.
  assert (H : Forall row_ok sample_export) by (apply (bool_decide_unpack _ (dec := @Forall_dec _ row_ok row_ok_dec sample_export)); vm_compute; exact I).
  split; [exact H|exact (csv_roundtrip sample_export H)].
Defined.

(** ** The rows of [DictReader] *)

Lemma map_fst_combine {A B} (l : list A) (r : list B) : map fst (combine l r) = firstn (length r) l.
Proof.
  revert r. induction l as [|a l IH]; intros [|b r]; simpl; rewrite ?firstn_nil; [done..|].
  by rewrite IH.
Qed.

Lemma combine_lookup_In {A B} (l : list A) (r : list B) i a b :
  l !! i = Some a -> r !! i = Some b -> In (a, b) (combine l r).
Proof.
  revert i r. induction l as [|a' l IH]; intros i [|b' r] Hl Hr; destruct i; simpl in *;
    try discriminate; [left; congruence|right; eauto].
Qed.

(** With distinct names, [dict(zip(fieldnames, row))] followed by the
    [restval] loop is the zipped prefix followed by [None] for the rest. *)
Lemma dict_row_closed header row :
  NoDup header ->
  dict_row header row =
  map (fun '(k, v) => (k, Some v)) (combine header row) ++
  map (fun k => (k, None)) (skipn (length row) header).
Proof.
  intros Hnd. rewrite <- (firstn_skipn (length row) header) in Hnd.
  assert (Hkeys : dict_keys (map (fun '(k, v) => (k, Some v)) (combine header row)) =
                  firstn (length row) header).
  { unfold dict_keys. rewrite map_map, <- map_fst_combine. apply map_ext. by intros [k v]. }
  unfold dict_row. rewrite (fold_dict_set_pairs Some); cbn [app dict_keys map];
    [|rewrite map_fst_combine; by apply NoDup_app in Hnd as (? & _ & _)].
  rewrite (fold_dict_set_keys (fun _ => None)); [done|]. by rewrite Hkeys.
Qed.

Lemma dict_row_keys header row :
  NoDup header -> dict_keys (dict_row header row) = header.
Proof.
  intros Hnd. rewrite dict_row_closed by done. unfold dict_keys. rewrite map_app, !map_map.
  rewrite <- (firstn_skipn (length row) header) at 3. rewrite <- map_fst_combine. f_equal.
  - apply map_ext. by intros [k v].
  - apply map_id.
Qed.

(** C14: DictReader rows.  When the header names are distinct, the dict
    [DictReader] makes of a record has the header's names as its keys, in
    order, and the value under the [i]-th name is the [i]-th field of the
    record, or [None] ([restval]) when the record is shorter. *)
Theorem dict_row_columns header row :
  NoDup header ->
  dict_keys (dict_row header row) = header /\
  forall i k, header !! i = Some k -> dict_get k (dict_row header row) = Some (row !! i).
Proof.
  intros Hnd. split; [by apply dict_row_keys|]. intros i k Hi.
  apply dict_get_NoDup_In; [by rewrite dict_row_keys|].
  rewrite dict_row_closed, in_app_iff by done. destruct (row !! i) as [v|] eqn:Hv.
  - left. apply (in_map (fun '(k, v) => (k, Some v)) _ (k, v)). by apply (combine_lookup_In _ _ i).
  - right. apply (in_map (fun k => (k, None))), list_elem_of_In.
    apply lookup_ge_None_1 in Hv. apply (list_elem_of_lookup_2 _ (i - length row)).
    rewrite lookup_drop. by replace (length row + (i - length row)) with i by lia.
Qed.

Lemma dict_row_columns_witness :
  NoDup ["item_type"; "title"; "creators"] /\
  dict_get "creators" (dict_row ["item_type"; "title"; "creators"] ["book"; "Dune"]) = Some None.
Proof.
  assert (Hnd : NoDup ["item_type"; "title"; "creators"])
    by (apply (bool_decide_unpack (NoDup ["item_type"; "title"; "creators"])); vm_compute; exact I).
  split; [exact Hnd|].
  exact (proj2 (dict_row_columns ["item_type"; "title"; "creators"] ["book"; "Dune"] Hnd) 2 "creators" eq_refl).
Defined.

Lemma list_ascii_of_string_app a b :
  list_ascii_of_string (a ++ b) = list_ascii_of_string a ++ list_ascii_of_string b.
Proof. induction a as [|c a IH]; str_simpl; cbn; [done|]. by rewrite IH. Qed.

(** An unquoted field longer than [field_limit] stops the reader with
    [csv.Error] at its [field_limit + 1]-th character. *)
Lemma run_field_too_long f ys :
  Forall (fun c => special c = false) f -> (field_limit < N.of_nat (length f))%N ->
  run reset (line_syms f ++ ys) = ([], Some CsvError).
Proof.
  intros Hf Hlen. set (k := N.to_nat field_limit).
  rewrite <- (firstn_skipn k f) in Hf |- *. apply Forall_app in Hf as [Hf1 Hf2].
  assert (Hk : length (firstn k f) = k) by (apply firstn_length_le; lia).
  destruct (skipn k f) as [|c f2] eqn:Hs; [apply (f_equal length) in Hs; rewrite length_skipn in Hs; simpl in Hs; lia|].
  destruct (firstn k f) as [|c1 f1] eqn:Hf1e; [simpl in Hk; unfold k in Hk; done|].
  apply Forall_cons in Hf2 as [Hc _]. destruct (special_false c Hc) as (Hco & Hq & He & Hn).
  rewrite line_syms_app, <- app_assoc, run_plain_field by (first [exact Hf1 | rewrite Hk; unfold k; lia | cbn; auto]).
  cbn [line_syms app]. rewrite Hn. cbn [app run]. unfold csv_step. cbn [rd_state]. rewrite He, Hco.
  unfold add_char. cbn [rd_len]. rewrite Hk. unfold k. by rewrite N2Nat.id, N.leb_refl.
Qed.

(** The records before an over-long field, then [csv.Error]. *)
Lemma read_records_field_limit rows f rest :
  Forall row_ok rows -> Forall (fun c => special c = false) f -> (field_limit < N.of_nat (length f))%N ->
  read_records (write_rows rows ++ string_of_list_ascii f ++ rest) = (rows, Some CsvError).
Proof.
  intros Hok Hf Hlen. unfold read_records, write_rows.
  rewrite !list_ascii_of_string_app, !list_ascii_of_string_of_list_ascii, translate_rows by done.
  rewrite translate_no_cr by (intros Hin; eapply List.Forall_forall in Hf; [|exact Hin]; discriminate).
  unfold reader_syms. rewrite !line_syms_app, <- !app_assoc, run_rows by done.
  rewrite run_field_too_long by done. cbv iota beta. by rewrite app_nil_r.
Qed.

(** C15: Field size limit.  After records written by the writer, an
    unquoted field of more than [field_limit] (131072) characters makes
    [csv.reader] raise [csv.Error], whatever text follows; the records
    before it have been returned. *)
Theorem csv_field_limit rows f rest :
  Forall row_ok rows -> Forall (fun c => special c = false) f -> (field_limit < N.of_nat (length f))%N ->
  read_records (write_rows rows ++ string_of_list_ascii f ++ rest) = (rows, Some CsvError).
Proof. exact (read_records_field_limit rows f rest). Qed.

Lemma csv_field_limit_witness :
  Forall row_ok [["item_type"; "title"]] /\
  Forall (fun c => special c = false) (repeat "a"%char (S (N.to_nat field_limit))) /\
  (field_limit < N.of_nat (length (repeat "a"%char (S (N.to_nat field_limit)))))%N /\
  read_records (write_rows [["item_type"; "title"]] ++ string_of_list_ascii (repeat "a"%char (S (N.to_nat field_limit))) ++ ",Dune")
  = ([["item_type"; "title"]], Some CsvError).
Proof.
  assert (H1 : Forall row_ok [["item_type"; "title"]])
    by (apply (bool_decide_unpack _ (dec := @Forall_dec _ row_ok row_ok_dec _)); vm_compute; exact I).
  assert (H2 : Forall (fun c => special c = false) (repeat "a"%char (S (N.to_nat field_limit))))
    by (apply List.Forall_forall; intros c Hc; apply repeat_spec in Hc; by subst).
  assert (H3 : (field_limit < N.of_nat (length (repeat "a"%char (S (N.to_nat field_limit)))))%N)
    by (rewrite repeat_length; vm_compute; reflexivity).
  split; [exact H1|]. split; [exact H2|]. split; [exact H3|].
  exact (csv_field_limit _ _ ",Dune" H1 H2 H3).
Defined.

(** ** Errors of the reader *)

Lemma step_ok r x :
  rd_state r <> EatCrnl -> (x = EOL \/ rd_len r < field_limit)%N ->
  (forall c, x = Ch c -> Ascii.eqb c cr = false) ->
  exists r', csv_step r x = Ok r' /\ (rd_len r' <= rd_len r + (if x is Ch _ then 1 else 0))%N /\
    (rd_state r' = EatCrnl -> x = Ch nl).
Proof.
  intros Hst Hx Hcr. unfold csv_step, start_field, add_char, set_state, save_field.
  destruct x as [c|]; [specialize (Hcr c eq_refl); destruct Hx as [Hx|Hx]; [discriminate|]|].
  - assert (Hl : (field_limit <=? rd_len r)%N = false) by (apply N.leb_gt; lia).
    unfold is_eol_char. rewrite Hcr, orb_false_r, Hl.
    destruct (rd_state r) eqn:Est; try congruence;
      repeat match goal with
      | |- context [if ?b then _ else _] => destruct b eqn:?
      end; eexists; (split; [reflexivity|]); cbn; split; try lia; intros; try congruence;
      try (f_equal; apply Ascii.eqb_eq; assumption).

  - destruct (rd_state r) eqn:Est; try congruence; eexists; (split; [reflexivity|]); cbn; split; try lia;
      intros; congruence.
Qed.

Lemma step_eol r : exists r', csv_step r EOL = Ok r' /\ (rd_len r' <= rd_len r)%N /\ rd_state r' <> EatCrnl.
Proof.
  unfold csv_step, start_field, set_state, save_field.
  destruct (rd_state r) eqn:Est; eexists; (split; [reflexivity|]); cbn; split; try lia; congruence.
Qed.

Lemma run_eol_none xs :
  (forall r0, rd_state r0 <> EatCrnl -> (rd_len r0 + N.of_nat (chars xs) <= field_limit)%N ->
     snd (run r0 xs) = None) ->
  forall r, (rd_len r + N.of_nat (chars xs) <= field_limit)%N -> snd (run r (EOL :: xs)) = None.
Proof.
  intros IH r Hl. destruct (step_eol r) as (r' & Hs & Hl' & Hst').
  cbn [run]. rewrite Hs. destruct (rd_state r') eqn:E; try (apply IH; [congruence|lia]).
  destruct (run reset xs) as [rs e] eqn:Er. cbn. change e with (snd (rs, e)). rewrite <- Er.
  apply IH; cbn; [congruence|lia].
Qed.

Lemma run_fed_no_error xs :
  fed xs -> forall r, rd_state r <> EatCrnl -> (rd_len r + N.of_nat (chars xs) <= field_limit)%N ->
  snd (run r xs) = None.
Proof.
  induction 1 as [|xs Hf IH|c xs Hcr Hnl Hf IH|xs Hf IH]; intros r Hst Hl.
  - cbn. by case_match.
  - by apply run_eol_none.
  - cbn [chars] in Hl. destruct (step_ok r (Ch c)) as (r' & Hs & Hl' & Hst'); [done|right; lia|by intros ? [= <-]|].
    rewrite (run_step _ _ _ _ Hs) by (left; discriminate). apply IH; [|cbn in Hl'; lia].
    intros He. specialize (Hst' He). injection Hst' as ->. by rewrite Ascii.eqb_refl in Hnl.
  - cbn [chars] in Hl. destruct (step_ok r (Ch nl)) as (r' & Hs & Hl' & _); [done|right; lia|by intros ? [= <-]|].
    rewrite (run_step _ _ _ _ Hs) by (left; discriminate). apply run_eol_none; [exact IH|cbn in Hl'; lia].
Qed.

Lemma translate_no_cr_all l : Forall (fun c => Ascii.eqb c cr = false) (translate_newlines l).
Proof.
  remember (length l) as n eqn:Hn. revert l Hn. induction n as [n IH] using lt_wf_ind.
  intros [|c l] Hn; [constructor|]. cbn [translate_newlines]. simpl in Hn.
  destruct (Ascii.eqb c cr) eqn:Hc.
  - destruct l as [|c2 l]; [repeat constructor|]. simpl in Hn.
    destruct (Ascii.eqb c2 nl); (constructor; [reflexivity|eapply IH; [|reflexivity]; simpl; lia]).
  - constructor; [done|]. eapply IH; [|reflexivity]. lia.
Qed.

Lemma translate_length l : length (translate_newlines l) <= length l.
Proof.
  remember (length l) as n eqn:Hn. revert l Hn. induction n as [n IH] using lt_wf_ind.
  intros [|c l] Hn; [simpl; lia|]. cbn [translate_newlines]. simpl in Hn.
  destruct (Ascii.eqb c cr).
  - destruct l as [|c2 l]; [simpl; lia|]. simpl in Hn.
    destruct (Ascii.eqb c2 nl); cbn [length];
      [specialize (IH (length l) ltac:(lia) l eq_refl) | specialize (IH (S (length l)) ltac:(lia) (c2 :: l) eq_refl)];
      simpl in *; lia.
  - cbn [length]. specialize (IH (length l) ltac:(lia) l eq_refl). lia.
Qed.

Lemma fed_line_syms s tail :
  Forall (fun c => Ascii.eqb c cr = false) s -> fed tail -> fed (line_syms s ++ tail).
Proof.
  intros Hs Ht. induction Hs as [|c s Hc Hs IH]; [exact Ht|]. cbn [line_syms].
  destruct (Ascii.eqb c nl) eqn:Hn.
  - apply Ascii.eqb_eq in Hn as ->. by apply fed_nl.
  - by apply fed_ch.
Qed.

Lemma chars_line_syms s tail : chars (line_syms s ++ tail) = length s + chars tail.
Proof. induction s as [|c s IH]; [done|]. cbn [line_syms]. destruct (Ascii.eqb c nl); cbn; by rewrite IH. Qed.

(** C18: in text mode the reader raises [csv.Error] only on an over-long
    field: an export of at most [field_limit] (131072) characters is read
    without error whatever it holds; unbalanced or stray quotes and blank
    lines are read as records, not rejected. *)
Theorem read_records_short text :
  (N.of_nat (String.length text) <= field_limit)%N -> snd (read_records text) = None.
Proof.
  intros Hl. unfold read_records, reader_syms.
  pose proof (translate_no_cr_all (list_ascii_of_string text)) as Hcr.
  pose proof (translate_length (list_ascii_of_string text)) as Hlen.
  rewrite length_list_ascii_of_string in Hlen.
  apply run_fed_no_error; [| cbn; discriminate |].
  - apply fed_line_syms; [exact Hcr|]. case_match; repeat constructor.
  - rewrite chars_line_syms. cbn [rd_len reset]. case_match; cbn; lia.
Qed.

(** A malformed export: the quote opened before [Dune] is never closed. *)
Lemma read_records_short_witness :
  (N.of_nat (String.length ("item_type,title" +:+ String nl ("book," +:+ String quote "Dune"))) <= field_limit)%N /\
  snd (read_records ("item_type,title" +:+ String nl ("book," +:+ String quote "Dune"))) = None.
Proof.
  assert (H : (N.of_nat (String.length ("item_type,title" +:+ String nl ("book," +:+ String quote "Dune")))
               <= field_limit)%N) by (vm_compute; discriminate).
  split; [exact H|exact (read_records_short _ H)].
Defined.

Lemma read_records_unclosed_quote :
  read_records ("item_type,title" +:+ String nl ("book," +:+ String quote "Dune")) =
  ([["item_type"; "title"]; ["book"; "Dune"]], None).
Proof. vm_compute. reflexivity. Qed.

End CsvReader.
