(* ===== verification/Categorize.v ===== *)
(** * The rule-based classifier [categorize_book]

    [categorize_book] (src/generate_organization.py, lines 73-148): the
    lowercased fields are joined into [combined] (lines 75-80, modelled by
    [PyStr.combined_text]) and an ordered chain of keyword rules picks the
    first matching [(shelf, row)]; [("crate_h", 1)] is the default.

    Theorems: the chain is the first-match evaluation of an explicit
    ordered rule table; every location it returns is a row of
    [SHELF_DIMENSIONS] (the [ValidCategorizer] instance); the first rule
    dominates every other field; and the default is returned exactly when
    no triggering keyword occurs. *)

From Stdlib Require Import ZArith List String Bool Lia.
From stdpp Require Import base list strings.
From S2P Require Import Prelude PyStr Shelves.

Open Scope string_scope.
Open Scope list_scope.
Import ListNotations.

Module Categorize.

(** ** The keyword lists of the rules, in source order *)

Definition core_language_words := ["genki"; "tobira"; "integrated chinese"; "kanji for international"].
Definition essential_cs_words := ["algorithms"; "clean code"; "programming language"; "knuth"; "art of computer"].
Definition core_science_words := ["physics"; "chemistry"].
Definition essential_philosophy_words := ["kant"; "groundwork"; "nietzsche"; "republic"; "analects"].
Definition professional_words := ["writer's reference"; "writing"; "professional"].
Definition language_words := ["japanese"; "chinese"; "korean"; "language"; "dictionary"; "grammar"].
Definition history_words := ["history"; "historical"; "revolution"; "war"; "ancient"; "medieval"].
Definition literature_words := ["dover"; "classics"; "poetry"; "shakespeare"; "literature"; "fiction"; "novel"].
Definition math_science_words := ["mathematics"; "math"; "dover"; "logic"; "science"; "reference"].
Definition gaming_words := ["game"; "gaming"; "rpg"; "d&d"; "strategy"; "chess"].
Definition philosophy_words := ["philosophy"; "political"; "ethics"; "tao"].
Definition academic_words := ["textbook"; "academic"; "university"].
Definition essay_words := ["uncle john"; "essay"; "anthology"; "collection"].
Definition cooking_words := ["cooking"; "cook"; "food"; "recipe"; "kitchen"; "culinary"].
Definition asian_cooking_words := ["asian"; "japanese"; "chinese"; "sushi"; "wok"].
Definition global_cooking_words := ["bittman"; "international"; "global"].

(** ** The rule chain on the combined text (lines 82-148) *)

Definition categorize_combined (combined : string) : location :=
  if any_in core_language_words combined then ("office_a", 1%Z)
  else if any_in essential_cs_words combined then ("office_a", 2%Z)
  else if any_in core_science_words combined && contains "textbook" combined
  then ("office_a", 3%Z)
  else if any_in essential_philosophy_words combined then ("office_a", 4%Z)
  else if any_in professional_words combined then ("office_a", 5%Z)
  else if any_in language_words combined && negb (contains "cooking" combined) then
    (if contains "japanese" combined || contains "kanji" combined then ("dining", 1%Z)
     else if contains "chinese" combined then ("dining", 2%Z)
     else ("dining", 3%Z))
  else if any_in history_words combined then ("hallway", 1%Z)
  else if any_in literature_words combined then ("hallway", 2%Z)
  else if any_in math_science_words combined then ("crate_v", 1%Z)
  else if any_in gaming_words combined then ("office_b", 4%Z)
  else if any_in philosophy_words combined then ("office_b", 1%Z)
  else if any_in academic_words combined then ("office_b", 2%Z)
  else if any_in essay_words combined then ("office_b", 3%Z)
  else if any_in cooking_words combined then
    (if any_in asian_cooking_words combined then ("dining", 1%Z)
     else if any_in global_cooking_words combined then ("dining", 2%Z)
     else ("dining", 3%Z))
  else ("crate_h", 1%Z).

(** [categorize_book(title, tags, group, description, item=None)]
    (lines 73-148); the item argument is unused. *)
Definition categorize_book : categorizer :=
  fun title tags group description _ =>
    combined <- combined_text title tags group description ;;
    Ok (categorize_combined combined).

(** ** The ordered rule table

    The specification describes the classifier as a literal ordered table
    of (predicate, destination) pairs evaluated first-match-wins.  A rule
    maps the combined text to [Some] destination when it fires. *)

Definition rule := string -> option location.

Definition kw_rule (ws : list string) (dest : location) : rule :=
  fun s => if any_in ws s then Some dest else None.

Fixpoint first_match (rules : list rule) (dflt : location) (s : string) : location :=
  match rules with
  | [] => dflt
  | r :: rs => match r s with Some l => l | None => first_match rs dflt s end
  end.

Definition categorize_rules : list rule :=
  [kw_rule core_language_words ("office_a", 1%Z);
   kw_rule essential_cs_words ("office_a", 2%Z);
   (fun s => if any_in core_science_words s && contains "textbook" s
             then Some ("office_a", 3%Z) else None);
   kw_rule essential_philosophy_words ("office_a", 4%Z);
   kw_rule professional_words ("office_a", 5%Z);
   (fun s => if any_in language_words s && negb (contains "cooking" s) then
               Some (if contains "japanese" s || contains "kanji" s then ("dining", 1%Z)
                     else if contains "chinese" s then ("dining", 2%Z)
                     else ("dining", 3%Z))
             else None);
   kw_rule history_words ("hallway", 1%Z);
   kw_rule literature_words ("hallway", 2%Z);
   kw_rule math_science_words ("crate_v", 1%Z);
   kw_rule gaming_words ("office_b", 4%Z);
   kw_rule philosophy_words ("office_b", 1%Z);
   kw_rule academic_words ("office_b", 2%Z);
   kw_rule essay_words ("office_b", 3%Z);
   (fun s => if any_in cooking_words s then
               Some (if any_in asian_cooking_words s then ("dining", 1%Z)
                     else if any_in global_cooking_words s then ("dining", 2%Z)
                     else ("dining", 3%Z))
             else None)].

(** The keywords whose presence makes some rule fire on its own: every
    outer keyword list except [physics]/[chemistry], which fire only
    together with [textbook] (itself a trigger of the academic rule). *)
Definition default_triggers : list string :=
  core_language_words ++ essential_cs_words ++ essential_philosophy_words ++
  professional_words ++ language_words ++ history_words ++ literature_words ++
  math_science_words ++ gaming_words ++ philosophy_words ++ academic_words ++
  essay_words ++ cooking_words.

(** ** Properties *)

(** The chain of conditionals is the first-match evaluation of the
    ordered rule table [categorize_rules] with default [("crate_h", 1)]. *)
Theorem categorize_combined_first_match (s : string) :
  categorize_combined s = first_match categorize_rules ("crate_h", 1%Z) s.
Proof.
  unfold categorize_combined, categorize_rules, kw_rule. simpl.
  case_ifs; reflexivity.
Qed.

Lemma categorize_combined_valid (s : string) :
  valid_location SHELF_DIMENSIONS (categorize_combined s) = true.
Proof. unfold categorize_combined. case_ifs; reflexivity. Qed.

(** [categorize_book] fulfils the categorizer interface: every location it
    returns is a row of [SHELF_DIMENSIONS], so the row lookup of
    [calculate_space_usage] never raises [KeyError] on its result. *)
#[export] Instance categorize_book_valid : ValidCategorizer SHELF_DIMENSIONS categorize_book.
Proof.
  intros title tags group description it loc. unfold categorize_book.
  destruct (combined_text title tags group description); [|discriminate].
  intros [= <-]. apply categorize_combined_valid.
Qed.

(** C33: the only way [categorize_book] fails is a [None] title
    ([AttributeError] on [title.lower()]); with a string title it always
    returns a row of [SHELF_DIMENSIONS]. *)
Theorem categorize_book_total_valid (t : string) tags group description it :
  exists loc, categorize_book (Some t) tags group description it = Ok loc /\
              valid_location SHELF_DIMENSIONS loc = true.
Proof.
  eexists. split; [reflexivity|]. apply categorize_combined_valid.
Qed.

(** First match wins: a title that contains a core language-learning
    keyword is shelved on office A, row 1, whatever its tags, group and
    description say. *)
Theorem categorize_book_core_language (t : string) tags group description it :
  any_in core_language_words (lower t) = true ->
  categorize_book (Some t) tags group description it = Ok ("office_a", 1%Z).
Proof.
  intros H. unfold categorize_book, combined_text, categorize_combined.
  by rewrite (any_in_join4_title _ _ _ _ _ H).
Qed.

Lemma categorize_book_core_language_witness :
  any_in core_language_words (lower "Genki I") = true /\
  categorize_book (Some "Genki I") (Some "Fiction") None (Some "A war novel") []
    = Ok ("office_a", 1%Z).
Proof.
  split; [reflexivity|]. apply categorize_book_core_language. reflexivity.
Defined.

(** The default location [("crate_h", 1)] is returned exactly when
    none of the triggering keywords occurs in the combined text. *)
Theorem categorize_combined_default (s : string) :
  categorize_combined s = ("crate_h", 1%Z) <-> any_in default_triggers s = false.
Proof.
  unfold default_triggers. rewrite !any_in_app.
  unfold categorize_combined, core_language_words, essential_cs_words,
    core_science_words, essential_philosophy_words, professional_words,
    language_words, history_words, literature_words, math_science_words,
    gaming_words, philosophy_words, academic_words, essay_words,
    cooking_words, asian_cooking_words, global_cooking_words.
  case_keywords; rewrite ?orb_true_r; split; congruence.
Qed.

End Categorize.
