(* ===== verification/Balanced.v ===== *)
(** * The categorizer of the main flow: [balanced_categorize_book]

    [balanced_categorize_book] (src/generate_organization.py, lines
    312-367) is the categorizer [iterative_balance] passes to
    [calculate_space_usage], so it decides every shelf of the generated
    report.  Same combined text as [categorize_book], a different rule
    chain and the default [("office_b", 2)].

    Theorems: it fulfils the categorizer interface, and it disagrees with
    [categorize_book] on inputs the specification's examples use. *)

From Stdlib Require Import ZArith List String Bool Lia.
From stdpp Require Import base list strings.
From S2P Require Import Prelude PyStr Shelves Categorize.

Open Scope string_scope.
Open Scope list_scope.
Import ListNotations.

Module Balanced.

(** ** The rule chain on the combined text (lines 321-367) *)

Definition balanced_combined (combined : string) : location :=
  if any_in ["genki i"; "genki ii"; "tobira"; "clean code"] combined then ("office_a", 1%Z)
  else if any_in ["algorithms"; "art of computer"; "programming language"] combined
  then ("office_a", 2%Z)
  else if any_in ["physics"; "chemistry"] combined && contains "textbook" combined
  then ("office_a", 3%Z)
  else if any_in ["kant"; "groundwork"; "republic"] combined then ("office_a", 4%Z)
  else if any_in ["writer's reference"; "writing"] combined then ("office_a", 5%Z)
  else if any_in ["programming"; "computer"; "software"; "math"] combined then ("office_b", 1%Z)
  else if any_in ["philosophy"; "political"; "ethics"] combined then ("office_b", 2%Z)
  else if any_in ["reference"; "textbook"; "academic"] combined then ("office_b", 3%Z)
  else if any_in ["game"; "gaming"; "rpg"; "chess"; "strategy"] combined then ("office_b", 4%Z)
  else if any_in ["cooking"; "cook"; "food"; "recipe"; "kitchen"] combined then ("dining", 1%Z)
  else if any_in ["japanese"; "kanji"] combined && negb (contains "cooking" combined)
  then ("dining", 2%Z)
  else if any_in ["chinese"; "korean"; "language"] combined && negb (contains "cooking" combined)
  then ("dining", 3%Z)
  else if any_in ["fiction"; "novel"; "poetry"] combined then ("hallway", 1%Z)
  else if any_in ["uncle john"; "essay"; "anthology"] combined then ("hallway", 2%Z)
  else if any_in ["history"; "historical"; "war"; "revolution"] combined then ("crate_h", 1%Z)
  else if any_in ["dover"; "classics"; "literature"] combined && negb (contains "japanese" combined)
  then ("crate_v", 1%Z)
  else ("office_b", 2%Z).

(** [balanced_categorize_book(title, tags, group, description, item=None)] *)
Definition balanced_categorize_book : categorizer :=
  fun title tags group description _ =>
    combined <- combined_text title tags group description ;;
    Ok (balanced_combined combined).

(** ** Properties *)

Lemma balanced_combined_valid (s : string) :
  valid_location SHELF_DIMENSIONS (balanced_combined s) = true.
Proof. unfold balanced_combined. case_ifs; reflexivity. Qed.

(** The categorizer of the main flow fulfils the categorizer interface. *)
#[export] Instance balanced_categorize_book_valid :
  ValidCategorizer SHELF_DIMENSIONS balanced_categorize_book.
Proof.
  intros title tags group description it loc. unfold balanced_categorize_book.
  destruct (combined_text title tags group description); [|discriminate].
  intros [= <-]. apply balanced_combined_valid.
Qed.

(** The specification's end-to-end example ("Unknown Mystery Novel"
    goes to hallway row 2) holds for [categorize_book] but not for the
    categorizer the script runs: [balanced_categorize_book] puts it on
    hallway row 1, whatever the item. *)
Theorem main_flow_categorizer_diverges (it : item) :
  Categorize.categorize_book (Some "Unknown Mystery Novel") None None None it
    = Ok ("hallway", 2%Z) /\
  balanced_categorize_book (Some "Unknown Mystery Novel") None None None it
    = Ok ("hallway", 1%Z).
Proof. split; vm_compute; reflexivity. Qed.

End Balanced.
