(* ===== verification/SpaceUsage.v ===== *)
(** * The space calculator [calculate_space_usage]

    [calculate_space_usage(items, categorizer_func=None)]
    (src/generate_organization.py, lines 168-219) builds the nested
    dictionary [shelf_usage]: for every shelf of [SHELF_DIMENSIONS] its
    rows (each a running width and the list of book entries placed there),
    its total width, its available width and its utilization.

    State: [space_usage], an ordered dictionary from shelf id to
    [shelf_usage]; the loop over the items threads it through [add_book],
    which raises [KeyError] when the categorizer names a shelf or row that
    does not exist, and the final loop raises [ZeroDivisionError] on a shelf
    without capacity.  The configuration is a section variable [dims];
    the script's function is [calculate_space_usage], the instance at
    [SHELF_DIMENSIONS].

    Abstract specification: [placements] lists, in order, where each book
    goes; [usage_refines] says what the final dictionary holds in terms of
    it.  Theorems: the calculator refines the specification, never raises
    when the placements can be computed and the categorizer is valid,
    and conserves the total width; it raises exactly the first error of
    the placements; on items in another order it gives the same totals
    and rows; a book row with a [None] title raises [AttributeError]; and the
    specification's Genki I example gets 1.0 inch, not 0.75. *)

From Stdlib Require Import ZArith QArith List String Bool Lia Permutation.
From stdpp Require Import base list strings.
From S2P Require Import Prelude PyStr PyInt Shelves Width Categorize.

Open Scope string_scope.
Open Scope list_scope.
Import ListNotations.

Module SpaceUsage.

(** ** Data *)

(** The entry appended to a row (lines 205-211). *)
Record book_entry := mk_entry {
  be_title : option string;
  be_author : option string;
  be_pages : Z;
  be_width : quarters;
  be_item : item }.

(** [{'width': w, 'items': [...]}] (line 184) *)
Record row_usage := mk_row { ru_width : quarters; ru_items : list book_entry }.

(** [{'rows': ..., 'total_width': ..., 'available_width': ...,
    'utilization': ...}] (lines 176-181). *)
Record shelf_usage := mk_shelf {
  su_rows : dict Z row_usage;
  su_total_width : quarters;
  su_available_width : Z;
  su_utilization : Q }.

Definition space_usage := dict string shelf_usage.

Definition set_rows (rows : dict Z row_usage) (sh : shelf_usage) : shelf_usage :=
  mk_shelf rows (su_total_width sh) (su_available_width sh) (su_utilization sh).

(** ** Operations *)

Definition empty_row : row_usage := mk_row 0 [].

(** Lines 183-184: [for row_num in range(1, rows + 1): rows[row_num] = ...] *)
Definition init_rows (n : Z) : dict Z row_usage :=
  fold_left (fun rows r => dict_set r empty_row rows) (row_range n) [].

(** Lines 176-181 *)
Definition init_shelf (d : shelf_dim) : shelf_usage :=
  mk_shelf (init_rows (sd_rows d)) 0 (sd_width d * sd_rows d) 0.

(** Lines 196-200: [int(item.get('length', 0) or 0)], [0] on [ValueError]
    or [TypeError]; [None] and [""] are falsy and give [0]. *)
Definition item_pages (it : item) : Z :=
  match dict_get "length" it with
  | None | Some None | Some (Some "") => 0
  | Some (Some s) => match py_int s with Some n => n | None => 0 end
  end.

(** Line 187: [item['item_type'] == 'book'], [KeyError] without the
    column. *)
Definition is_book (it : item) : pyres bool :=
  ty <- dict_index "item_type" it ;;
  Ok (bool_decide (ty = Some "book")).

(** Lines 196-211: the page count, the width estimate and the entry
    [{'title': ..., 'author': ..., 'pages': ..., 'width': ..., 'item': item}]. *)
Definition book_entry_of (it : item) : book_entry :=
  let pages := item_pages it in
  let width := estimate_book_width (Some pages) in
  mk_entry (item_get it "title" (Some "Unknown")) (item_get it "creators" (Some "Unknown"))
           pages width it.

(** Lines 188-211 without the update: the location the categorizer picks
    (lines 188-194) and the entry. *)
Definition place_book (cat : categorizer) (it : item) : pyres (location * book_entry) :=
  loc <- cat (item_get it "title" (Some "")) (item_get it "tags" (Some ""))
             (item_get it "group" (Some "")) (item_get it "description" (Some "")) it ;;
  Ok (loc, book_entry_of it).

(** Lines 204-211: [shelf_usage[shelf_id]['rows'][row_num]['width'] += width]
    and the [append]; each subscript raises [KeyError] when absent. *)
Definition add_book (u : space_usage) (loc : location) (e : book_entry)
    : pyres space_usage :=
  sh <- dict_index loc.1 u ;;
  rw <- dict_index loc.2 (su_rows sh) ;;
  let rw' := mk_row (ru_width rw + be_width e) (ru_items rw ++ [e]) in
  Ok (dict_set loc.1 (set_rows (dict_set loc.2 rw' (su_rows sh)) sh) u).

(** One iteration of the loop of lines 186-211. *)
Definition process_item (cat : categorizer) (u : space_usage) (it : item)
    : pyres space_usage :=
  b <- is_book it ;;
  if b then p <- place_book cat it ;; add_book u p.1 p.2 else Ok u.

Fixpoint process_items (cat : categorizer) (u : space_usage) (items : list item)
    : pyres space_usage :=
  match items with
  | [] => Ok u
  | it :: rest => u' <- process_item cat u it ;; process_items cat u' rest
  end.

(** [(total_width / available_width) * 100] on exact rationals: with the
    width in quarter inches this is [25 * total / available]. *)
Definition utilization (total : quarters) (avail : Z) : Q :=
  (inject_Z (25 * total) / inject_Z avail)%Q.

(** Lines 215-217 for one shelf. *)
Definition finalize_shelf (sh : shelf_usage) : pyres shelf_usage :=
  let total := sumZ (fun p => ru_width p.2) (su_rows sh) in
  if (su_available_width sh =? 0)%Z then Err ZeroDivisionError
  else Ok (mk_shelf (su_rows sh) total (su_available_width sh)
                    (utilization total (su_available_width sh))).

(** Lines 214-217: [for shelf_id in shelf_usage: ...] *)
Fixpoint finalize (u : space_usage) : pyres space_usage :=
  match u with
  | [] => Ok []
  | (sid, sh) :: u' =>
      sh' <- finalize_shelf sh ;;
      rest <- finalize u' ;;
      Ok ((sid, sh') :: rest)
  end.

(** Lines 170-171: [if categorizer_func is None: categorizer_func = categorize_book] *)
Definition resolve_categorizer (categorizer_func : option categorizer) : categorizer :=
  match categorizer_func with
  | Some f => f
  | None => Categorize.categorize_book
  end.

Section WithDims.
Variable dims : dict string shelf_dim.

(** Lines 175-181: [for shelf_id in SHELF_DIMENSIONS: shelf_usage[shelf_id] = ...] *)
Definition init_usage : space_usage :=
  fold_left (fun u '(sid, d) => dict_set sid (init_shelf d) u) dims [].

(** Lines 168-219; a missing categorizer means [categorize_book]. *)
Definition calculate_space_usage_in (categorizer_func : option categorizer)
    (items : list item) : pyres space_usage :=
  let cat := resolve_categorizer categorizer_func in
  u <- process_items cat init_usage items ;;
  finalize u.
End WithDims.

Definition calculate_space_usage := calculate_space_usage_in SHELF_DIMENSIONS.

(** ** The abstract specification *)

(** Where each book goes, in input order, with its entry; errors are those
    of reading the type and categorizing. *)
Fixpoint placements (cat : categorizer) (items : list item)
    : pyres (list (location * book_entry)) :=
  match items with
  | [] => Ok []
  | it :: rest =>
      b <- is_book it ;;
      if b then p <- place_book cat it ;; ps <- placements cat rest ;; Ok (p :: ps)
      else placements cat rest
  end.

Definition row_contents (ps : list (location * book_entry)) (loc : location)
    : list book_entry :=
  map snd (List.filter (fun p => bool_decide (p.1 = loc)) ps).

Definition shelf_contents (ps : list (location * book_entry)) (sid : string)
    : list book_entry :=
  map snd (List.filter (fun p => bool_decide (p.1.1 = sid)) ps).

(** Every row of shelf [sid] holds, in order, the entries placed there,
    and its running width is their total width. *)
Definition rows_match (ps : list (location * book_entry)) (sid : string)
    (rows : dict Z row_usage) : Prop :=
  forall rn rw, dict_get rn rows = Some rw ->
    ru_items rw = row_contents ps (sid, rn) /\ ru_width rw = sumZ be_width (ru_items rw).

(** The invariant of the loop of lines 186-211 after the placements [ps]:
    the shelves and their rows are those of the configuration, every
    placement so far was a valid location, and every row matches. *)
Definition usage_inv (dims : dict string shelf_dim) (u : space_usage)
    (ps : list (location * book_entry)) : Prop :=
  dict_keys u = dict_keys dims /\
  Forall (fun p => valid_location dims p.1 = true) ps /\
  forall sid sh, dict_get sid u = Some sh ->
    exists d, dict_get sid dims = Some d /\
      su_available_width sh = (sd_width d * sd_rows d)%Z /\
      dict_keys (su_rows sh) = row_range (sd_rows d) /\
      rows_match ps sid (su_rows sh).

(** What the final dictionary holds: the invariant, plus each shelf's
    total width (the width of the books placed on it) and utilization. *)
Definition usage_refines (dims : dict string shelf_dim)
    (ps : list (location * book_entry)) (u : space_usage) : Prop :=
  dict_keys u = dict_keys dims /\
  Forall (fun p => valid_location dims p.1 = true) ps /\
  forall sid sh, dict_get sid u = Some sh ->
    exists d, dict_get sid dims = Some d /\
      su_available_width sh = (sd_width d * sd_rows d)%Z /\
      dict_keys (su_rows sh) = row_range (sd_rows d) /\
      rows_match ps sid (su_rows sh) /\
      su_total_width sh = sumZ be_width (shelf_contents ps sid) /\
      su_utilization sh = utilization (su_total_width sh) (su_available_width sh).

(** ** Lemmas on the specification *)

Lemma row_contents_snoc ps loc e l :
  row_contents (ps ++ [(loc, e)]) l =
  row_contents ps l ++ (if bool_decide (loc = l) then [e] else []).
Proof.
  unfold row_contents. rewrite List.filter_app, map_app. simpl.
  by case_bool_decide.
Qed.

Lemma row_contents_snoc_ne ps loc e l :
  loc <> l -> row_contents (ps ++ [(loc, e)]) l = row_contents ps l.
Proof. intros Hne. rewrite row_contents_snoc, bool_decide_false, app_nil_r; done. Qed.

Lemma rows_match_snoc_other ps loc e sid rows :
  loc.1 <> sid -> rows_match ps sid rows -> rows_match (ps ++ [(loc, e)]) sid rows.
Proof.
  intros Hne Hm rn rw Hget. rewrite row_contents_snoc_ne; [by apply Hm|].
  intros Heq. apply Hne. by rewrite Heq.
Qed.

(** ** The initial dictionary *)

Lemma init_rows_eq n : init_rows n = map (fun r => (r, empty_row)) (row_range n).
Proof.
  unfold init_rows. rewrite (fold_dict_set_keys (fun _ => empty_row)); [done|].
  apply row_range_NoDup.
Qed.

Lemma init_usage_eq dims :
  NoDup (dict_keys dims) ->
  init_usage dims = map (fun '(sid, d) => (sid, init_shelf d)) dims.
Proof. intros Hnd. unfold init_usage. by rewrite (fold_dict_set_pairs init_shelf). Qed.

Lemma init_usage_inv dims : NoDup (dict_keys dims) -> usage_inv dims (init_usage dims) [].
Proof.
  intros Hnd. rewrite init_usage_eq by done. split; [apply dict_keys_map_values|].
  split; [constructor|].
  intros sid sh Hget. rewrite dict_get_map_values in Hget.
  destruct (dict_get sid dims) as [d|] eqn:Hd; [|done]. injection Hget as <-.
  exists d. split_and!; [done | done | |].
  - simpl. rewrite init_rows_eq. apply dict_keys_map_keys.
  - intros rn rw. simpl. rewrite init_rows_eq. intros ->%dict_get_map_keys. done.
Qed.

(** ** One update *)

Lemma add_book_inv dims u ps loc e u' :
  usage_inv dims u ps -> add_book u loc e = Ok u' ->
  usage_inv dims u' (ps ++ [(loc, e)]).
Proof.
  destruct loc as [sid rn]. intros (Hkeys & Hvalid & Hsh) Hadd.
  unfold add_book in Hadd; simpl in Hadd.
  destruct (dict_index sid u) as [sh|] eqn:E1; [|discriminate].
  destruct (dict_index rn (su_rows sh)) as [rw|] eqn:E2; [|discriminate].
  injection Hadd as <-. apply dict_index_Ok in E1, E2.
  destruct (Hsh _ _ E1) as (d & Hd & Havail & Hrows & Hmatch).
  split; [rewrite dict_keys_set; [done | by rewrite E1]|].
  split.
  { apply Forall_app. split; [done|]. constructor; [|done].
    apply valid_location_spec. exists d. split; [done|].
    apply In_row_range. rewrite <- Hrows. by eapply dict_get_Some_keys. }
  intros sid' sh' Hget. destruct (decide (sid = sid')) as [<-|Hne].
  - rewrite dict_get_set_eq in Hget. injection Hget as <-.
    exists d. split_and!; [done | done | |].
    + simpl. rewrite dict_keys_set; [done | by rewrite E2].
    + intros rn' rw' Hget'. simpl in Hget'.
      destruct (decide (rn = rn')) as [<-|Hne'].
      * rewrite dict_get_set_eq in Hget'. injection Hget' as <-. simpl.
        destruct (Hmatch rn rw E2) as [Hi Hw].
        rewrite row_contents_snoc, bool_decide_true, <- Hi by done.
        split; [done|]. rewrite sumZ_app, Hw. simpl. lia.
      * rewrite dict_get_set_ne in Hget' by done.
        rewrite row_contents_snoc_ne by congruence. by apply Hmatch.
  - rewrite dict_get_set_ne in Hget by done.
    destruct (Hsh _ _ Hget) as (d' & ? & ? & ? & ?).
    exists d'. split_and!; try done. by apply rows_match_snoc_other.
Qed.

Lemma add_book_ok dims u ps loc e :
  usage_inv dims u ps -> valid_location dims loc = true ->
  exists u', add_book u loc e = Ok u'.
Proof.
  destruct loc as [sid rn]. intros (Hkeys & _ & Hsh) (d & Hd & Hrn)%valid_location_spec.
  destruct (dict_keys_get sid u) as [sh Hget].
  { rewrite Hkeys. by eapply dict_get_Some_keys. }
  destruct (Hsh _ _ Hget) as (d' & Hd' & _ & Hrows & _).
  rewrite Hd in Hd'. injection Hd' as <-.
  destruct (dict_keys_get rn (su_rows sh)) as [rw Hrw].
  { rewrite Hrows. by apply In_row_range. }
  unfold add_book. simpl. rewrite (proj2 (dict_index_Ok _ _ _) Hget),
    (proj2 (dict_index_Ok _ _ _) Hrw). eauto.
Qed.

(** ** The loop *)

Lemma place_book_valid dims cat it p :
  ValidCategorizer dims cat -> place_book cat it = Ok p -> valid_location dims p.1 = true.
Proof.
  intros Hv. unfold place_book.
  destruct (cat _ _ _ _ _) as [loc|] eqn:E; [|discriminate].
  intros [= <-]. simpl. eapply categorizer_valid; eauto.
Qed.

Lemma process_items_inv dims cat items u ps u' :
  usage_inv dims u ps -> process_items cat u items = Ok u' ->
  exists ps', placements cat items = Ok ps' /\ usage_inv dims u' (ps ++ ps').
Proof.
  revert u ps. induction items as [|it items IH]; intros u ps Hinv Hrun;
    cbn [process_items placements] in *.
  - injection Hrun as <-. exists []. by rewrite app_nil_r.
  - destruct (process_item cat u it) as [u1|] eqn:E; [|discriminate].
    unfold process_item in E. destruct (is_book it) as [[]|]; [| |discriminate].
    + destruct (place_book cat it) as [[loc e]|]; [|discriminate].
      destruct (IH _ _ (add_book_inv _ _ _ _ _ _ Hinv E) Hrun) as [ps' [Hp Hinv']].
      rewrite Hp. exists ((loc, e) :: ps'). by rewrite <- app_assoc in Hinv'.
    + injection E as <-. exact (IH _ _ Hinv Hrun).
Qed.

Lemma process_items_ok dims cat items u ps ps' :
  ValidCategorizer dims cat -> usage_inv dims u ps -> placements cat items = Ok ps' ->
  exists u', process_items cat u items = Ok u'.
Proof.
  intros Hv. revert u ps ps'. induction items as [|it items IH]; intros u ps ps' Hinv Hpl;
    cbn [process_items placements] in *; [eauto|].
  unfold process_item. destruct (is_book it) as [[]|]; [| |discriminate].
  - destruct (place_book cat it) as [[loc e]|] eqn:Ep; [|discriminate].
    destruct (placements cat items) as [ps1|] eqn:Epl; [|discriminate].
    destruct (add_book_ok dims u ps loc e Hinv (place_book_valid _ _ _ _ Hv Ep)) as [u1 Hu1].
    simpl. rewrite Hu1. eapply IH; [eapply add_book_inv; eauto | reflexivity].
  - eapply IH; eauto.
Qed.

(** ** The totals *)

Lemma finalize_Ok u u' :
  finalize u = Ok u' ->
  dict_keys u' = dict_keys u /\
  forall sid sh', dict_get sid u' = Some sh' ->
    exists sh, dict_get sid u = Some sh /\ finalize_shelf sh = Ok sh'.
Proof.
  revert u'. induction u as [|[sid sh] u IH]; intros u' H; cbn [finalize] in H.
  - injection H as <-. split; [done | intros ? ? Hg; discriminate Hg].
  - destruct (finalize_shelf sh) as [sh1|] eqn:E1; [|discriminate].
    destruct (finalize u) as [u1|] eqn:E2; [|discriminate].
    injection H as <-. destruct (IH _ eq_refl) as [Hk Hg].
    split; [unfold dict_keys in *; simpl; congruence|].
    intros sid' sh' Hget. simpl in Hget |- *.
    case_decide; [injection Hget as <-; eauto | eauto].
Qed.

Lemma finalize_ok u :
  Forall (fun p => su_available_width p.2 <> 0%Z) u -> exists u', finalize u = Ok u'.
Proof.
  induction u as [|[sid sh] u IH]; intros Hall; cbn [finalize]; [eauto|].
  apply Forall_cons in Hall as [Hsh Hall]. destruct (IH Hall) as [u1 ->].
  unfold finalize_shelf. simpl in Hsh. rewrite (proj2 (Z.eqb_neq _ _) Hsh). eauto.
Qed.

Lemma filter_loc_split (ps : list (location * book_entry)) sid rn :
  List.filter (fun p => bool_decide (p.1 = (sid, rn))) ps =
  List.filter (fun p => bool_decide (p.1.2 = rn))
              (List.filter (fun p => bool_decide (p.1.1 = sid)) ps).
Proof.
  induction ps as [|[[s r] e] ps IH]; simpl; [done|].
  destruct (decide (s = sid)) as [->|Hs].
  - rewrite (bool_decide_true (sid = sid)) by done. simpl.
    destruct (decide (r = rn)) as [->|Hr].
    + rewrite !bool_decide_true by done. by rewrite IH.
    + rewrite !bool_decide_false by congruence. exact IH.
  - rewrite !bool_decide_false by congruence. exact IH.
Qed.

(** Any weight summed over the rows of a shelf is the weight of the books
    placed on the shelf: each placement lands in exactly one row. *)
Lemma shelf_rows_sum dims u ps sid sh d (w : book_entry -> Z) :
  usage_inv dims u ps -> dict_get sid u = Some sh -> dict_get sid dims = Some d ->
  sumZ (fun p => sumZ w (ru_items p.2)) (su_rows sh) = sumZ w (shelf_contents ps sid).
Proof.
  intros (_ & Hvalid & Hsh) Hget Hd.
  destruct (Hsh _ _ Hget) as (d' & Hd' & _ & Hrows & Hmatch).
  rewrite Hd in Hd'. injection Hd' as <-.
  rewrite (sumZ_dict (fun rw => sumZ w (ru_items rw))), Hrows
    by (rewrite Hrows; apply row_range_NoDup).
  rewrite (sumZ_ext _ (fun rn => sumZ (fun p => w p.2)
      (List.filter (fun p => bool_decide (p.1.2 = rn))
                   (List.filter (fun p => bool_decide (p.1.1 = sid)) ps)))).
  - unfold shelf_contents. rewrite sumZ_map.
    apply (sumZ_partition (fun p => p.1.2)); [apply row_range_NoDup|].
    apply Forall_forall. intros [[s r] e] Hin%list_elem_of_In.
    apply filter_In in Hin as [Hin Hs].
    simpl in Hs |- *. apply bool_decide_eq_true in Hs. subst s.
    rewrite Forall_forall in Hvalid. apply list_elem_of_In, Hvalid, valid_location_spec in Hin.
    destruct Hin as (d' & Hd' & Hr). rewrite Hd in Hd'. injection Hd' as <-.
    by apply In_row_range.
  - intros rn Hrn. rewrite <- Hrows in Hrn. destruct (dict_keys_get _ _ Hrn) as [rw Hrw].
    rewrite Hrw. destruct (Hmatch _ _ Hrw) as [Hi _].
    rewrite Hi. unfold row_contents. by rewrite sumZ_map, filter_loc_split.
Qed.

(** The running row widths of a shelf add up to the width of the books
    placed on it. *)
Lemma shelf_total_width dims u ps sid sh d :
  usage_inv dims u ps -> dict_get sid u = Some sh -> dict_get sid dims = Some d ->
  sumZ (fun p => ru_width p.2) (su_rows sh) = sumZ be_width (shelf_contents ps sid).
Proof.
  intros Hinv Hget Hd. rewrite <- (shelf_rows_sum dims u ps sid sh d be_width) by done.
  apply sumZ_ext. intros [rn rw] Hin. destruct Hinv as (_ & _ & Hsh).
  destruct (Hsh _ _ Hget) as (d' & _ & _ & Hrows & Hmatch).
  apply (Hmatch rn rw), dict_get_NoDup_In; [rewrite Hrows; apply row_range_NoDup | done].
Qed.

(** Splitting the placements by shelf over the configuration's shelves
    loses and duplicates nothing. *)
Lemma shelves_partition dims ps (w : book_entry -> Z) :
  NoDup (dict_keys dims) -> Forall (fun p => valid_location dims p.1 = true) ps ->
  sumZ (fun sid => sumZ w (shelf_contents ps sid)) (dict_keys dims) = sumZ (fun p => w p.2) ps.
Proof.
  intros Hnd Hvalid. unfold shelf_contents.
  rewrite (sumZ_ext _ (fun sid => sumZ (fun p => w p.2)
                                   (List.filter (fun p => bool_decide (p.1.1 = sid)) ps)))
    by (intros; apply sumZ_map).
  apply (sumZ_partition (fun p => p.1.1)); [done|].
  eapply Forall_impl; [exact Hvalid|]. intros [[sid r] e] Hv. simpl in *.
  apply valid_location_spec in Hv as (d & Hd & _). by eapply dict_get_Some_keys.
Qed.

(** ** What the calculator computes *)

(** [item['item_type'] == 'book'] when the column is present. *)
Definition item_is_book (it : item) : bool :=
  bool_decide (dict_get "item_type" it = Some (Some "book")).

(** The width [calculate_space_usage] estimates for a book item. *)
Definition book_width (it : item) : quarters := estimate_book_width (Some (item_pages it)).

Lemma is_book_Ok it b : is_book it = Ok b -> b = item_is_book it.
Proof.
  unfold is_book, item_is_book, dict_index.
  destruct (dict_get "item_type" it) as [ty|]; [|discriminate]. intros [= <-].
  apply bool_decide_ext. split; congruence.
Qed.

(** The placements are the book items, in order, with their entries. *)
Lemma placements_items cat items ps :
  placements cat items = Ok ps ->
  map (fun p => be_item p.2) ps = List.filter item_is_book items /\
  Forall (fun p => p.2 = book_entry_of (be_item p.2)) ps.
Proof.
  revert ps. induction items as [|it items IH]; intros ps H; cbn [placements] in H.
  - injection H as <-. split; [done | constructor].
  - destruct (is_book it) as [b|] eqn:Eb; [|discriminate].
    apply is_book_Ok in Eb. subst b. simpl. destruct (item_is_book it).
    + destruct (place_book cat it) as [p|] eqn:Ep; [|discriminate].
      destruct (placements cat items) as [ps1|]; [|discriminate].
      injection H as <-. destruct (IH ps1 eq_refl) as [Hm Hw].
      unfold place_book in Ep. destruct (cat _ _ _ _ _); [|discriminate].
      injection Ep as <-. simpl. split; [by f_equal | by constructor].
    + by apply IH.
Qed.

(** A categorizer that classifies the combined text of the four fields
    (the shape of [categorize_book] and [balanced_categorize_book]). *)
Definition text_categorizer (f : string -> location) : categorizer :=
  fun title tags group description _ =>
    combined <- combined_text title tags group description ;; Ok (f combined).

(** Such a categorizer fails only on a [None] title, so the placements
    succeed when every item has an [item_type] column and no [None]
    title. *)
Lemma placements_text_categorizer (f : string -> location) items :
  Forall (fun it => dict_get "item_type" it <> None /\ dict_get "title" it <> Some None) items ->
  exists ps, placements (text_categorizer f) items = Ok ps.
Proof.
  induction items as [|it items IH]; intros Hall; cbn [placements]; [eauto|].
  apply Forall_cons in Hall as [[Hty Htitle] Hall]. destruct (IH Hall) as [ps Hps].
  unfold is_book, dict_index. destruct (dict_get "item_type" it) as [ty|]; [|done]. simpl.
  destruct (bool_decide _); [|eauto]. rewrite Hps.
  unfold place_book, item_get, dict_get_or, text_categorizer.
  destruct (dict_get "title" it) as [[t|]|]; [| done |]; simpl; eauto.
Qed.

(** ** The calculation as a whole *)

(** A categorizer built on the combined text raises only
    [AttributeError], on a [None] title. *)
Lemma placements_text_error (f : string -> location) items e :
  Forall (fun it => dict_get "item_type" it <> None) items ->
  placements (text_categorizer f) items = Err e -> e = AttributeError.
Proof.
  induction items as [|it items IH]; intros Hall; cbn [placements]; [discriminate|].
  apply Forall_cons in Hall as [Hty Hall].
  unfold is_book, dict_index. destruct (dict_get "item_type" it) as [ty|]; [|done]. simpl.
  destruct (bool_decide _); [|by apply IH].
  unfold place_book, text_categorizer, combined_text.
  destruct (item_get it "title" (Some "")) as [t|]; simpl; [|by intros [= <-]].
  destruct (placements _ items) eqn:E; [discriminate|]. intros [= <-]. by apply IH.
Qed.

Lemma item_get_some_default it k a b t :
  item_get it k (Some a) = Some t -> item_get it k (Some b) <> None.
Proof. unfold item_get, dict_get_or. by destruct (dict_get k it) as [[]|]. Qed.

(** The entries placed by such a categorizer all have a title. *)
Lemma placements_text_titles (f : string -> location) items ps :
  placements (text_categorizer f) items = Ok ps -> Forall (fun p => be_title p.2 <> None) ps.
Proof.
  revert ps. induction items as [|it items IH]; intros ps; cbn [placements]; [by intros [= <-]|].
  destruct (is_book it) as [[]|]; simpl; [| by apply IH | discriminate].
  unfold place_book, text_categorizer, combined_text.
  destruct (item_get it "title" (Some "")) as [t|] eqn:Et; simpl; [|discriminate].
  destruct (placements _ items) as [ps1|] eqn:E; [|discriminate]. intros [= <-].
  constructor; [|by apply IH]. simpl. exact (item_get_some_default _ _ _ _ _ Et).
Qed.

Lemma calculation_refines dims f items u :
  NoDup (dict_keys dims) ->
  calculate_space_usage_in dims f items = Ok u ->
  exists ps, placements (resolve_categorizer f) items = Ok ps /\ usage_refines dims ps u.
Proof.
  intros Hnd H. unfold calculate_space_usage_in in H.
  destruct (process_items _ _ items) as [u0|] eqn:E; [|discriminate].
  destruct (process_items_inv _ _ _ _ _ _ (init_usage_inv dims Hnd) E) as [ps [Hps Hinv]].
  exists ps. split; [done|]. pose proof Hinv as (Hkeys & Hvalid & Hsh).
  destruct (finalize_Ok _ _ H) as [Hk Hg].
  split; [congruence|]. split; [done|].
  intros sid sh' Hget. destruct (Hg _ _ Hget) as [sh [Hget0 Hfin]].
  destruct (Hsh _ _ Hget0) as (d & Hd & Havail & Hrows & Hmatch).
  unfold finalize_shelf in Hfin. destruct (_ =? 0)%Z; [discriminate|].
  injection Hfin as <-. exists d. simpl. split_and!; try done.
  by apply (shelf_total_width dims u0 ps sid sh d).
Qed.

(** After the item loop the final loop never divides by zero. *)
Lemma process_finalize_ok dims cat items u0 :
  NoDup (dict_keys dims) ->
  Forall (fun p => (sd_width p.2 * sd_rows p.2 <> 0)%Z) dims ->
  process_items cat (init_usage dims) items = Ok u0 ->
  exists u, finalize u0 = Ok u.
Proof.
  intros Hnd Hcap Hu0. apply finalize_ok.
  destruct (process_items_inv _ _ _ _ _ _ (init_usage_inv dims Hnd) Hu0)
    as [ps' [_ (Hkeys & _ & Hsh)]].
  apply Forall_forall. intros [sid sh] Hin%list_elem_of_In. simpl.
  assert (Hget : dict_get sid u0 = Some sh) by (apply dict_get_NoDup_In; [by rewrite Hkeys | done]).
  destruct (Hsh _ _ Hget) as (d & Hd & -> & _).
  rewrite Forall_forall in Hcap. apply (Hcap (sid, d)), list_elem_of_In. by apply dict_get_In.
Qed.

Lemma calculation_no_error dims f items ps :
  ValidCategorizer dims (resolve_categorizer f) ->
  NoDup (dict_keys dims) ->
  Forall (fun p => (sd_width p.2 * sd_rows p.2 <> 0)%Z) dims ->
  placements (resolve_categorizer f) items = Ok ps ->
  exists u, calculate_space_usage_in dims f items = Ok u.
Proof.
  intros Hv Hnd Hcap Hpl. unfold calculate_space_usage_in.
  destruct (process_items_ok dims _ items _ [] ps Hv (init_usage_inv dims Hnd) Hpl) as [u0 Hu0].
  rewrite Hu0. exact (process_finalize_ok dims _ items u0 Hnd Hcap Hu0).
Qed.

(** The item loop raises exactly the first error of the placements:
    with a valid categorizer, [add_book] never raises. *)
Lemma process_items_error dims cat items u ps e :
  ValidCategorizer dims cat -> usage_inv dims u ps ->
  process_items cat u items = Err e -> placements cat items = Err e.
Proof.
  intros Hv. revert u ps. induction items as [|it items IH]; intros u ps Hinv H;
    cbn [process_items placements] in *; [discriminate|].
  unfold process_item in H. destruct (is_book it) as [[]|e'] eqn:Eb; [| |by injection H as ->].
  - destruct (place_book cat it) as [[loc en]|e'] eqn:Ep; [|by injection H as ->].
    destruct (add_book_ok dims u ps loc en Hinv (place_book_valid _ _ _ _ Hv Ep)) as [u1 Hu1].
    simpl in H. rewrite Hu1 in H. simpl.
    by rewrite (IH u1 _ (add_book_inv _ _ _ _ _ _ Hinv Hu1) H).
  - by apply (IH u ps).
Qed.

(** The calculator raises exactly what reading the types and
    categorizing the books raises first. *)
Lemma calculation_error dims f items e :
  ValidCategorizer dims (resolve_categorizer f) ->
  NoDup (dict_keys dims) ->
  Forall (fun p => (sd_width p.2 * sd_rows p.2 <> 0)%Z) dims ->
  calculate_space_usage_in dims f items = Err e ->
  placements (resolve_categorizer f) items = Err e.
Proof.
  intros Hv Hnd Hcap. unfold calculate_space_usage_in.
  destruct (process_items _ _ items) as [u0|e0] eqn:Hu0; simpl.
  - destruct (process_finalize_ok dims _ items u0 Hnd Hcap Hu0) as [u ->]. discriminate.
  - intros [= <-]. exact (process_items_error dims _ items _ [] e0 Hv (init_usage_inv dims Hnd) Hu0).
Qed.

(** Each shelf of the result has its configured capacity, a
    non-negative total and the utilization of that total. *)
Lemma calculation_shelf dims f items u sid sh :
  NoDup (dict_keys dims) -> calculate_space_usage_in dims f items = Ok u ->
  dict_get sid u = Some sh ->
  exists d, dict_get sid dims = Some d /\
    su_available_width sh = (sd_width d * sd_rows d)%Z /\
    su_utilization sh = utilization (su_total_width sh) (su_available_width sh) /\
    (0 <= su_total_width sh)%Z.
Proof.
  intros Hnd Hu Hget. destruct (calculation_refines _ _ _ _ Hnd Hu) as [ps [Hps (_ & _ & Hsh)]].
  destruct (Hsh _ _ Hget) as (d & Hd & Hav & _ & _ & Ht & Hutil).
  exists d. split_and!; [done..|]. rewrite Ht. apply sumZ_nonneg.
  intros e He. unfold shelf_contents in He. apply in_map_iff in He as [p [<- Hp]].
  apply filter_In in Hp as [Hp _].
  destruct (placements_items _ _ _ Hps) as [_ Hbe]. rewrite Forall_forall in Hbe.
  destruct p as [loc e]. specialize (Hbe (loc, e) (proj2 (list_elem_of_In _ _) Hp)).
  simpl in *. rewrite Hbe. unfold book_entry_of. cbn [be_width].
  pose proof (estimate_book_width_range (Some (item_pages (be_item e)))). lia.
Qed.

(** ** Order independence *)

(** The placements of one item: none for an item that is not a book. *)
Definition place_one (cat : categorizer) (it : item) : pyres (list (location * book_entry)) :=
  b <- is_book it ;; if b then p <- place_book cat it ;; Ok [p] else Ok [].

Lemma placements_mapM cat items :
  placements cat items = (xs <- mapM (place_one cat) items ;; Ok (concat xs)).
Proof.
  induction items as [|it items IH]; [done|]. cbn [placements mapM]. rewrite IH.
  unfold place_one. destruct (is_book it) as [[]|]; [destruct (place_book cat it)| |]; simpl;
    try done; by destruct (mapM _ items).
Qed.

Lemma placements_Permutation cat items items' ps :
  Permutation items items' -> placements cat items = Ok ps ->
  exists ps', placements cat items' = Ok ps' /\ Permutation ps ps'.
Proof.
  rewrite !placements_mapM. intros Hp H.
  destruct (mapM _ items) as [xs|] eqn:E; [|discriminate]. injection H as <-.
  destruct (mapM_Permutation _ _ _ _ Hp E) as (ys & -> & Hy).
  eexists. split; [reflexivity|]. by apply Permutation_concat.
Qed.

Lemma row_contents_Permutation ps ps' loc :
  Permutation ps ps' -> Permutation (row_contents ps loc) (row_contents ps' loc).
Proof. intros H. apply Permutation_map, Permutation_list_filter, H. Qed.

Lemma shelf_contents_Permutation ps ps' sid :
  Permutation ps ps' -> Permutation (shelf_contents ps sid) (shelf_contents ps' sid).
Proof. intros H. apply Permutation_map, Permutation_list_filter, H. Qed.

(** Two runs of the calculator on the same items in another order agree
    on every shelf's total, utilization and row widths, and the rows hold
    the same books. *)
Lemma calculation_Permutation dims f items items' u u' :
  NoDup (dict_keys dims) -> Permutation items items' ->
  calculate_space_usage_in dims f items = Ok u -> calculate_space_usage_in dims f items' = Ok u' ->
  dict_keys u = dict_keys u' /\
  forall sid sh sh', dict_get sid u = Some sh -> dict_get sid u' = Some sh' ->
    su_total_width sh = su_total_width sh' /\ su_utilization sh = su_utilization sh' /\
    forall rn rw rw', dict_get rn (su_rows sh) = Some rw -> dict_get rn (su_rows sh') = Some rw' ->
      Permutation (ru_items rw) (ru_items rw') /\ ru_width rw = ru_width rw'.
Proof.
  intros Hnd Hp Hu Hu'.
  destruct (calculation_refines _ _ _ _ Hnd Hu) as [ps [Hps (Hk & _ & Hsh)]].
  destruct (calculation_refines _ _ _ _ Hnd Hu') as [ps' [Hps' (Hk' & _ & Hsh')]].
  destruct (placements_Permutation _ _ _ _ Hp Hps) as (ps'' & Hps'' & Hpp).
  rewrite Hps' in Hps''. injection Hps'' as <-.
  split; [congruence|]. intros sid sh sh' Hget Hget'.
  destruct (Hsh _ _ Hget) as (d & Hd & Hav & _ & Hm & Ht & Hutil).
  destruct (Hsh' _ _ Hget') as (d' & Hd' & Hav' & _ & Hm' & Ht' & Hutil').
  rewrite Hd in Hd'. injection Hd' as <-.
  assert (Htot : su_total_width sh = su_total_width sh').
  { rewrite Ht, Ht'. apply sumZ_Permutation, shelf_contents_Permutation, Hpp. }
  split_and!; [done | rewrite Hutil, Hutil', Htot, Hav, Hav'; done |].
  intros rn rw rw' Hrw Hrw'.
  destruct (Hm _ _ Hrw) as [Hi Hw]. destruct (Hm' _ _ Hrw') as [Hi' Hw'].
  assert (Hperm : Permutation (ru_items rw) (ru_items rw'))
    by (rewrite Hi, Hi'; apply row_contents_Permutation, Hpp).
  split; [done|]. rewrite Hw, Hw'. by apply sumZ_Permutation.
Qed.

(** Every entry of the returned dictionary is one of the placements. *)
Lemma calculation_entries dims f items u :
  NoDup (dict_keys dims) -> calculate_space_usage_in dims f items = Ok u ->
  exists ps, placements (resolve_categorizer f) items = Ok ps /\
    forall sid sh rn rw e, dict_get sid u = Some sh -> dict_get rn (su_rows sh) = Some rw ->
      In e (ru_items rw) -> In e (map snd ps).
Proof.
  intros Hnd Hu. destruct (calculation_refines _ _ _ _ Hnd Hu) as [ps [Hps (_ & _ & Hsh)]].
  exists ps. split; [done|]. intros sid sh rn rw e Hget Hrw Hin.
  destruct (Hsh _ _ Hget) as (d & _ & _ & _ & Hmatch & _).
  destruct (Hmatch _ _ Hrw) as [Hi _]. rewrite Hi in Hin. unfold row_contents in Hin.
  apply in_map_iff in Hin as [p [<- Hp]]. apply filter_In in Hp as [Hp _].
  by apply in_map.
Qed.

Lemma calculation_conserves_width dims f items u :
  NoDup (dict_keys dims) ->
  calculate_space_usage_in dims f items = Ok u ->
  sumZ (fun p => su_total_width p.2) u = sumZ book_width (List.filter item_is_book items).
Proof.
  intros Hnd H.
  destruct (calculation_refines _ _ _ _ Hnd H) as [ps [Hps (Hkeys & Hvalid & Hsh)]].
  destruct (placements_items _ _ _ Hps) as [Hmap Hw].
  rewrite <- Hmap, sumZ_map, (sumZ_dict su_total_width) by (rewrite Hkeys; done).
  rewrite (sumZ_ext (fun a => book_width (be_item a.2)) (fun p => be_width p.2)).
  2:{ intros p Hp. rewrite Forall_forall in Hw. rewrite (Hw p) by by apply list_elem_of_In.
      reflexivity. }
  rewrite Hkeys, <- (shelves_partition dims ps be_width Hnd Hvalid).
  apply sumZ_ext. intros sid Hin. rewrite <- Hkeys in Hin.
  destruct (dict_keys_get _ _ Hin) as [sh Hget]. rewrite Hget.
  destruct (Hsh _ _ Hget) as (d & _ & _ & _ & _ & Htot & _). rewrite Htot.
  apply sumZ_ext. intros e _. done.
Qed.

(** The script's configuration has distinct shelf names and non-zero
    capacities. *)
Lemma SHELF_DIMENSIONS_wf :
  NoDup (dict_keys SHELF_DIMENSIONS) /\
  Forall (fun p => (sd_width p.2 * sd_rows p.2 <> 0)%Z) SHELF_DIMENSIONS.
Proof.
  split; [apply (bool_decide_unpack _); vm_compute; exact I|].
  repeat constructor; simpl; lia.
Qed.

(** ** Properties *)

(** C3: refinement: when [calculate_space_usage] returns, its dictionary
    has exactly the configured shelves and rows, each row holds in input
    order the books the categorizer put there and its running width is
    their width, each shelf's total width is the width of its books and
    its utilization is [100 * total / available]. *)
Theorem calculate_space_usage_refines dims f items u :
  NoDup (dict_keys dims) ->
  calculate_space_usage_in dims f items = Ok u ->
  exists ps, placements (resolve_categorizer f) items = Ok ps /\ usage_refines dims ps u.
Proof. apply calculation_refines. Qed.

Lemma calculate_space_usage_refines_witness :
  NoDup (dict_keys SHELF_DIMENSIONS) /\
  calculate_space_usage_in SHELF_DIMENSIONS None
    [[("item_type", Some "book"); ("title", Some "Genki I"); ("length", Some "250")]]
  = Ok (match calculate_space_usage_in SHELF_DIMENSIONS None
          [[("item_type", Some "book"); ("title", Some "Genki I"); ("length", Some "250")]]
        with Ok u => u | Err _ => [] end) /\
  exists ps, placements (resolve_categorizer None)
    [[("item_type", Some "book"); ("title", Some "Genki I"); ("length", Some "250")]] = Ok ps /\
  usage_refines SHELF_DIMENSIONS ps
    (match calculate_space_usage_in SHELF_DIMENSIONS None
       [[("item_type", Some "book"); ("title", Some "Genki I"); ("length", Some "250")]]
     with Ok u => u | Err _ => [] end).
Proof.
  assert (Hnd : NoDup (dict_keys SHELF_DIMENSIONS)) by (apply (bool_decide_unpack _); vm_compute; exact I).
  assert (Hrun : calculate_space_usage_in SHELF_DIMENSIONS None
    [[("item_type", Some "book"); ("title", Some "Genki I"); ("length", Some "250")]]
  = Ok (match calculate_space_usage_in SHELF_DIMENSIONS None
          [[("item_type", Some "book"); ("title", Some "Genki I"); ("length", Some "250")]]
        with Ok u => u | Err _ => [] end)) by (vm_compute; reflexivity).
  split; [exact Hnd|]. split; [exact Hrun|].
  exact (calculate_space_usage_refines _ _ _ _ Hnd Hrun).
Defined.

(** C8: the calculator raises nothing of its own.  With a valid
    categorizer, distinct shelf names and non-zero capacities, it raises
    an exception exactly when reading [item['item_type']] (a [KeyError])
    or calling the categorizer on a book raises it, first in input order
    ([placements]): never a [KeyError] from the shelf or row subscripts
    of lines 204-211 and never [ZeroDivisionError]. *)
Theorem calculate_space_usage_no_error dims f items e :
  ValidCategorizer dims (resolve_categorizer f) ->
  NoDup (dict_keys dims) ->
  Forall (fun p => (sd_width p.2 * sd_rows p.2 <> 0)%Z) dims ->
  calculate_space_usage_in dims f items = Err e <-> placements (resolve_categorizer f) items = Err e.
Proof.
  intros Hv Hnd Hcap. split; [by apply calculation_error|]. intros Hp.
  destruct (calculate_space_usage_in dims f items) as [u|e'] eqn:E.
  - destruct (calculation_refines dims f items u Hnd E) as [ps [Hps _]]. congruence.
  - rewrite (calculation_error dims f items e' Hv Hnd Hcap E) in Hp. congruence.
Qed.

(** An item without an [item_type] column: [calculate_space_usage([{}])]. *)
Lemma calculate_space_usage_no_error_witness :
  ValidCategorizer SHELF_DIMENSIONS (resolve_categorizer None) /\
  NoDup (dict_keys SHELF_DIMENSIONS) /\
  Forall (fun p => (sd_width p.2 * sd_rows p.2 <> 0)%Z) SHELF_DIMENSIONS /\
  placements (resolve_categorizer None) [[]] = Err KeyError /\
  calculate_space_usage_in SHELF_DIMENSIONS None [[]] = Err KeyError.
Proof.
  assert (Hv : ValidCategorizer SHELF_DIMENSIONS (resolve_categorizer None))
    by exact Categorize.categorize_book_valid.
  destruct SHELF_DIMENSIONS_wf as [Hnd Hcap].
  assert (Hpl : placements (resolve_categorizer None) [[]] = Err KeyError) by reflexivity.
  split_and!; try assumption.
  exact (proj2 (calculate_space_usage_no_error _ _ _ _ Hv Hnd Hcap) Hpl).
Defined.

(** C32: with the script's configuration and default categorizer,
    [calculate_space_usage(items)] returns on every list of items that all
    have an [item_type] column and no [None] title. *)
Theorem calculate_space_usage_default_total items :
  Forall (fun it => dict_get "item_type" it <> None /\ dict_get "title" it <> Some None) items ->
  exists u, calculate_space_usage None items = Ok u.
Proof.
  intros Hall.
  destruct (placements_text_categorizer Categorize.categorize_combined items Hall) as [ps Hps].
  destruct SHELF_DIMENSIONS_wf as [Hnd Hcap].
  exact (calculation_no_error SHELF_DIMENSIONS None items ps
           Categorize.categorize_book_valid Hnd Hcap Hps).
Qed.

Lemma calculate_space_usage_default_total_witness :
  Forall (fun it => dict_get "item_type" it <> None /\ dict_get "title" it <> Some None)
    [[("item_type", Some "book"); ("title", Some "Dune")]; [("item_type", Some "videogame")]] /\
  exists u, calculate_space_usage None
    [[("item_type", Some "book"); ("title", Some "Dune")]; [("item_type", Some "videogame")]] = Ok u.
Proof.
  assert (H : Forall (fun it => dict_get "item_type" it <> None /\ dict_get "title" it <> Some None)
    [[("item_type", Some "book"); ("title", Some "Dune")]; [("item_type", Some "videogame")]])
    by (repeat constructor; simpl; discriminate).
  split; [exact H | exact (calculate_space_usage_default_total _ H)].
Defined.

(** C26: a book row whose title column is empty because the CSV line is
    short ([None], not [""]) makes [calculate_space_usage] raise
    [AttributeError] from [title.lower()], although the specification says
    absent text fields are treated as empty strings. *)
Theorem calculate_space_usage_none_title it rest :
  dict_get "item_type" it = Some (Some "book") -> dict_get "title" it = Some None ->
  calculate_space_usage None (it :: rest) = Err AttributeError.
Proof.
  intros Hty Htitle. unfold calculate_space_usage, calculate_space_usage_in.
  cbn [process_items]. unfold process_item, is_book, dict_index. rewrite Hty. simpl.
  unfold place_book, item_get, dict_get_or. rewrite Htitle. reflexivity.
Qed.

Lemma calculate_space_usage_none_title_witness :
  dict_get "item_type" [("item_type", Some "book"); ("title", None)] = Some (Some "book") /\
  dict_get "title" [("item_type", Some "book"); ("title", None)] = Some None /\
  calculate_space_usage None [[("item_type", Some "book"); ("title", None)]] = Err AttributeError.
Proof.
  split_and!; [reflexivity | reflexivity |].
  apply calculate_space_usage_none_title; reflexivity.
Defined.

(** C4: conservation: the shelves' total widths add up to the estimated
    widths of all the book items of the input; no book is lost and none is
    counted twice. *)
Theorem calculate_space_usage_conserves_width dims f items u :
  NoDup (dict_keys dims) ->
  calculate_space_usage_in dims f items = Ok u ->
  sumZ (fun p => su_total_width p.2) u = sumZ book_width (List.filter item_is_book items).
Proof. apply calculation_conserves_width. Qed.

Definition sample_shelf_items : list item :=
  [[("item_type", Some "book"); ("title", Some "Genki I"); ("length", Some "250")];
   [("item_type", Some "music"); ("title", Some "Kind of Blue")];
   [("item_type", Some "book"); ("title", Some "The Republic"); ("length", Some "600")]].

Definition sample_shelf_usage : space_usage :=
  match calculate_space_usage_in SHELF_DIMENSIONS None sample_shelf_items with
  | Ok u => u | Err _ => [] end.

Lemma calculate_space_usage_conserves_width_witness :
  NoDup (dict_keys SHELF_DIMENSIONS) /\
  calculate_space_usage_in SHELF_DIMENSIONS None sample_shelf_items = Ok sample_shelf_usage /\
  sumZ (fun p => su_total_width p.2) sample_shelf_usage =
    sumZ book_width (List.filter item_is_book sample_shelf_items).
Proof.
  destruct SHELF_DIMENSIONS_wf as [Hnd _].
  assert (Hrun : calculate_space_usage_in SHELF_DIMENSIONS None sample_shelf_items
                 = Ok sample_shelf_usage) by (vm_compute; reflexivity).
  split; [exact Hnd|split; [exact Hrun|]].
  exact (calculate_space_usage_conserves_width _ _ _ _ Hnd Hrun).
Defined.

(** The specification's example book (title "Genki I", 250 pages)
    is shelved on office_a row 1 with the width 4 quarter inches, 1.0
    inch, not the 0.75 inch the example states: 250 pages fall in the
    band [200 < p <= 300]. *)
Theorem genki_example_width :
  match calculate_space_usage None
          [[("item_type", Some "book"); ("title", Some "Genki I"); ("length", Some "250")]] with
  | Ok u => option_map (fun sh => option_map (fun rw => map be_width (ru_items rw))
                                             (dict_get 1%Z (su_rows sh)))
                       (dict_get "office_a" u)
  | Err _ => None
  end = Some (Some [4%Z]).
Proof. vm_compute. reflexivity. Qed.

End SpaceUsage.
