(* ===== verification/Adaptive.v ===== *)
(** * The adaptive categorizer [create_adaptive_categorizer]

    [create_adaptive_categorizer(utilization_data, iteration)]
    (src/generate_organization.py, lines 221-310) returns a closure that
    classifies a book into tiers and, for each tier, asks
    [find_best_shelf] (lines 233-252) for the first preferred location on
    a shelf under 85% utilization, then the first fallback under 95%,
    and as a last resort row 1 of the least utilized shelf of
    [SHELF_DIMENSIONS].  The script never calls it (the main flow uses
    [balanced_categorize_book]); it is modelled because it is part of the
    program and its contract is the categorizer interface.

    [utilization_data] is a space usage as [calculate_space_usage]
    returns it; [utilization_data.get(s, {}).get('utilization', 0)] is
    [util_of].  [float('inf')] is [None] in [least_utilized]. *)

From Stdlib Require Import ZArith QArith List String Bool Lia.
From stdpp Require Import base list strings.
From S2P Require Import Prelude PyStr Shelves SpaceUsage.

Open Scope string_scope.
Open Scope list_scope.
Import ListNotations.

Module Adaptive.

Section WithData.
Variable utilization_data : SpaceUsage.space_usage.

(** [utilization_data.get(shelf_id, {}).get('utilization', 0)] *)
Definition util_of (sid : string) : Q :=
  match dict_get sid utilization_data with
  | Some sh => SpaceUsage.su_utilization sh
  | None => 0%Q
  end.

(** [for shelf_id, row_num in shelves: if util < bound: return ...] *)
Fixpoint first_under (bound : Q) (shelves : list location) : option location :=
  match shelves with
  | [] => None
  | loc :: rest => if Qlt_le_dec (util_of loc.1) bound then Some loc
                   else first_under bound rest
  end.

(** Lines 243-250: [min_util = float('inf')], strict [<] keeps the first
    shelf among equals; [None] stands for infinity. *)
Fixpoint least_utilized_from (best : location) (min_util : option Q) (sids : list string)
    : location :=
  match sids with
  | [] => best
  | sid :: rest =>
      let u := util_of sid in
      match min_util with
      | Some m => if Qlt_le_dec u m then least_utilized_from (sid, 1%Z) (Some u) rest
                  else least_utilized_from best min_util rest
      | None => least_utilized_from (sid, 1%Z) (Some u) rest
      end
  end.

Definition least_utilized : location :=
  least_utilized_from ("office_b", 1%Z) None (dict_keys SHELF_DIMENSIONS).

(** [find_best_shelf(preferred_shelves, fallback_shelves=None)] (lines
    233-252); an empty fallback list is falsy like [None]. *)
Definition find_best_shelf (preferred fallback : list location) : location :=
  match first_under 85 preferred with
  | Some loc => loc
  | None =>
      match first_under 95 fallback with
      | Some loc => loc
      | None => least_utilized
      end
  end.

(** The tiers of [adaptive_categorize_book] (lines 254-308). *)
Definition adaptive_combined (combined : string) : location :=
  if any_in ["genki i"; "genki ii"; "tobira"; "clean code"; "algorithms"] combined
  then find_best_shelf [("office_a", 1%Z); ("office_a", 2%Z)] [("office_b", 1%Z)]
  else if any_in ["japanese"; "kanji"] combined &&
          any_in ["textbook"; "dictionary"; "learning"] combined
  then find_best_shelf [("office_a", 1%Z); ("dining", 1%Z)] [("office_b", 3%Z)]
  else if any_in ["chinese"] combined && any_in ["textbook"; "integrated"; "learning"] combined
  then find_best_shelf [("office_a", 1%Z); ("dining", 2%Z)] [("office_b", 3%Z)]
  else if any_in ["programming"; "computer"; "software"] combined
  then find_best_shelf [("office_a", 2%Z); ("office_b", 2%Z)] [("crate_v", 1%Z)]
  else if any_in ["mathematics"; "math"; "algorithms"] combined && negb (contains "game" combined)
  then find_best_shelf [("office_a", 2%Z); ("office_b", 2%Z); ("crate_v", 1%Z)] []
  else if any_in ["physics"; "chemistry"; "science"] combined && negb (contains "cooking" combined)
  then find_best_shelf [("office_a", 3%Z); ("office_b", 2%Z); ("crate_v", 1%Z)] []
  else if any_in ["philosophy"; "kant"; "nietzsche"; "plato"] combined
  then find_best_shelf [("office_a", 4%Z); ("office_b", 1%Z)] []
  else if any_in ["history"; "historical"; "war"; "revolution"] combined
  then find_best_shelf [("office_b", 1%Z); ("hallway", 1%Z)] [("crate_h", 1%Z)]
  else if any_in ["literature"; "fiction"; "novel"; "poetry"; "classics"] combined
  then find_best_shelf [("office_b", 3%Z); ("hallway", 2%Z)] [("crate_h", 1%Z)]
  else if any_in ["language"; "dictionary"; "grammar"] combined && negb (contains "cooking" combined)
  then find_best_shelf [("dining", 3%Z); ("office_b", 3%Z)] [("crate_v", 1%Z)]
  else if any_in ["game"; "gaming"; "rpg"; "chess"; "strategy"] combined
  then find_best_shelf [("office_b", 4%Z)] [("crate_h", 1%Z)]
  else if any_in ["cooking"; "cook"; "food"; "recipe"; "kitchen"] combined
  then (if any_in ["asian"; "japanese"; "chinese"; "sushi"] combined
        then find_best_shelf [("dining", 1%Z)] [("dining", 3%Z)]
        else find_best_shelf [("dining", 2%Z); ("dining", 3%Z)] [])
  else if any_in ["uncle john"; "essay"; "anthology"; "collection"] combined
  then find_best_shelf [("office_b", 3%Z); ("hallway", 2%Z)] [("crate_h", 1%Z)]
  else find_best_shelf [("office_b", 1%Z); ("office_b", 2%Z); ("office_b", 3%Z)]
                       [("crate_h", 1%Z)].

(** [adaptive_categorize_book(title, tags, group, description, item)] *)
Definition adaptive_categorize_book : categorizer :=
  fun title tags group description _ =>
    combined <- combined_text title tags group description ;;
    Ok (adaptive_combined combined).
End WithData.

(** [create_adaptive_categorizer(utilization_data, iteration)]: the
    iteration number is unused. *)
Definition create_adaptive_categorizer (utilization_data : SpaceUsage.space_usage)
    (iteration : Z) : categorizer :=
  adaptive_categorize_book utilization_data.

(** ** Lemmas *)

Section Lemmas.
Variable data : SpaceUsage.space_usage.

Lemma first_under_In bound shelves loc :
  first_under data bound shelves = Some loc -> In loc shelves.
Proof.
  induction shelves as [|l shelves IH]; simpl; [done|].
  destruct (Qlt_le_dec _ _); [intros [= <-]; by left | intros; right; auto].
Qed.

(** The loop of lines 246-250 from a current best: the result is at most
    the current minimum and at most the utilization of every shelf
    scanned, and it is the current best or row 1 of a scanned shelf. *)
Lemma least_utilized_from_spec sids best m :
  util_of data best.1 == m ->
  forall r, r = least_utilized_from data best (Some m) sids ->
  (util_of data r.1 <= m)%Q /\
  (forall s, In s sids -> (util_of data r.1 <= util_of data s)%Q) /\
  (r = best \/ (In r.1 sids /\ r.2 = 1%Z)).
Proof.
  revert best m. induction sids as [|sid sids IH]; intros best m Hm r ->; simpl.
  - split_and!; [rewrite Hm; apply Qle_refl | done | by left].
  - destruct (Qlt_le_dec (util_of data sid) m) as [Hlt|Hge].
    + destruct (IH (sid, 1%Z) (util_of data sid) (Qeq_refl _) _ eq_refl) as (H1 & H2 & H3).
      split_and!.
      * apply Qlt_le_weak. eapply Qle_lt_trans; eassumption.
      * intros s [<-|Hs]; [exact H1 | auto].
      * destruct H3 as [->|[H3 H4]]; [right; simpl; auto | right; auto].
    + destruct (IH best m Hm _ eq_refl) as (H1 & H2 & H3). split_and!; [exact H1| |].
      * intros s [<-|Hs]; [eapply Qle_trans; eassumption | auto].
      * destruct H3 as [->|[H3 H4]]; [by left | right; auto].
Qed.

(** The first shelf initializes the minimum. *)
Lemma least_utilized_unfold :
  least_utilized data =
  least_utilized_from data ("office_a", 1%Z) (Some (util_of data "office_a"))
    ["office_b"; "dining"; "hallway"; "crate_h"; "crate_v"].
Proof. reflexivity. Qed.

Lemma least_utilized_valid :
  valid_location SHELF_DIMENSIONS (least_utilized data) = true.
Proof.
  rewrite least_utilized_unfold.
  destruct (least_utilized_from_spec ["office_b"; "dining"; "hallway"; "crate_h"; "crate_v"]
              ("office_a", 1%Z) (util_of data "office_a") (Qeq_refl _) _ eq_refl)
    as (_ & _ & H).
  destruct (least_utilized_from _ _ _ _) as [sid r]. simpl in H.
  destruct H as [[= -> ->]|[Hin ->]]; [reflexivity|].
  repeat destruct Hin as [<-|Hin]; try reflexivity; done.
Qed.

Lemma find_best_shelf_valid preferred fallback :
  forallb (valid_location SHELF_DIMENSIONS) (preferred ++ fallback) = true ->
  valid_location SHELF_DIMENSIONS (find_best_shelf data preferred fallback) = true.
Proof.
  rewrite forallb_app, andb_true_iff, !forallb_forall. intros [Hp Hf].
  unfold find_best_shelf.
  destruct (first_under data 85 preferred) as [loc|] eqn:E1;
    [apply Hp; by eapply first_under_In|].
  destruct (first_under data 95 fallback) as [loc|] eqn:E2;
    [apply Hf; by eapply first_under_In|].
  apply least_utilized_valid.
Qed.

Lemma adaptive_combined_valid s :
  valid_location SHELF_DIMENSIONS (adaptive_combined data s) = true.
Proof.
  unfold adaptive_combined. case_ifs; apply find_best_shelf_valid; reflexivity.
Qed.
End Lemmas.

#[export] Instance adaptive_valid data iteration :
  ValidCategorizer SHELF_DIMENSIONS (create_adaptive_categorizer data iteration).
Proof.
  intros title tags group description it loc. unfold create_adaptive_categorizer,
    adaptive_categorize_book.
  destruct (combined_text title tags group description); [|discriminate].
  intros [= <-]. apply adaptive_combined_valid.
Qed.

(** ** Properties *)

(** C34: whatever utilization data it is created with, the adaptive
    categorizer only returns existing rows of [SHELF_DIMENSIONS]: every
    preferred and fallback location of its tiers is one, and so is its
    last resort. *)
Theorem adaptive_categorize_book_valid data iteration title tags group description it loc :
  create_adaptive_categorizer data iteration title tags group description it = Ok loc ->
  valid_location SHELF_DIMENSIONS loc = true.
Proof.
  unfold create_adaptive_categorizer, adaptive_categorize_book.
  destruct (combined_text title tags group description); [|discriminate].
  intros [= <-]. apply adaptive_combined_valid.
Qed.

Lemma adaptive_categorize_book_valid_witness :
  create_adaptive_categorizer [] 1 (Some "Clean Code") None None None [] = Ok ("office_a", 1%Z) /\
  valid_location SHELF_DIMENSIONS ("office_a", 1%Z) = true.
Proof.
  assert (H : create_adaptive_categorizer [] 1 (Some "Clean Code") None None None []
              = Ok ("office_a", 1%Z)) by (vm_compute; reflexivity).
  split; [exact H | exact (adaptive_categorize_book_valid _ _ _ _ _ _ _ _ H)].
Defined.

(** The last resort of [find_best_shelf] is row 1 of a shelf of
    [SHELF_DIMENSIONS] whose utilization is the smallest of all shelves. *)
Theorem least_utilized_minimal (data : SpaceUsage.space_usage) :
  In (least_utilized data).1 (dict_keys SHELF_DIMENSIONS) /\
  (least_utilized data).2 = 1%Z /\
  forall s, In s (dict_keys SHELF_DIMENSIONS) ->
    (util_of data (least_utilized data).1 <= util_of data s)%Q.
Proof.
  rewrite least_utilized_unfold.
  destruct (least_utilized_from_spec data ["office_b"; "dining"; "hallway"; "crate_h"; "crate_v"]
              ("office_a", 1%Z) (util_of data "office_a") (Qeq_refl _) _ eq_refl)
    as (H1 & H2 & H3).
  split_and!.
  - destruct H3 as [->|[Hin _]]; [by left | by right].
  - by destruct H3 as [->|[_ ->]].
  - intros s [<-|Hs]; [exact H1 | auto].
Qed.

End Adaptive.
