(* ===== verification/Report.v ===== *)
(** * The report renderer [generate_html]

    [generate_html(all_items, space_usage)] (src/generate_organization.py,
    lines 392-540) turns the space usage into the HTML guide.  The model
    keeps what the template computes and leaves out the fixed markup and
    the float formatting ([:.1f], [:.2f]) of the template: the item-kind
    counts, one capacity banner per shelf of [ORGANIZATION] with its
    status band (lines 439-462), and per shelf and row the book lines,
    sorted by title, with the title and author passed through
    [html.escape] and the page count or ["Unknown"] (lines 471-523).

    [html.escape] is CPython's chain of [str.replace] calls; the theorems
    show it equals a per-character escape, that its output contains no
    markup character, and that unescaping gives the text back.  The sort
    is a stable insertion sort: its output is sorted, a permutation of
    the input, and keeps the input order of equal titles, which
    determines Python's [sorted(..., key=...)] uniquely. *)

From Stdlib Require Import ZArith QArith List String Ascii Bool Lia Sorted Permutation.
From stdpp Require Import base list strings.
From S2P Require Import Prelude PyStr PyInt Shelves Width SpaceUsage.

Open Scope string_scope.
Open Scope list_scope.
Import ListNotations.

Module Report.

(** ** [html.escape(s, quote=True)] *)

Definition dquote : ascii := ascii_of_nat 34.

(** [s.replace(c, r)] for a one-character [c]. *)
Fixpoint replace_char (c : ascii) (r : string) (s : string) : string :=
  match s with
  | EmptyString => EmptyString
  | String c' s' =>
      if Ascii.eqb c' c then r +:+ replace_char c r s' else String c' (replace_char c r s')
  end.

(** CPython's [html.escape]: [&] first, then [<], [>], the double quote and ['] . *)
Definition html_escape (s : string) : string :=
  replace_char "'" "&#x27;"
    (replace_char dquote "&quot;"
      (replace_char ">" "&gt;"
        (replace_char "<" "&lt;"
          (replace_char "&" "&amp;" s)))).

(** The escape of one character. *)
Definition escape_char (c : ascii) : string :=
  if Ascii.eqb c "&" then "&amp;"
  else if Ascii.eqb c "<" then "&lt;"
  else if Ascii.eqb c ">" then "&gt;"
  else if Ascii.eqb c dquote then "&quot;"
  else if Ascii.eqb c "'" then "&#x27;"
  else String c EmptyString.

Fixpoint escape_chars (s : string) : string :=
  match s with
  | EmptyString => EmptyString
  | String c s' => escape_char c +:+ escape_chars s'
  end.

(** No character of markup: [<], [>], the double quote or ['] . *)
Definition markup_free (s : string) : bool :=
  negb (contains "<" s || contains ">" s || contains (String dquote EmptyString) s ||
        contains "'" s).

(** [html.unescape] on the five entities [html.escape] produces. *)
Fixpoint unescape (fuel : nat) (s : string) : string :=
  match fuel with
  | O => s
  | S fuel' =>
      match s with
      | EmptyString => EmptyString
      | String c s' =>
          if starts_with "&amp;" s then "&" +:+ unescape fuel' (substring 5 (String.length s) s)
          else if starts_with "&lt;" s then "<" +:+ unescape fuel' (substring 4 (String.length s) s)
          else if starts_with "&gt;" s then ">" +:+ unescape fuel' (substring 4 (String.length s) s)
          else if starts_with "&quot;" s then String dquote (unescape fuel' (substring 6 (String.length s) s))
          else if starts_with "&#x27;" s then "'" +:+ unescape fuel' (substring 6 (String.length s) s)
          else String c (unescape fuel' s')
      end
  end.

Definition html_unescape (s : string) : string := unescape (String.length s) s.

(** ** [sorted(row_books, key=lambda x: x['title'])] (line 507) *)

(** The sort key; a [None] title is handled by [sorted_row_books]. *)
Definition title_key (e : SpaceUsage.book_entry) : string :=
  match SpaceUsage.be_title e with Some t => t | None => "" end.

(** Insert before the first entry whose title is not smaller, so that
    earlier entries stay before later ones with an equal title. *)
Fixpoint insert_by_title (e : SpaceUsage.book_entry) (l : list SpaceUsage.book_entry)
    : list SpaceUsage.book_entry :=
  match l with
  | [] => [e]
  | x :: l' => if String.leb (title_key e) (title_key x) then e :: l
               else x :: insert_by_title e l'
  end.

Definition sort_by_title (l : list SpaceUsage.book_entry) : list SpaceUsage.book_entry :=
  fold_right insert_by_title [] l.

(** Python compares [None] with a string only when the list has two
    elements or more, and then raises [TypeError]. *)
Definition sorted_row_books (l : list SpaceUsage.book_entry)
    : pyres (list SpaceUsage.book_entry) :=
  if (2 <=? List.length l)%nat &&
     existsb (fun e => match SpaceUsage.be_title e with None => true | Some _ => false end) l
  then Err TypeError
  else Ok (sort_by_title l).

(** ** The capacity banner status (lines 443-451) *)

Inductive capacity_status := OverCapacity | NearCapacity | GoodCapacity.

#[export] Instance capacity_status_eq_dec : EqDecision capacity_status.
Proof. solve_decision. Defined.

(** [if utilization > 90: ... elif utilization > 75: ... else: ...] *)
Definition status_of (utilization : Q) : capacity_status :=
  if negb (Qle_bool utilization 90) then OverCapacity
  else if negb (Qle_bool utilization 75) then NearCapacity
  else GoodCapacity.

Definition status_class (st : capacity_status) : string :=
  match st with
  | OverCapacity => "over-capacity"
  | NearCapacity => "near-capacity"
  | GoodCapacity => "good-capacity"
  end.

(** ** The report *)

(** One banner of the utilization overview (lines 455-462). *)
Record banner := mk_banner {
  bn_shelf : string;
  bn_status : capacity_status;
  bn_utilization : Q;
  bn_total_width : quarters;
  bn_available : Z }.

(** One table line (lines 508-515): escaped title and author, the page
    count or ["Unknown"], the width. *)
Record book_line := mk_line {
  bl_title : string;
  bl_author : string;
  bl_pages : string;
  bl_width : quarters }.

(** One row of a shelf (lines 489-521). *)
Record row_section := mk_row_section {
  rs_row : Z;
  rs_name : string;
  rs_width : quarters;
  rs_count : nat;
  rs_lines : list book_line }.

(** One shelf (lines 476-523). *)
Record shelf_section := mk_shelf_section {
  ss_shelf : string;
  ss_name : string;
  ss_dims : shelf_dim;
  ss_utilization : Q;
  ss_total_width : quarters;
  ss_rows : list row_section }.

Record report := mk_report {
  rp_books : nat;
  rp_videogames : nat;
  rp_music : nat;
  rp_banners : list banner;
  rp_shelves : list shelf_section }.

(** [len([item for item in all_items if item['item_type'] == kind])]
    (lines 429-431); [KeyError] on an item without the column. *)
Fixpoint count_kind (kind : string) (items : list item) : pyres nat :=
  match items with
  | [] => Ok 0%nat
  | it :: rest =>
      ty <- dict_index "item_type" it ;;
      n <- count_kind kind rest ;;
      Ok (if bool_decide (ty = Some kind) then S n else n)
  end.

(** [html.escape(x)]: [AttributeError] when [x] is [None]. *)
Definition escape_field (x : option string) : pyres string :=
  match x with Some s => Ok (html_escape s) | None => Err AttributeError end.

(** [book['pages'] if book['pages'] > 0 else 'Unknown'] *)
Definition pages_text (pages : Z) : string :=
  if (0 <? pages)%Z then py_str pages else "Unknown".

Definition book_line_of (e : SpaceUsage.book_entry) : pyres book_line :=
  t <- escape_field (SpaceUsage.be_title e) ;;
  a <- escape_field (SpaceUsage.be_author e) ;;
  Ok (mk_line t a (pages_text (SpaceUsage.be_pages e)) (SpaceUsage.be_width e)).

(** [str.title()] on ASCII: a letter is upper-cased after a non-letter
    and lower-cased after a letter. *)
Definition is_alpha (c : ascii) : bool :=
  let n := nat_of_ascii c in ((65 <=? n) && (n <=? 90) || (97 <=? n) && (n <=? 122))%nat.

Definition upper_char (c : ascii) : ascii :=
  let n := nat_of_ascii c in
  if ((97 <=? n) && (n <=? 122))%nat then ascii_of_nat (n - 32) else c.

Fixpoint title_from (after_letter : bool) (s : string) : string :=
  match s with
  | EmptyString => EmptyString
  | String c s' =>
      if is_alpha c
      then String (if after_letter then lower_char c else upper_char c) (title_from true s')
      else String c (title_from false s')
  end.

(** [shelf_id.replace('_', ' ').title()] *)
Definition display_name (sid : string) : string :=
  title_from false (replace_char "_" " " sid).

(** Lines 440-462 for one shelf of [ORGANIZATION]. *)
Definition banner_of (u : SpaceUsage.space_usage) (sid : string) : pyres banner :=
  let usage := dict_get sid u in
  let util := match usage with Some sh => SpaceUsage.su_utilization sh | None => 0%Q end in
  let total := match usage with Some sh => SpaceUsage.su_total_width sh | None => 0%Z end in
  dims <- dict_index sid SHELF_DIMENSIONS ;;
  Ok (mk_banner sid (status_of util) util total (sd_width dims * sd_rows dims)).

(** Lines 484-521 for one row. *)
Definition row_section_of (usage : option SpaceUsage.shelf_usage) (rn : Z) (name : string)
    : pyres row_section :=
  let ru := match usage with Some sh => dict_get rn (SpaceUsage.su_rows sh) | None => None end in
  let books := match ru with Some r => SpaceUsage.ru_items r | None => [] end in
  let width := match ru with Some r => SpaceUsage.ru_width r | None => 0%Z end in
  sorted <- sorted_row_books books ;;
  lines <- mapM book_line_of sorted ;;
  Ok (mk_row_section rn name width (List.length books) lines).

(** Lines 471-523 for one shelf. *)
Definition shelf_section_of (u : SpaceUsage.space_usage) (sid : string) (rows : dict Z string)
    : pyres shelf_section :=
  let usage := dict_get sid u in
  dims <- dict_index sid SHELF_DIMENSIONS ;;
  rs <- mapM (fun '(rn, name) => row_section_of usage rn name) rows ;;
  Ok (mk_shelf_section sid (display_name sid) dims
        (match usage with Some sh => SpaceUsage.su_utilization sh | None => 0%Q end)
        (match usage with Some sh => SpaceUsage.su_total_width sh | None => 0%Z end) rs).

(** [generate_html(all_items, space_usage)] (lines 392-540): the counts,
    the banners and the shelf sections.  (The list [books] of line 469 is
    unused and raises nothing the counts have not raised.) *)
Definition generate_html (all_items : list item) (u : SpaceUsage.space_usage) : pyres report :=
  nb <- count_kind "book" all_items ;;
  nv <- count_kind "videogame" all_items ;;
  nm <- count_kind "music" all_items ;;
  banners <- mapM (fun '(sid, _) => banner_of u sid) ORGANIZATION ;;
  shelves <- mapM (fun '(sid, rows) => shelf_section_of u sid rows) ORGANIZATION ;;
  Ok (mk_report nb nv nm banners shelves).

(** ** Escape lemmas *)

Lemma replace_char_app c r a b :
  replace_char c r (a +:+ b) = replace_char c r a +:+ replace_char c r b.
Proof.
  induction a as [|x a IH]; str_simpl; simpl; [done|].
  destruct (Ascii.eqb x c); rewrite IH; [apply str_app_assoc | done].
Qed.

Lemma html_escape_app a b : html_escape (a +:+ b) = html_escape a +:+ html_escape b.
Proof. unfold html_escape. by rewrite !replace_char_app. Qed.

Lemma html_escape_char x : html_escape (String x EmptyString) = escape_char x.
Proof. destruct x as [[] [] [] [] [] [] [] []]; reflexivity. Qed.

Lemma contains_char_app c a b :
  contains (String c EmptyString) (a +:+ b) =
  contains (String c EmptyString) a || contains (String c EmptyString) b.
Proof.
  induction a as [|x a IH]; str_simpl; simpl.
  - destruct b; simpl; [done|]. by rewrite andb_true_r.
  - rewrite IH, andb_true_r. by rewrite orb_assoc.
Qed.

Lemma escape_char_markup_free x : markup_free (escape_char x) = true.
Proof. destruct x as [[] [] [] [] [] [] [] []]; reflexivity. Qed.

Lemma markup_free_app a b :
  markup_free (a +:+ b) = markup_free a && markup_free b.
Proof.
  unfold markup_free. rewrite !contains_char_app.
  destruct (contains "<" a), (contains "<" b), (contains ">" a), (contains ">" b),
    (contains (String dquote "") a), (contains (String dquote "") b),
    (contains "'" a), (contains "'" b); reflexivity.
Qed.

Lemma str_length_app a b : String.length (a +:+ b) = (String.length a + String.length b)%nat.
Proof. induction a; str_simpl; simpl; lia. Qed.

Lemma substring_all s m : (String.length s <= m)%nat -> substring 0 m s = s.
Proof.
  revert m. induction s as [|c s IH]; intros [|m] Hm; simpl in *; try lia; try done.
  rewrite IH; [done | lia].
Qed.

Lemma substring_skip w r m : substring (String.length w) m (w +:+ r) = substring 0 m r.
Proof. induction w as [|x w IH]; str_simpl; simpl; [done | exact IH]. Qed.

(** The text after an entity [w] of [w ++ rest]. *)
Lemma substring_after w rest :
  substring (String.length w) (String.length (w +:+ rest)) (w +:+ rest) = rest.
Proof. rewrite substring_skip. apply substring_all. rewrite str_length_app. lia. Qed.

Lemma starts_with_amp_other x w r :
  x <> "&"%char -> starts_with (String "&" w) (String x r) = false.
Proof.
  intros Hx. cbn [starts_with]. by rewrite (proj2 (Ascii.eqb_neq "&"%char x)) by congruence.
Qed.

(** Unescaping an entity followed by more text. *)
Ltac unescape_entity :=
  intros; str_simpl; simpl; rewrite substring_all; [done | simpl; lia].

Lemma unescape_amp f r : unescape (S f) ("&amp;" +:+ r) = "&" +:+ unescape f r.
Proof. unescape_entity. Qed.
Lemma unescape_lt f r : unescape (S f) ("&lt;" +:+ r) = "<" +:+ unescape f r.
Proof. unescape_entity. Qed.
Lemma unescape_gt f r : unescape (S f) ("&gt;" +:+ r) = ">" +:+ unescape f r.
Proof. unescape_entity. Qed.
Lemma unescape_quot f r : unescape (S f) ("&quot;" +:+ r) = String dquote (unescape f r).
Proof. unescape_entity. Qed.
Lemma unescape_apos f r : unescape (S f) ("&#x27;" +:+ r) = "'" +:+ unescape f r.
Proof. unescape_entity. Qed.

Lemma unescape_other f x r : x <> "&"%char -> unescape (S f) (String x r) = String x (unescape f r).
Proof.
  intros Hx. cbn [unescape]. by rewrite !starts_with_amp_other.
Qed.

Lemma unescape_escape_chars f s :
  (String.length s <= f)%nat -> unescape f (escape_chars s) = s.
Proof.
  revert f. induction s as [|x s IH]; intros [|f] Hf; simpl in Hf; try lia; try reflexivity.
  cbn [escape_chars]. unfold escape_char.
  destruct (Ascii.eqb_spec x "&") as [->|H1];
    [rewrite unescape_amp, IH by lia; done|].
  destruct (Ascii.eqb_spec x "<") as [->|H2]; [rewrite unescape_lt, IH by lia; done|].
  destruct (Ascii.eqb_spec x ">") as [->|H3]; [rewrite unescape_gt, IH by lia; done|].
  destruct (Ascii.eqb_spec x dquote) as [->|H4]; [rewrite unescape_quot, IH by lia; done|].
  destruct (Ascii.eqb_spec x "'") as [->|H5]; [rewrite unescape_apos, IH by lia; done|].
  str_simpl. rewrite unescape_other, IH by (done || lia). done.
Qed.

Lemma escape_chars_length s : (String.length s <= String.length (escape_chars s))%nat.
Proof.
  induction s as [|x s IH]; simpl; [lia|]. rewrite str_length_app.
  enough (1 <= String.length (escape_char x))%nat by lia.
  destruct x as [[] [] [] [] [] [] [] []]; simpl; lia.
Qed.

(** ** Escape properties *)

(** CPython's chain of [str.replace] calls is the per-character
    escape: each character is replaced independently. *)
Theorem html_escape_per_char (s : string) : html_escape s = escape_chars s.
Proof.
  induction s as [|x s IH]; [done|].
  change (String x s) with (String x EmptyString +:+ s).
  by rewrite html_escape_app, html_escape_char, IH.
Qed.

(** A title or author passed through [html.escape] contains no markup
    character ([<], [>], the double quote, [']): user text cannot open a
    tag or close an attribute in the report. *)
Theorem html_escape_markup_free (s : string) : markup_free (html_escape s) = true.
Proof.
  rewrite html_escape_per_char. induction s as [|x s IH]; [done|].
  simpl. by rewrite markup_free_app, escape_char_markup_free, IH.
Qed.

(** Escaping loses nothing: [html.unescape(html.escape(s)) == s]. *)
Theorem html_escape_roundtrip (s : string) : html_unescape (html_escape s) = s.
Proof.
  unfold html_unescape. rewrite html_escape_per_char.
  apply unescape_escape_chars, escape_chars_length.
Qed.

(** ** Sort lemmas *)

Lemma string_compare_refl t : String.compare t t = Eq.
Proof.
  induction t as [|c t IH]; simpl; [done|].
  unfold Ascii.compare. by rewrite N.compare_refl.
Qed.

Lemma string_leb_refl t : String.leb t t = true.
Proof. unfold String.leb. by rewrite string_compare_refl. Qed.

Lemma insert_by_title_perm e l : Permutation (e :: l) (insert_by_title e l).
Proof.
  induction l as [|x l IH]; simpl; [done|].
  destruct (String.leb _ _); [done|].
  etransitivity; [apply perm_swap | by constructor].
Qed.

Lemma insert_by_title_sorted e l :
  Sorted (fun a b => String.leb (title_key a) (title_key b) = true) l ->
  Sorted (fun a b => String.leb (title_key a) (title_key b) = true) (insert_by_title e l).
Proof.
  induction 1 as [|x l Hl IH Hx]; simpl; [repeat constructor|].
  destruct (String.leb (title_key e) (title_key x)) eqn:E; [by repeat constructor|].
  constructor; [exact IH|].
  assert (Hxe : String.leb (title_key x) (title_key e) = true)
    by (destruct (String.leb_total (title_key e) (title_key x)); congruence).
  destruct l as [|y l]; simpl; [by constructor|].
  inversion Hx as [|? ? Hxy]; subst.
  destruct (String.leb (title_key e) (title_key y)); by constructor.
Qed.

(** Entries with a given title keep their order through an insertion. *)
Lemma insert_by_title_stable e l t :
  List.filter (fun x => String.eqb (title_key x) t) (insert_by_title e l) =
  List.filter (fun x => String.eqb (title_key x) t) (e :: l).
Proof.
  induction l as [|x l IH]; simpl; [done|].
  destruct (String.leb (title_key e) (title_key x)) eqn:E; [done|].
  assert (Hne : title_key e <> title_key x) by (intros Heq; rewrite Heq, string_leb_refl in E; done).
  simpl. rewrite IH. simpl.
  destruct (String.eqb_spec (title_key x) t), (String.eqb_spec (title_key e) t); congruence.
Qed.

Lemma sort_by_title_permutation l : Permutation l (sort_by_title l).
Proof.
  induction l as [|e l IH]; simpl; [done|].
  rewrite <- insert_by_title_perm. by constructor.
Qed.

(** ** Report lemmas *)

Lemma count_kind_ok kind items :
  Forall (fun it => dict_get "item_type" it <> None) items ->
  exists n, count_kind kind items = Ok n.
Proof.
  induction items as [|it items IH]; intros Hall; simpl; [eauto|].
  apply Forall_cons in Hall as [Hty Hall]. unfold dict_index.
  destruct (dict_get "item_type" it); [|done]. destruct (IH Hall) as [n ->]. eauto.
Qed.

(** The books of the row sections of a space usage all have a title and
    an author. *)
Definition entries_complete (u : SpaceUsage.space_usage) : Prop :=
  forall sid sh rn rw e,
    dict_get sid u = Some sh -> dict_get rn (SpaceUsage.su_rows sh) = Some rw ->
    In e (SpaceUsage.ru_items rw) ->
    SpaceUsage.be_title e <> None /\ SpaceUsage.be_author e <> None.

Definition entries_completeb (u : SpaceUsage.space_usage) : bool :=
  forallb (fun p => forallb (fun r => forallb (fun e =>
      bool_decide (SpaceUsage.be_title e <> None) && bool_decide (SpaceUsage.be_author e <> None))
    (SpaceUsage.ru_items r.2)) (SpaceUsage.su_rows p.2)) u.

Lemma entries_completeb_sound u : entries_completeb u = true -> entries_complete u.
Proof.
  intros H sid sh rn rw e Hs Hr Hin. unfold entries_completeb in H.
  rewrite forallb_forall in H. specialize (H _ (dict_get_In _ _ _ Hs)).
  rewrite forallb_forall in H. specialize (H _ (dict_get_In _ _ _ Hr)).
  rewrite forallb_forall in H. specialize (H _ Hin).
  apply andb_true_iff in H as [H1 H2]. split; eapply bool_decide_eq_true_1; eassumption.
Qed.

Lemma row_section_of_ok u sid rn name :
  entries_complete u -> exists rs, row_section_of (dict_get sid u) rn name = Ok rs.
Proof.
  intros Hc. unfold row_section_of.
  destruct (dict_get sid u) as [sh|] eqn:Hsh; [|eauto].
  destruct (dict_get rn (SpaceUsage.su_rows sh)) as [rw|] eqn:Hrw; [|eauto].
  assert (Hsorted : sorted_row_books (SpaceUsage.ru_items rw)
                    = Ok (sort_by_title (SpaceUsage.ru_items rw))).
  { unfold sorted_row_books. rewrite andb_false_intro2; [done|].
    apply not_true_iff_false. rewrite existsb_exists. intros [e [He Hn]].
    destruct (Hc _ _ _ _ e Hsh Hrw He) as [Ht _]. by destruct (SpaceUsage.be_title e). }
  rewrite Hsorted.
  destruct (mapM_ok book_line_of (sort_by_title (SpaceUsage.ru_items rw))) as [ls ->]; [|eauto].
  intros e He. pose proof (sort_by_title_permutation (SpaceUsage.ru_items rw)) as Hp.
  apply (Permutation_in _ (Permutation_sym Hp)) in He.
  destruct (Hc _ _ _ _ e Hsh Hrw He) as [Ht Ha]. unfold book_line_of.
  destruct (SpaceUsage.be_title e), (SpaceUsage.be_author e); done || (simpl; eauto).
Qed.

(** The books of the row sections of a space usage all have a title. *)
Definition entries_titled (u : SpaceUsage.space_usage) : Prop :=
  forall sid sh rn rw e,
    dict_get sid u = Some sh -> dict_get rn (SpaceUsage.su_rows sh) = Some rw ->
    In e (SpaceUsage.ru_items rw) -> SpaceUsage.be_title e <> None.

Lemma book_line_of_error e err : book_line_of e = Err err -> err = AttributeError.
Proof.
  unfold book_line_of, escape_field.
  by destruct (SpaceUsage.be_title e), (SpaceUsage.be_author e); simpl; intros [= <-].
Qed.

Lemma sorted_row_books_titled l :
  (forall e, In e l -> SpaceUsage.be_title e <> None) -> sorted_row_books l = Ok (sort_by_title l).
Proof.
  intros Ht. unfold sorted_row_books. rewrite andb_false_intro2; [done|].
  apply not_true_iff_false. rewrite existsb_exists. intros [e [He Hn]].
  specialize (Ht e He). by destruct (SpaceUsage.be_title e).
Qed.

(** With titled entries a row section can only raise [AttributeError]
    (an author that is [None]). *)
Lemma row_section_of_error u sid rn name err :
  entries_titled u -> row_section_of (dict_get sid u) rn name = Err err -> err = AttributeError.
Proof.
  intros Ht. unfold row_section_of.
  destruct (dict_get sid u) as [sh|] eqn:Hsh; [|discriminate].
  destruct (dict_get rn (SpaceUsage.su_rows sh)) as [rw|] eqn:Hrw; [|discriminate].
  rewrite sorted_row_books_titled by (intros e He; exact (Ht _ _ _ _ e Hsh Hrw He)).
  destruct (mapM book_line_of _) as [ls|err'] eqn:Hm; [discriminate|]. intros [= <-].
  destruct (mapM_Err _ _ _ Hm) as (x & _ & Hx). exact (book_line_of_error _ _ Hx).
Qed.

Lemma banner_of_ok u sid rows :
  In (sid, rows) ORGANIZATION -> exists b, banner_of u sid = Ok b.
Proof.
  intros Hin. destruct (organization_matches_In _ _ _ _ ORGANIZATION_matches Hin) as (d & Hd & _).
  unfold banner_of, dict_index. rewrite Hd. eauto.
Qed.

Lemma shelf_section_of_error u sid rows err :
  In (sid, rows) ORGANIZATION -> entries_titled u ->
  shelf_section_of u sid rows = Err err -> err = AttributeError.
Proof.
  intros Hin Ht. destruct (organization_matches_In _ _ _ _ ORGANIZATION_matches Hin) as (d & Hd & _).
  unfold shelf_section_of, dict_index. rewrite Hd. simpl.
  destruct (mapM _ rows) as [rs|err'] eqn:Hm; [discriminate|]. intros [= <-].
  destruct (mapM_Err _ _ _ Hm) as ([rn name] & _ & Hx).
  exact (row_section_of_error u sid rn name err' Ht Hx).
Qed.

(** [generate_html] raises nothing but [AttributeError] on typed items
    and titled entries: no [KeyError] from the counts or the
    configuration, no [TypeError] from [sorted]. *)
Lemma generate_html_error all_items u err :
  Forall (fun it => dict_get "item_type" it <> None) all_items -> entries_titled u ->
  generate_html all_items u = Err err -> err = AttributeError.
Proof.
  intros Hty Ht. unfold generate_html.
  destruct (count_kind_ok "book" _ Hty) as [nb ->].
  destruct (count_kind_ok "videogame" _ Hty) as [nv ->].
  destruct (count_kind_ok "music" _ Hty) as [nm ->].
  remember ORGANIZATION as org eqn:Horg. simpl.
  destruct (mapM (fun '(sid, _) => banner_of u sid) org) as [bs|eb] eqn:Hb.
  - destruct (mapM (fun '(sid, rows) => shelf_section_of u sid rows) org)
      as [ss|es] eqn:Hs; [discriminate|]. intros [= <-].
    destruct (mapM_Err _ _ _ Hs) as ([sid rows] & Hin & Hx). subst org.
    exact (shelf_section_of_error u sid rows es Hin Ht Hx).
  - destruct (mapM_Err _ _ _ Hb) as ([sid rows] & Hin & Hx). subst org.
    destruct (banner_of_ok u sid rows Hin) as [b Hb']. simpl in Hx. congruence.
Qed.

Lemma mapM_Ok_In {A B} (f : A -> pyres B) l l' x :
  mapM f l = Ok l' -> In x l -> exists y, f x = Ok y.
Proof.
  intros H Hin. apply mapM_Ok in H. induction H as [|a b l l' Hab _ IH]; [done|].
  destruct Hin as [<-|Hin]; eauto.
Qed.

(** Every configured row is a row of the report's layout. *)
Lemma organization_row sid rn :
  valid_location SHELF_DIMENSIONS (sid, rn) = true ->
  exists rows name, In (sid, rows) ORGANIZATION /\ dict_get rn rows = Some name.
Proof.
  unfold valid_location. cbn [fst snd]. destruct (dict_get sid SHELF_DIMENSIONS) as [d|] eqn:Hd; [|intros [=]].
  intros Hr. pose proof ORGANIZATION_matches as Hm.
  assert (Hk : In sid (dict_keys ORGANIZATION)).
  { unfold organization_matches in Hm. apply andb_true_iff in Hm as [_ Hk].
    apply bool_decide_eq_true_1 in Hk. rewrite Hk. exact (dict_get_Some_keys _ _ _ Hd). }
  destruct (dict_keys_get _ _ Hk) as [rows Hrows]. apply dict_get_In in Hrows.
  destruct (organization_matches_In _ _ _ _ Hm Hrows) as (d' & Hd' & Hkeys).
  rewrite Hd in Hd'. injection Hd' as <-.
  assert (Hin : In rn (dict_keys rows)) by (rewrite Hkeys, In_row_range; apply andb_true_iff in Hr as [H1 H2]; apply Z.leb_le in H1, H2; lia).
  destruct (dict_keys_get _ _ Hin) as [name Hname]. eauto.
Qed.

(** A report is produced only when every book of a configured row has a
    table line: its title and author are not [None]. *)
Lemma generate_html_lines all_items u r sid sh rn rw e :
  generate_html all_items u = Ok r ->
  valid_location SHELF_DIMENSIONS (sid, rn) = true ->
  dict_get sid u = Some sh -> dict_get rn (SpaceUsage.su_rows sh) = Some rw ->
  In e (SpaceUsage.ru_items rw) -> exists l, book_line_of e = Ok l.
Proof.
  intros Hg Hv Hsh Hrw He. destruct (organization_row sid rn Hv) as (rows & name & Hin & Hname).
  unfold generate_html in Hg.
  destruct (count_kind "book" all_items), (count_kind "videogame" all_items),
    (count_kind "music" all_items); try discriminate.
  cbv beta iota in Hg.
  destruct (mapM (fun '(sid, _) => banner_of u sid) ORGANIZATION); [|discriminate].
  destruct (mapM (fun '(sid, rows) => shelf_section_of u sid rows) ORGANIZATION) as [ss|] eqn:Hs;
    [|discriminate].
  destruct (mapM_Ok_In _ _ _ _ Hs Hin) as [sec Hsec].
  unfold shelf_section_of in Hsec. destruct (dict_index sid SHELF_DIMENSIONS); [|discriminate].
  cbv beta iota in Hsec.
  destruct (mapM (fun '(rn, name) => row_section_of (dict_get sid u) rn name) rows) as [rs|] eqn:Hr;
    [|discriminate].
  destruct (mapM_Ok_In _ _ _ _ Hr (dict_get_In _ _ _ Hname)) as [sec' Hsec'].
  unfold row_section_of in Hsec'. rewrite Hsh, Hrw in Hsec'.
  destruct (sorted_row_books _) as [sorted|] eqn:Hsort; [|discriminate].
  destruct (mapM book_line_of sorted) as [ls|] eqn:Hl; [|discriminate].
  unfold sorted_row_books in Hsort. destruct (_ && _); [discriminate|]. injection Hsort as <-.
  apply (mapM_Ok_In _ _ _ _ Hl).
  apply (Permutation_in _ (sort_by_title_permutation _)), He.
Qed.

Lemma book_line_of_author e l : book_line_of e = Ok l -> SpaceUsage.be_author e <> None.
Proof.
  unfold book_line_of, escape_field.
  by destruct (SpaceUsage.be_title e), (SpaceUsage.be_author e).
Qed.

(** ** Properties of the report *)

(** C23: the rows' book lists are sorted the way Python's stable
    [sorted(..., key=title)] sorts them: the result is ordered by title,
    is a permutation of the row, and books with the same title keep
    their order. *)
Theorem sort_by_title_spec (l : list SpaceUsage.book_entry) :
  Sorted (fun a b => String.leb (title_key a) (title_key b) = true) (sort_by_title l) /\
  Permutation l (sort_by_title l) /\
  forall t, List.filter (fun x => String.eqb (title_key x) t) (sort_by_title l) =
            List.filter (fun x => String.eqb (title_key x) t) l.
Proof.
  induction l as [|e l (Hs & Hp & Hst)]; simpl; [split_and!; by constructor|].
  split_and!.
  - by apply insert_by_title_sorted.
  - apply (sort_by_title_permutation (e :: l)).
  - intros t. rewrite insert_by_title_stable. simpl. by rewrite Hst.
Qed.

(** C30: the report is always produced when every item has an
    [item_type] column and every shelved book has a title and an author:
    [generate_html] raises nothing of its own ([SHELF_DIMENSIONS] has every
    shelf of [ORGANIZATION]). *)
Theorem generate_html_ok (all_items : list item) (u : SpaceUsage.space_usage) :
  Forall (fun it => dict_get "item_type" it <> None) all_items ->
  entries_complete u ->
  exists r, generate_html all_items u = Ok r.
Proof.
  intros Hty Hc. unfold generate_html.
  destruct (count_kind_ok "book" _ Hty) as [nb ->].
  destruct (count_kind_ok "videogame" _ Hty) as [nv ->].
  destruct (count_kind_ok "music" _ Hty) as [nm ->].
  cbn [mapM ORGANIZATION]. unfold banner_of, dict_index. simpl.
  unfold shelf_section_of, dict_index. simpl.
  repeat match goal with
  | |- context [row_section_of (dict_get ?sid u) ?rn ?name] =>
      let H := fresh in
      destruct (row_section_of_ok u sid rn name Hc) as [? H]; rewrite H; clear H
  end.
  eauto.
Qed.

Definition sample_books : list item :=
  [[("item_type", Some "book"); ("title", Some "Dune"); ("creators", Some "Herbert");
    ("length", Some "412")]].

Definition sample_usage : SpaceUsage.space_usage :=
  match SpaceUsage.calculate_space_usage None sample_books with Ok u => u | Err _ => [] end.

Lemma generate_html_ok_witness :
  Forall (fun it => dict_get "item_type" it <> None) sample_books /\
  entries_complete sample_usage /\
  exists r, generate_html sample_books sample_usage = Ok r.
Proof.
  assert (Hty : Forall (fun it => dict_get "item_type" it <> None) sample_books)
    by (repeat constructor; discriminate).
  assert (Hc : entries_complete sample_usage)
    by (apply entries_completeb_sound; vm_compute; reflexivity).
  split; [exact Hty|split; [exact Hc|]].
  exact (generate_html_ok _ _ Hty Hc).
Defined.

(** The banner's status band is decided on the exact utilization
    [100 * total / available]: with a positive capacity, "over capacity"
    means [5 * total > 18 * capacity] (above 90%), "near capacity"
    [total > 3 * capacity] (above 75%), counting widths in quarter
    inches. *)
Theorem status_of_utilization (total avail : Z) :
  (0 < avail)%Z ->
  status_of (SpaceUsage.utilization total avail) =
  if (18 * avail <? 5 * total)%Z then OverCapacity
  else if (3 * avail <? total)%Z then NearCapacity
  else GoodCapacity.
Proof.
  intros Hav. destruct avail as [|p|p]; [lia | | lia].
  unfold status_of, SpaceUsage.utilization, Qle_bool. simpl.
  rewrite !Z.mul_1_r, Pos.mul_1_l.
  destruct (Z.leb_spec (25 * total) (90 * Z.pos p)),
    (Z.ltb_spec (18 * Z.pos p) (5 * total)); try lia; simpl;
  destruct (Z.leb_spec (25 * total) (75 * Z.pos p)),
    (Z.ltb_spec (3 * Z.pos p) total); try lia; reflexivity.
Qed.

(** The specification's example: the hallway (2 rows of 16") holding 40"
    of books is at 125% and shown as over capacity. *)
Lemma status_of_utilization_witness :
  (0 < 32)%Z /\ SpaceUsage.utilization 160 32 == 125 /\
  status_of (SpaceUsage.utilization 160 32) = OverCapacity.
Proof.
  split_and!; [lia | reflexivity |].
  rewrite (status_of_utilization 160 32); [reflexivity | lia].
Defined.

End Report.
