(* ===== verification/FloatBands.v ===== *)
(** * The utilization as CPython computes it

    Line 217 of src/generate_organization.py computes
    [(total_width / available_width) * 100] in binary64 floats, and the
    code compares the result with 90 and 75 for the banner (lines
    443-451) and with 100 for the over-capacity list (line 381).  The
    rest of the development uses the exact rational
    [SpaceUsage.utilization].  This file models the float computation
    with Rocq's primitive floats, which are IEEE 754 binary64 with
    round-to-nearest-even, the arithmetic of CPython's [float], and
    proves that on the configured shelves the float comparisons decide
    every band exactly as the rational ones do.

    [total_width] is a float sum of the widths 0.5, 0.75, 1.0, 1.25, 1.5
    and 2.0, all multiples of 0.25: every partial sum is a multiple of
    0.25 far below 2^51, hence exact, and the float [total_width] is
    [k / 4] for the model's width [k] in quarter inches. *)

From Stdlib Require Import ZArith QArith List String Floats Lia.
From stdpp Require Import base list strings.
From S2P Require Import Prelude Shelves Width SpaceUsage Report.

Open Scope string_scope.
Open Scope list_scope.
Import ListNotations.
Import Report SpaceUsage.

Module FloatBands.

(** An integer as a float (exact below 2^53). *)
Definition float_of_Z (z : Z) : float := PrimFloat.of_uint63 (Uint63.of_Z z).

(** [(total_width / available_width) * 100] for a total of [total]
    quarter inches. *)
Definition py_utilization (total : quarters) (available : Z) : float :=
  PrimFloat.mul (PrimFloat.div (PrimFloat.div (float_of_Z total) (float_of_Z 4))
                               (float_of_Z available))
                (float_of_Z 100).

(** Lines 443-451 on the float. *)
Definition status_of_float (u : float) : capacity_status :=
  if PrimFloat.ltb (float_of_Z 90) u then OverCapacity
  else if PrimFloat.ltb (float_of_Z 75) u then NearCapacity
  else GoodCapacity.

(** Line 381: [if util > 100]. *)
Definition over_float (u : float) : bool := PrimFloat.ltb (float_of_Z 100) u.

(** ** A bounded exhaustive check *)

(** The float and the rational computation agree on a total. *)
Definition bands_agree (available total : Z) : bool :=
  bool_decide (status_of_float (py_utilization total available) =
               status_of (utilization total available)) &&
  Bool.eqb (over_float (py_utilization total available))
           (negb (Qle_bool (utilization total available) 100)).

Fixpoint check_from (f : Z -> bool) (k : Z) (n : nat) : bool :=
  match n with
  | O => f k
  | S m => f k && check_from f (Z.succ k) m
  end.

Lemma check_from_spec f k0 n k :
  check_from f k0 n = true -> (k0 <= k <= k0 + Z.of_nat n)%Z -> f k = true.
Proof.
  revert k0. induction n as [|n IH]; intros k0; simpl; intros H Hk.
  - by replace k with k0 by lia.
  - apply andb_true_iff in H as [H1 H2].
    destruct (Z.eq_dec k k0) as [->|Hne]; [done|]. apply (IH (Z.succ k0)); [done|lia].
Qed.

(** The totals checked: up to 100 times the capacity. *)
Definition bound (available : Z) : Z := 400 * available.

Lemma bands_checked :
  forallb (fun p => let a := (sd_width p.2 * sd_rows p.2)%Z in
                    check_from (bands_agree a) 0 (Z.to_nat (bound a))) SHELF_DIMENSIONS = true.
Proof. vm_compute. reflexivity. Qed.

(** On every configured shelf and every total up to 100 times its
    capacity, the float and the rational bands agree. *)
Lemma float_bands_agree sid d total :
  dict_get sid SHELF_DIMENSIONS = Some d ->
  (0 <= total <= bound (sd_width d * sd_rows d))%Z ->
  bands_agree (sd_width d * sd_rows d) total = true.
Proof.
  intros Hd Ht. pose proof bands_checked as H. rewrite forallb_forall in H.
  specialize (H _ (dict_get_In _ _ _ Hd)). simpl in H.
  apply (check_from_spec _ _ _ _ H). unfold bound in *. lia.
Qed.

(** ** The bands of the calculator's result *)

(** C12: the exact model of the utilization decides the bands as CPython's
    floats do: for every shelf [calculate_space_usage] returns, whatever
    the categorizer, the banner's band computed on the float
    [(total_width / available_width) * 100] is the band of the rational
    utilization, and [util > 100] holds of the float exactly when the
    rational utilization exceeds 100, for every total up to 100 times the
    shelf's capacity. *)
Theorem calculate_space_usage_float_bands f items u sid sh :
  calculate_space_usage f items = Ok u -> dict_get sid u = Some sh ->
  (su_total_width sh <= bound (su_available_width sh))%Z ->
  status_of_float (py_utilization (su_total_width sh) (su_available_width sh)) =
    status_of (su_utilization sh) /\
  over_float (py_utilization (su_total_width sh) (su_available_width sh)) =
    negb (Qle_bool (su_utilization sh) 100).
Proof.
  intros Hu Hget Hb. destruct SHELF_DIMENSIONS_wf as [Hnd _].
  destruct (calculation_shelf _ _ _ _ _ _ Hnd Hu Hget) as (d & Hd & Hav & Hutil & Hpos).
  rewrite Hutil. rewrite Hav in *.
  pose proof (float_bands_agree sid d (su_total_width sh) Hd ltac:(lia)) as H.
  unfold bands_agree in H. apply andb_true_iff in H as [H1 H2].
  split; [exact (bool_decide_eq_true_1 _ H1) | exact (Bool.eqb_prop _ _ H2)].
Qed.

Definition sample_items : list item :=
  [[("item_type", Some "book"); ("title", Some "Genki I"); ("length", Some "250")]].

Lemma calculate_space_usage_float_bands_witness :
  exists u sh, calculate_space_usage None sample_items = Ok u /\
    dict_get "office_a" u = Some sh /\
    (su_total_width sh <= bound (su_available_width sh))%Z /\
    status_of_float (py_utilization (su_total_width sh) (su_available_width sh)) =
      status_of (su_utilization sh) /\
    over_float (py_utilization (su_total_width sh) (su_available_width sh)) =
      negb (Qle_bool (su_utilization sh) 100).
Proof.
  destruct (calculate_space_usage None sample_items) as [u|] eqn:E;
    [|vm_compute in E; discriminate E].
  destruct (dict_get "office_a" u) as [sh|] eqn:Eg;
    [|vm_compute in E; injection E as <-; discriminate Eg].
  assert (Hb : (su_total_width sh <= bound (su_available_width sh))%Z)
    by (vm_compute in E; injection E as <-; vm_compute in Eg; injection Eg as <-; vm_compute; discriminate).
  exists u, sh. split_and!; [reflexivity | exact Eg | exact Hb |..];
    apply (calculate_space_usage_float_bands None sample_items u "office_a" sh E Eg Hb).
Defined.

End FloatBands.
