(* ===== verification/Pipeline.v ===== *)
(** * The library organiser's main flow

    [parse_csv_file] (src/generate_organization.py, lines 150-166),
    [iterative_balance] (lines 369-390) and [main] (lines 542-585): the CSV
    exports are read one by one and concatenated, the books are selected,
    [calculate_space_usage] runs once with [balanced_categorize_book], and
    [generate_html] renders the result.

    A CSV file is modelled by what [csv.DictReader] yields from it: either
    [open] fails ([Unreadable]), or a list of rows, possibly followed by
    an exception raised while reading on ([Rows rows true]): the
    [try]/[except] of [parse_csv_file] swallows it and keeps the rows
    already appended; [read_source] computes it from the text of the
    file with [CsvReader.dict_rows].  File discovery ([glob]), console output and
    writing the HTML file are not modelled; the list of sources is the
    discovery order.

    Theorems: [main] raises nothing when the rows of the books are
    complete (a title and a creator in every book row); the width it
    shelves is the width of all book rows of all files; a short line in
    an export crashes it; an export on which the reader raises midway
    still contributes the rows read before; [iterative_balance] reports a shelf
    over capacity exactly when its books are wider than it; the only
    exception [main] can raise is [AttributeError]; its shelves do not
    depend on the order of the files, but its report does. *)

From Stdlib Require Import ZArith QArith NArith List String Ascii Bool Lia Permutation.
From stdpp Require Import base list strings.
From S2P Require Import Prelude PyStr Shelves Width CsvReader Categorize Balanced SpaceUsage Report.

Open Scope string_scope.
Open Scope list_scope.
Import ListNotations.

Module Pipeline.

(** ** Data *)

Inductive csv_source :=
  | Unreadable
  | Rows (rows : list item) (fails_after : bool).

Definition recognized_kinds : list string := ["book"; "videogame"; "music"].

(** [row.get('item_type') in ['book', 'videogame', 'music']] *)
Definition recognized (row : item) : bool :=
  match item_get row "item_type" None with
  | Some t => existsb (String.eqb t) recognized_kinds
  | None => false
  end.

(** ** Operations *)

(** Lines 150-166: the recognized rows read before any exception. *)
Definition parse_csv_file (src : csv_source) : list item :=
  match src with
  | Unreadable => []
  | Rows rows _ => List.filter recognized rows
  end.

(** Lines 154-164 on the contents of a file: [open] fails ([None]), or
    [csv.DictReader] reads the text; an exception while reading
    ([csv.Error]) ends the rows, and the [except] keeps those read. *)
Definition read_source (file : option string) : csv_source :=
  match file with
  | None => Unreadable
  | Some text =>
      let '(rows, e) := CsvReader.dict_rows text in
      Rows rows (match e with Some _ => true | None => false end)
  end.

(** Line 562: [[item for item in all_items if item['item_type'] == 'book']] *)
Fixpoint select_books (items : list item) : pyres (list item) :=
  match items with
  | [] => Ok []
  | it :: rest =>
      ty <- dict_index "item_type" it ;;
      bs <- select_books rest ;;
      Ok (if bool_decide (ty = Some "book") then it :: bs else bs)
  end.

(** Lines 377-382: the shelves reported over capacity. *)
Definition over_capacity (u : SpaceUsage.space_usage) : list (string * Q) :=
  map (fun p => (p.1, SpaceUsage.su_utilization p.2))
      (List.filter (fun p => negb (Qle_bool (SpaceUsage.su_utilization p.2) 100)) u).

(** Lines 369-390: one call of [calculate_space_usage] with the balanced
    categorizer; [max_iterations] is unused and the count returned is 1. *)
Definition iterative_balance (items : list item) (max_iterations : Z)
    : pyres (SpaceUsage.space_usage * Z) :=
  u <- SpaceUsage.calculate_space_usage (Some Balanced.balanced_categorize_book) items ;;
  Ok (u, 1%Z).

Record main_result := mk_main_result {
  mr_usage : SpaceUsage.space_usage;
  mr_iterations : Z;
  mr_report : Report.report }.

(** Lines 542-585 *)
Definition main (sources : list csv_source) : pyres main_result :=
  let all_items := flat_map parse_csv_file sources in
  books <- select_books all_items ;;
  r <- iterative_balance books 10 ;;
  html <- Report.generate_html all_items r.1 ;;
  Ok (mk_main_result r.1 r.2 html).

(** Every recognized book row of a source has a title and a creator (a
    short CSV line leaves them [None]). *)
Definition complete_book_rows (src : csv_source) : Prop :=
  match src with
  | Unreadable => True
  | Rows rows _ =>
      Forall (fun row => recognized row = true -> SpaceUsage.item_is_book row = true ->
                         dict_get "title" row <> Some None /\
                         dict_get "creators" row <> Some None) rows
  end.

(** ** Lemmas *)

Lemma recognized_typed row : recognized row = true -> dict_get "item_type" row <> None.
Proof.
  unfold recognized, item_get, dict_get_or.
  destruct (dict_get "item_type" row) as [[t|]|]; done.
Qed.

Lemma parse_typed sources :
  Forall (fun it => dict_get "item_type" it <> None) (flat_map parse_csv_file sources).
Proof.
  apply Forall_forall. intros it Hin%list_elem_of_In.
  apply in_flat_map in Hin as [[|rows b] [_ Hin]]; simpl in Hin; [done|].
  apply filter_In in Hin as [_ Hr]. by apply recognized_typed.
Qed.

Lemma parse_complete sources :
  Forall complete_book_rows sources ->
  Forall (fun it => SpaceUsage.item_is_book it = true ->
                    dict_get "title" it <> Some None /\ dict_get "creators" it <> Some None)
         (flat_map parse_csv_file sources).
Proof.
  intros Hall. apply Forall_forall. intros it Hin%list_elem_of_In.
  apply in_flat_map in Hin as [src [Hsrc Hin]].
  rewrite Forall_forall in Hall. specialize (Hall src (proj2 (list_elem_of_In _ _) Hsrc)).
  destruct src as [|rows b]; simpl in Hin; [done|]. simpl in Hall.
  apply filter_In in Hin as [Hin Hr]. rewrite Forall_forall in Hall.
  intros Hb. apply Hall; [by apply list_elem_of_In | done | done].
Qed.

Lemma select_books_Ok items :
  Forall (fun it => dict_get "item_type" it <> None) items ->
  select_books items = Ok (List.filter SpaceUsage.item_is_book items).
Proof.
  induction items as [|it items IH]; intros Hall; simpl; [done|].
  apply Forall_cons in Hall as [Hty Hall]. unfold dict_index, SpaceUsage.item_is_book.
  destruct (dict_get "item_type" it) as [ty|]; [|done]. rewrite IH by done. simpl.
  f_equal. destruct (decide (ty = Some "book")) as [->|Hne].
  - by rewrite !bool_decide_true.
  - rewrite !bool_decide_false; [done | congruence | done].
Qed.

Lemma select_books_filter items bs :
  select_books items = Ok bs -> bs = List.filter SpaceUsage.item_is_book items.
Proof.
  revert bs. induction items as [|it items IH]; intros bs H; simpl in H.
  - by injection H as <-.
  - unfold dict_index, SpaceUsage.item_is_book in *.
    destruct (dict_get "item_type" it) as [ty|] eqn:E; [|discriminate].
    destruct (select_books items) as [bs1|]; [|discriminate]. injection H as <-.
    rewrite (IH bs1 eq_refl). simpl. rewrite E.
    destruct (decide (ty = Some "book")) as [->|Hne].
    + by rewrite !bool_decide_true.
    + rewrite !bool_decide_false; [done | congruence | done].
Qed.

(** The entries the balanced calculation shelves carry the title and
    creator of complete book rows. *)
Lemma balanced_entries_complete books u :
  Forall (fun it => SpaceUsage.item_is_book it = true ->
                    dict_get "title" it <> Some None /\ dict_get "creators" it <> Some None)
         books ->
  SpaceUsage.calculate_space_usage (Some Balanced.balanced_categorize_book) books = Ok u ->
  Report.entries_complete u.
Proof.
  intros Hc Hu. destruct SpaceUsage.SHELF_DIMENSIONS_wf as [Hnd _].
  destruct (SpaceUsage.calculation_entries _ _ _ _ Hnd Hu) as [ps [Hps Hent]].
  destruct (SpaceUsage.placements_items _ _ _ Hps) as [Hmap Hbe].
  intros sid sh rn rw e Hget Hrw Hin.
  destruct (proj1 (in_map_iff _ _ _) (Hent _ _ _ _ _ Hget Hrw Hin)) as [p [<- Hp]].
  rewrite Forall_forall in Hbe. rewrite (Hbe p) by by apply list_elem_of_In.
  assert (Hb : In (SpaceUsage.be_item p.2) (List.filter SpaceUsage.item_is_book books))
    by (rewrite <- Hmap; by apply (in_map (fun p => SpaceUsage.be_item p.2))).
  apply filter_In in Hb as [Hb Hbook]. rewrite Forall_forall in Hc.
  destruct (Hc _ (proj2 (list_elem_of_In _ _) Hb) Hbook) as [Ht Ha].
  unfold SpaceUsage.book_entry_of, item_get, dict_get_or. simpl.
  split; [destruct (dict_get "title" _) | destruct (dict_get "creators" _)]; congruence.
Qed.

(** Whatever the rows, the entries the balanced calculation shelves have
    a title: a [None] title makes the categorizer raise first. *)
Lemma balanced_entries_titled books u :
  SpaceUsage.calculate_space_usage (Some Balanced.balanced_categorize_book) books = Ok u ->
  Report.entries_titled u.
Proof.
  intros Hu. destruct SpaceUsage.SHELF_DIMENSIONS_wf as [Hnd _].
  destruct (SpaceUsage.calculation_entries _ _ _ _ Hnd Hu) as [ps [Hps Hent]].
  pose proof (SpaceUsage.placements_text_titles Balanced.balanced_combined books ps Hps) as Ht.
  intros sid sh rn rw e Hget Hrw Hin.
  destruct (proj1 (in_map_iff _ _ _) (Hent _ _ _ _ _ Hget Hrw Hin)) as [p [<- Hp]].
  rewrite Forall_forall in Ht. apply Ht, list_elem_of_In, Hp.
Qed.

(** The usage [main] returns is the calculation on the book rows read. *)
Lemma main_Ok_usage sources r :
  main sources = Ok r ->
  SpaceUsage.calculate_space_usage (Some Balanced.balanced_categorize_book)
    (List.filter SpaceUsage.item_is_book (flat_map parse_csv_file sources)) = Ok (mr_usage r).
Proof.
  unfold main. intros H.
  destruct (select_books _) as [books|] eqn:Eb; [|discriminate].
  apply select_books_filter in Eb. subst books. unfold iterative_balance in H.
  destruct (SpaceUsage.calculate_space_usage _ _) as [u|] eqn:Eu; [|discriminate].
  simpl in H. destruct (Report.generate_html _ u); [|discriminate]. by injection H as <-.
Qed.

(** [main]'s exceptions: only [AttributeError]. *)
Lemma main_raises_attribute (sources : list csv_source) (e : py_error) :
  main sources = Err e -> e = AttributeError.
Proof.
  unfold main. pose proof (parse_typed sources) as Hty.
  rewrite select_books_Ok by done.
  set (books := List.filter SpaceUsage.item_is_book (flat_map parse_csv_file sources)).
  unfold iterative_balance, SpaceUsage.calculate_space_usage.
  destruct SpaceUsage.SHELF_DIMENSIONS_wf as [Hnd Hcap].
  destruct (SpaceUsage.calculate_space_usage_in SHELF_DIMENSIONS
              (Some Balanced.balanced_categorize_book) books) as [u|e'] eqn:Hu; simpl.
  - destruct (Report.generate_html _ u) eqn:Hh; [discriminate|]. intros [= <-].
    exact (Report.generate_html_error _ u _ Hty (balanced_entries_titled books u Hu) Hh).
  - intros [= <-].
    apply (SpaceUsage.calculation_error SHELF_DIMENSIONS (Some Balanced.balanced_categorize_book)
             _ _ Balanced.balanced_categorize_book_valid Hnd Hcap) in Hu.
    apply (SpaceUsage.placements_text_error Balanced.balanced_combined books);
      [apply Forall_list_filter, Hty | exact Hu].
Qed.

Lemma item_get_not_none it k a : item_get it k (Some a) <> None -> dict_get k it <> Some None.
Proof. unfold item_get, dict_get_or. intros H E. rewrite E in H. by apply H. Qed.

(** A page is written only when every book row read has a title and a
    creator: a [None] title makes the categorizer raise, a [None]
    creator makes [html.escape] raise on the row that shelves it. *)
Lemma main_Ok_complete sources res :
  main sources = Ok res -> Forall complete_book_rows sources.
Proof.
  intros H. pose proof (main_Ok_usage _ _ H) as Hu.
  set (books := List.filter SpaceUsage.item_is_book (flat_map parse_csv_file sources)) in Hu.
  assert (Hg : exists r, Report.generate_html (flat_map parse_csv_file sources) (mr_usage res) = Ok r).
  { unfold main in H. rewrite select_books_Ok in H by apply parse_typed.
    unfold iterative_balance in H. fold books in H. rewrite Hu in H. cbv beta iota in H.
    destruct (Report.generate_html _ _) as [r|]; [eauto|discriminate]. }
  destruct Hg as [r Hg]. destruct SpaceUsage.SHELF_DIMENSIONS_wf as [Hnd _].
  destruct (SpaceUsage.calculation_refines _ _ _ _ Hnd Hu) as [ps [Hps (Hkeys & Hvalid & Hsh)]].
  destruct (SpaceUsage.placements_items _ _ _ Hps) as [Hmap Hent].
  pose proof (SpaceUsage.placements_text_titles Balanced.balanced_combined _ _ Hps) as Htit.
  apply Forall_forall. intros [|rows b] Hsrc; [exact I|]. cbn [complete_book_rows].
  apply Forall_forall. intros row Hrow%list_elem_of_In Hrec Hbook.
  assert (Hb : In row books).
  { apply filter_In. split; [|done]. apply in_flat_map. exists (Rows rows b).
    split; [by apply list_elem_of_In|]. by apply filter_In. }
  assert (Hb2 : In row (List.filter SpaceUsage.item_is_book books)) by (apply filter_In; split; done).
  rewrite <- Hmap in Hb2. clear Hb. rename Hb2 into Hb. apply in_map_iff in Hb as [[[sid rn] en] [Hrow' Hp]].
  cbn [fst snd] in Hrow'. subst row.
  rewrite List.Forall_forall in Hent, Htit, Hvalid.
  specialize (Hent _ Hp). specialize (Htit _ Hp). specialize (Hvalid _ Hp).
  cbn [fst snd] in Hent, Htit, Hvalid. rewrite Hent in Htit.
  split; [exact (item_get_not_none _ _ _ Htit)|].
  unfold valid_location in Hvalid. cbn [fst snd] in Hvalid.
  destruct (dict_get sid SHELF_DIMENSIONS) as [d|] eqn:Hd; [|discriminate].
  assert (Hk : In sid (dict_keys (mr_usage res))) by (rewrite Hkeys; exact (dict_get_Some_keys _ _ _ Hd)).
  destruct (dict_keys_get _ _ Hk) as [sh Hgsh].
  destruct (Hsh _ _ Hgsh) as (d' & Hd' & _ & Hrk & Hmatch & _). rewrite Hd in Hd'. injection Hd' as <-.
  assert (Hrn : In rn (dict_keys (SpaceUsage.su_rows sh))).
  { rewrite Hrk, In_row_range. apply andb_true_iff in Hvalid as [H1 H2].
    apply Z.leb_le in H1, H2. lia. }
  destruct (dict_keys_get _ _ Hrn) as [rw Hrw].
  destruct (Hmatch _ _ Hrw) as [Hitems _].
  assert (He : In en (SpaceUsage.ru_items rw)).
  { rewrite Hitems. unfold SpaceUsage.row_contents. apply (in_map_iff snd).
    exists ((sid, rn), en). split; [done|]. apply filter_In. split; [done|]. by apply bool_decide_eq_true_2. }
  assert (Hv : valid_location SHELF_DIMENSIONS (sid, rn) = true)
    by (unfold valid_location; cbn [fst snd]; rewrite Hd; exact Hvalid).
  destruct (Report.generate_html_lines _ _ _ _ _ _ _ _ Hg Hv Hgsh Hrw He) as [l Hl].
  apply Report.book_line_of_author in Hl. rewrite Hent in Hl. exact (item_get_not_none _ _ _ Hl).
Qed.

(** ** Properties *)

(** C1: end to end, the organiser raises no exception on any list of CSV
    exports whose book rows all have a title and a creator: unreadable
    and half-read files are skipped, and [calculate_space_usage] and
    [generate_html] both return. *)
Theorem main_total (sources : list csv_source) :
  Forall complete_book_rows sources -> exists res, main sources = Ok res.
Proof.
  intros Hall. unfold main.
  pose proof (parse_typed sources) as Hty.
  pose proof (parse_complete sources Hall) as Hc.
  rewrite select_books_Ok by done.
  set (books := List.filter SpaceUsage.item_is_book (flat_map parse_csv_file sources)).
  assert (Hbooks : Forall (fun it => SpaceUsage.item_is_book it = true ->
      dict_get "title" it <> Some None /\ dict_get "creators" it <> Some None) books)
    by (apply Forall_list_filter; exact Hc).
  assert (Hpl : Forall (fun it => dict_get "item_type" it <> None /\
                                  dict_get "title" it <> Some None) books).
  { apply Forall_forall. intros it Hin%list_elem_of_In. apply filter_In in Hin as [Hin Hb].
    rewrite Forall_forall in Hty, Hc. split; [apply Hty | apply Hc];
      try (by apply list_elem_of_In); done. }
  destruct (SpaceUsage.placements_text_categorizer Balanced.balanced_combined books Hpl)
    as [ps Hps].
  destruct SpaceUsage.SHELF_DIMENSIONS_wf as [Hnd Hcap].
  destruct (SpaceUsage.calculation_no_error SHELF_DIMENSIONS
              (Some Balanced.balanced_categorize_book) books ps
              Balanced.balanced_categorize_book_valid Hnd Hcap Hps) as [u Hu].
  unfold iterative_balance. unfold SpaceUsage.calculate_space_usage. rewrite Hu. simpl.
  destruct (Report.generate_html_ok (flat_map parse_csv_file sources) u Hty
              (balanced_entries_complete books u Hbooks Hu)) as [r ->].
  eauto.
Qed.

Lemma main_total_witness :
  Forall complete_book_rows
    [Rows [[("item_type", Some "book"); ("title", Some "Dune"); ("creators", Some "Herbert");
            ("length", Some "412")];
           [("item_type", Some "music"); ("title", None)]] true;
     Unreadable] /\
  exists res, main
    [Rows [[("item_type", Some "book"); ("title", Some "Dune"); ("creators", Some "Herbert");
            ("length", Some "412")];
           [("item_type", Some "music"); ("title", None)]] true;
     Unreadable] = Ok res.
Proof.
  assert (H : Forall complete_book_rows
    [Rows [[("item_type", Some "book"); ("title", Some "Dune"); ("creators", Some "Herbert");
            ("length", Some "412")];
           [("item_type", Some "music"); ("title", None)]] true;
     Unreadable]).
  { constructor; [| repeat constructor]. simpl.
    constructor; [|constructor; [|constructor]]; intros Hr Hb;
      [split; discriminate | discriminate Hb]. }
  split; [exact H | exact (main_total _ H)].
Defined.

(** C5: end to end, the widths [main] shelves add up to the estimated
    widths of all book rows of all the CSV exports it could read. *)
Theorem main_conserves_width (sources : list csv_source) (res : main_result) :
  main sources = Ok res ->
  sumZ (fun p => SpaceUsage.su_total_width p.2) (mr_usage res) =
  sumZ SpaceUsage.book_width (List.filter SpaceUsage.item_is_book (flat_map parse_csv_file sources)).
Proof.
  intros H%main_Ok_usage. destruct SpaceUsage.SHELF_DIMENSIONS_wf as [Hnd _].
  rewrite (SpaceUsage.calculation_conserves_width _ _ _ _ Hnd H).
  f_equal. apply list_filter_idem.
Qed.

Lemma main_conserves_width_witness :
  exists res,
    main [Rows [[("item_type", Some "book"); ("title", Some "Dune"); ("length", Some "412")]] false]
      = Ok res /\
    sumZ (fun p => SpaceUsage.su_total_width p.2) (mr_usage res) = 5%Z.
Proof.
  destruct (main [Rows [[("item_type", Some "book"); ("title", Some "Dune");
                         ("length", Some "412")]] false]) as [res|] eqn:E;
    [|vm_compute in E; discriminate E].
  exists res. split; [reflexivity|].
  rewrite (main_conserves_width _ _ E). vm_compute. reflexivity.
Defined.

(** C2: a single short book line crashes the organiser: when some
    export has a recognized book row whose [title] or [creators] is
    [None] (a CSV line shorter than the header, which [DictReader] fills
    with [None]), [main] raises [AttributeError] ([title.lower()] in the
    categorizer or [html.escape(None)] in the report), whatever the other
    exports hold, although the specification says absent text fields are
    treated as empty strings.  With [main_total] this is exact: [main]
    returns if and only if every book row has a title and a creator. *)
Theorem main_crashes_on_short_row (sources : list csv_source) :
  ~ Forall complete_book_rows sources -> main sources = Err AttributeError.
Proof.
  intros Hn. destruct (main sources) as [res|e] eqn:E.
  - exfalso. exact (Hn (main_Ok_complete _ _ E)).
  - f_equal. exact (main_raises_attribute _ _ E).
Qed.

(** The export read from the text [item_type,title,creators] and [book,Dune]. *)
Definition short_row_source : csv_source :=
  read_source (Some ("item_type,title,creators" +:+ String CsvReader.nl
                     ("book,Dune" +:+ String CsvReader.nl ""))).

Lemma main_crashes_on_short_row_witness :
  ~ Forall complete_book_rows [short_row_source] /\
  main [short_row_source] = Err AttributeError.
Proof.
  assert (Hn : ~ Forall complete_book_rows [short_row_source]).
  { intros H. apply Forall_inv in H. vm_compute in H. apply Forall_inv in H.
    destruct (H eq_refl eq_refl) as [_ Hc]. exact (Hc eq_refl). }
  split; [exact Hn | exact (main_crashes_on_short_row _ Hn)].
Defined.

(** A shelf is listed as over capacity exactly when the width of its
    books exceeds its capacity (in quarter inches, [total > 4 * capacity]),
    for every space usage whose utilizations are those the calculator
    computes on positive capacities. *)
Theorem over_capacity_spec (u : SpaceUsage.space_usage) :
  Forall (fun p => (0 < SpaceUsage.su_available_width p.2)%Z /\
                   SpaceUsage.su_utilization p.2 =
                   SpaceUsage.utilization (SpaceUsage.su_total_width p.2)
                                          (SpaceUsage.su_available_width p.2)) u ->
  map fst (over_capacity u) =
  map fst (List.filter (fun p => (4 * SpaceUsage.su_available_width p.2 <?
                                  SpaceUsage.su_total_width p.2)%Z) u).
Proof.
  intros Hall. unfold over_capacity. rewrite map_map. simpl. f_equal.
  induction Hall as [|[sid sh] u [Hav Hu] Hall IH]; simpl; [done|].
  simpl in Hav, Hu. rewrite Hu, IH.
  destruct (SpaceUsage.su_available_width sh) as [|p|p]; [lia | | lia].
  unfold SpaceUsage.utilization, Qle_bool. simpl. rewrite !Z.mul_1_r, Pos.mul_1_l.
  destruct (Z.leb_spec (25 * SpaceUsage.su_total_width sh) (100 * Z.pos p)),
    (Z.ltb_spec (4 * Z.pos p) (SpaceUsage.su_total_width sh)); simpl; try lia; done.
Qed.

Lemma over_capacity_spec_witness :
  Forall (fun p => (0 < SpaceUsage.su_available_width p.2)%Z /\
                   SpaceUsage.su_utilization p.2 =
                   SpaceUsage.utilization (SpaceUsage.su_total_width p.2)
                                          (SpaceUsage.su_available_width p.2))
    [("hallway", SpaceUsage.mk_shelf [] 160 32 (SpaceUsage.utilization 160 32))] /\
  map fst (over_capacity [("hallway", SpaceUsage.mk_shelf [] 160 32 (SpaceUsage.utilization 160 32))])
  = ["hallway"].
Proof.
  assert (H : Forall (fun p => (0 < SpaceUsage.su_available_width p.2)%Z /\
                   SpaceUsage.su_utilization p.2 =
                   SpaceUsage.utilization (SpaceUsage.su_total_width p.2)
                                          (SpaceUsage.su_available_width p.2))
    [("hallway", SpaceUsage.mk_shelf [] 160 32 (SpaceUsage.utilization 160 32))])
    by (repeat constructor; simpl; lia).
  split; [exact H|]. rewrite (over_capacity_spec _ H). reflexivity.
Defined.

(** C27: a malformed export still contributes the rows read before the
    error.  On the text [csv.writer] writes for a header and records,
    followed by an unquoted field longer than the 131072-character limit
    and anything after it, [csv.DictReader] yields one dict per non-empty
    record and then raises [csv.Error]; the [except] of line 163 keeps
    them, so [parse_csv_file] returns the recognized ones, where the
    specification says a malformed file produces zero records. *)
Theorem parse_csv_file_keeps_rows_of_failed_file header rows f rest :
  Forall CsvReader.row_ok (header :: rows) ->
  Forall (fun c => CsvReader.special c = false) f ->
  (CsvReader.field_limit < N.of_nat (length f))%N ->
  read_source (Some (CsvReader.write_rows (header :: rows) +:+ string_of_list_ascii f +:+ rest)) =
    Rows (map (CsvReader.dict_row header) (List.filter (fun r => negb (bool_decide (r = []))) rows)) true /\
  parse_csv_file (read_source (Some (CsvReader.write_rows (header :: rows) +:+ string_of_list_ascii f +:+ rest))) =
    List.filter recognized (map (CsvReader.dict_row header) (List.filter (fun r => negb (bool_decide (r = []))) rows)).
Proof.
  intros Hok Hf Hlen. unfold read_source, CsvReader.dict_rows.
  rewrite (CsvReader.read_records_field_limit _ _ _ Hok Hf Hlen). split; reflexivity.
Qed.

Definition long_field : list ascii := repeat "a"%char (S (N.to_nat CsvReader.field_limit)).

Lemma parse_csv_file_keeps_rows_of_failed_file_witness :
  Forall CsvReader.row_ok [["item_type"; "title"; "creators"; "length"]; ["book"; "Dune"; "Herbert"; "412"]] /\
  Forall (fun c => CsvReader.special c = false) long_field /\
  (CsvReader.field_limit < N.of_nat (length long_field))%N /\
  parse_csv_file (read_source (Some (CsvReader.write_rows
      [["item_type"; "title"; "creators"; "length"]; ["book"; "Dune"; "Herbert"; "412"]]
      +:+ string_of_list_ascii long_field +:+ ",x"))) =
    [CsvReader.dict_row ["item_type"; "title"; "creators"; "length"] ["book"; "Dune"; "Herbert"; "412"]].
Proof.
  assert (H1 : Forall CsvReader.row_ok [["item_type"; "title"; "creators"; "length"]; ["book"; "Dune"; "Herbert"; "412"]])
    by (apply (bool_decide_unpack _ (dec := @Forall_dec _ CsvReader.row_ok CsvReader.row_ok_dec _));
        vm_compute; exact I).
  assert (H2 : Forall (fun c => CsvReader.special c = false) long_field)
    by (apply List.Forall_forall; intros c Hc; apply repeat_spec in Hc; by subst).
  assert (H3 : (CsvReader.field_limit < N.of_nat (length long_field))%N)
    by (unfold long_field; rewrite repeat_length; vm_compute; reflexivity).
  split; [exact H1|]. split; [exact H2|]. split; [exact H3|].
  rewrite (proj2 (parse_csv_file_keeps_rows_of_failed_file _ _ _ ",x" H1 H2 H3)). reflexivity.
Defined.

(** C17: the CSV ingestor's contract on a well-formed export: on the text
    Python's [csv.writer] writes for a header and records (no field
    holding a CR or over the size limit), [parse_csv_file] reads one
    dict per non-empty record, zipping it with the header, raises
    nothing, and keeps the rows of a recognized kind. *)
Theorem read_source_written header rows :
  Forall CsvReader.row_ok (header :: rows) ->
  read_source (Some (CsvReader.write_rows (header :: rows))) =
    Rows (map (CsvReader.dict_row header) (List.filter (fun r => negb (bool_decide (r = []))) rows)) false /\
  parse_csv_file (read_source (Some (CsvReader.write_rows (header :: rows)))) =
    List.filter recognized (map (CsvReader.dict_row header) (List.filter (fun r => negb (bool_decide (r = []))) rows)).
Proof.
  intros Hok. unfold read_source, CsvReader.dict_rows. rewrite CsvReader.read_write_rows by done.
  split; reflexivity.
Qed.

Lemma read_source_written_witness :
  Forall CsvReader.row_ok [["item_type"; "title"; "creators"]; ["book"; "Dune"; "Frank Herbert"]; [];
                           ["music"; "Abbey Road"; "The Beatles"]; ["boardgame"; "Go"; ""]] /\
  parse_csv_file (read_source (Some (CsvReader.write_rows
    [["item_type"; "title"; "creators"]; ["book"; "Dune"; "Frank Herbert"]; [];
     ["music"; "Abbey Road"; "The Beatles"]; ["boardgame"; "Go"; ""]]))) =
  [[("item_type", Some "book"); ("title", Some "Dune"); ("creators", Some "Frank Herbert")];
   [("item_type", Some "music"); ("title", Some "Abbey Road"); ("creators", Some "The Beatles")]].
Proof.
  assert (H : Forall CsvReader.row_ok [["item_type"; "title"; "creators"]; ["book"; "Dune"; "Frank Herbert"]; [];
                           ["music"; "Abbey Road"; "The Beatles"]; ["boardgame"; "Go"; ""]])
    by (apply (bool_decide_unpack _ (dec := @Forall_dec _ CsvReader.row_ok CsvReader.row_ok_dec _));
        vm_compute; exact I).
  split; [exact H|]. rewrite (proj2 (read_source_written _ _ H)). vm_compute. reflexivity.
Defined.

(** C9: the only exception the organiser can raise is [AttributeError]
    (from [title.lower()] or [html.escape] on the [None] of a short CSV
    line): unreadable or half-read files are skipped, and no [KeyError],
    [ZeroDivisionError] or [TypeError] (from [sorted] comparing [None])
    can occur, on any input. *)
Theorem main_error_attribute (sources : list csv_source) (e : py_error) :
  main sources = Err e -> e = AttributeError.
Proof. exact (main_raises_attribute sources e). Qed.

Lemma main_error_attribute_witness :
  main [Rows [[("item_type", Some "book"); ("title", Some "Dune"); ("creators", None)]] false]
    = Err AttributeError /\ AttributeError = AttributeError.
Proof.
  assert (H : main [Rows [[("item_type", Some "book"); ("title", Some "Dune");
                           ("creators", None)]] false] = Err AttributeError)
    by (vm_compute; reflexivity).
  split; [exact H | exact (main_error_attribute _ _ H)].
Defined.

(** C11: order independence: the specification asks that the CSV exports
    be treated as unordered.  Two runs of [main] on the same exports in
    any other order report the same shelves, and for every shelf the same
    total width and utilization, and for every row the same width and
    the same books (in an order that may differ). *)
Theorem main_order_independent sources sources' r r' :
  Permutation sources sources' -> main sources = Ok r -> main sources' = Ok r' ->
  dict_keys (mr_usage r) = dict_keys (mr_usage r') /\
  forall sid sh sh', dict_get sid (mr_usage r) = Some sh -> dict_get sid (mr_usage r') = Some sh' ->
    SpaceUsage.su_total_width sh = SpaceUsage.su_total_width sh' /\
    SpaceUsage.su_utilization sh = SpaceUsage.su_utilization sh' /\
    forall rn rw rw', dict_get rn (SpaceUsage.su_rows sh) = Some rw ->
      dict_get rn (SpaceUsage.su_rows sh') = Some rw' ->
      Permutation (SpaceUsage.ru_items rw) (SpaceUsage.ru_items rw') /\
      SpaceUsage.ru_width rw = SpaceUsage.ru_width rw'.
Proof.
  intros Hp H%main_Ok_usage H'%main_Ok_usage. destruct SpaceUsage.SHELF_DIMENSIONS_wf as [Hnd _].
  refine (SpaceUsage.calculation_Permutation _ _ _ _ _ _ Hnd _ H H').
  apply Permutation_list_filter, Permutation_flat_map, Hp.
Qed.

Definition dune_herbert : csv_source :=
  Rows [[("item_type", Some "book"); ("title", Some "Dune"); ("creators", Some "Herbert");
         ("length", Some "412")]] false.

Definition dune_anderson : csv_source :=
  Rows [[("item_type", Some "book"); ("title", Some "Dune"); ("creators", Some "Anderson");
         ("length", Some "320")]] false.

Lemma main_order_independent_witness :
  exists r r', Permutation [dune_herbert; dune_anderson] [dune_anderson; dune_herbert] /\
    main [dune_herbert; dune_anderson] = Ok r /\ main [dune_anderson; dune_herbert] = Ok r' /\
    dict_keys (mr_usage r) = dict_keys (mr_usage r') /\
    forall sid sh sh', dict_get sid (mr_usage r) = Some sh -> dict_get sid (mr_usage r') = Some sh' ->
      SpaceUsage.su_total_width sh = SpaceUsage.su_total_width sh' /\
      SpaceUsage.su_utilization sh = SpaceUsage.su_utilization sh' /\
      forall rn rw rw', dict_get rn (SpaceUsage.su_rows sh) = Some rw ->
        dict_get rn (SpaceUsage.su_rows sh') = Some rw' ->
        Permutation (SpaceUsage.ru_items rw) (SpaceUsage.ru_items rw') /\
        SpaceUsage.ru_width rw = SpaceUsage.ru_width rw'.
Proof.
  destruct (main [dune_herbert; dune_anderson]) as [r|] eqn:E1; [|vm_compute in E1; discriminate E1].
  destruct (main [dune_anderson; dune_herbert]) as [r'|] eqn:E2; [|vm_compute in E2; discriminate E2].
  assert (Hp : Permutation [dune_herbert; dune_anderson] [dune_anderson; dune_herbert])
    by apply perm_swap.
  exists r, r'. split_and!; [exact Hp | reflexivity | reflexivity |..];
    apply (main_order_independent _ _ _ _ Hp E1 E2).
Defined.

(** The rendered guide does depend on the order of the exports: two
    books with the same title are listed in the order their files were
    read ([sorted] is stable), so swapping the two files changes the
    report, although the specification says the order of discovery must
    not matter. *)
Theorem report_depends_on_file_order :
  match main [dune_herbert; dune_anderson], main [dune_anderson; dune_herbert] with
  | Ok r1, Ok r2 => Report.rp_shelves (mr_report r1) <> Report.rp_shelves (mr_report r2)
  | _, _ => False
  end.
Proof. vm_compute. discriminate. Qed.

End Pipeline.
