(* ===== verification/Format.v ===== *)
(** * Fixed-point formatting of the report's numbers

    The banner of each shelf (src/generate_organization.py, lines
    458-460) prints the utilization with [:.1f] and a percent sign, then
    the used width with [:.1f] and the capacity, both followed by an
    inch mark; the table prints each book's width with [:.2f] (line
    513).  [format(x, '.pf')] prints the float [x] rounded to [p]
    decimals, correctly rounded from its exact binary value with ties to
    even.  This file models it on Rocq's primitive floats
    ([format_fixed]), proves that the width column prints every width up
    to 100 inches exactly ([width_text_exact]), and relates the printed
    percentage to the exact utilization.  The page's text, which uses
    these numbers, is modelled in Render.v. *)

From Stdlib Require Import ZArith QArith Qabs List String Ascii Floats Lia.
From stdpp Require Import base list strings.
From S2P Require Import Prelude Shelves Width PyStr PyInt SpaceUsage Report FloatBands Pipeline.

Open Scope string_scope.
Open Scope list_scope.
Import ListNotations.
Import Report SpaceUsage FloatBands Pipeline.

Module Format.

(** ** [format(x, '.pf')] *)

Fixpoint zeros (n : nat) : string :=
  match n with O => "" | S n' => String "0" (zeros n') end.

(** The digits of [0 <= n < 10^p], zero-padded on the left to [p]. *)
Definition pad_digits (p : nat) (n : Z) : string :=
  let s := py_str n in zeros (p - String.length s) +:+ s.

Definition sign_text (negative : bool) : string := if negative then "-" else "".

(** [m * 2^e * 10^p] rounded to an integer, ties to even: for [e < 0]
    the quotient and the remainder by [2^-e] are a shift and a mask. *)
Definition scaled_round (p : nat) (m e : Z) : Z :=
  let num := (m * 10 ^ Z.of_nat p)%Z in
  if (0 <=? e)%Z then Z.shiftl num e
  else
    let q := Z.shiftr num (- e) in
    let r := Z.land num (Z.ones (- e)) in
    let half := Z.shiftl 1 (- e - 1) in
    if (r <? half)%Z then q
    else if (half <? r)%Z then (q + 1)%Z
    else if Z.even q then q else (q + 1)%Z.

(** [n / 10^p] written with [p] decimals. *)
Definition fixed_digits (p : nat) (n : Z) : string :=
  let b := (10 ^ Z.of_nat p)%Z in
  py_str (n / b) +:+ (match p with O => "" | _ => "." +:+ pad_digits p (n mod b) end).

Definition format_fixed (p : nat) (x : float) : string :=
  match Prim2SF x with
  | S754_nan => "nan"
  | S754_infinity s => sign_text s +:+ "inf"
  | S754_zero s => sign_text s +:+ fixed_digits p 0
  | S754_finite s m e => sign_text s +:+ fixed_digits p (scaled_round p (Zpos m) e)
  end.

(** The number [format_fixed] prints, in units of [10^-p]. *)
Definition printed_units (p : nat) (x : float) : Z :=
  match Prim2SF x with
  | S754_finite _ m e => scaled_round p (Zpos m) e
  | _ => 0%Z
  end.

(** ** The report's numbers *)

(** [total_width] as a float: the exact sum of quarter inches. *)
Definition total_float (total : quarters) : float :=
  PrimFloat.div (float_of_Z total) (float_of_Z 4).

(** ** A bounded exhaustive check of the printed percentage *)

(** The totals checked: up to ten times the capacity. *)
Definition print_bound (available : Z) : Z := 40 * available.

Definition nonneg_float (x : float) : bool :=
  match Prim2SF x with
  | S754_zero false | S754_finite false _ _ => true
  | _ => false
  end.

(** The printed percentage [n / 10] is within [1/20] of the exact
    [25 * total / available], written over the integers. *)
Definition printed_close (available total : Z) : bool :=
  let u := py_utilization total available in
  nonneg_float u &&
  (Z.abs (2 * printed_units 1 u * available - 500 * total) <=? available)%Z.

Lemma printed_checked :
  forallb (fun p => let a := (sd_width p.2 * sd_rows p.2)%Z in
                    (0 <? a)%Z && check_from (printed_close a) 0 (Z.to_nat (print_bound a)))
          SHELF_DIMENSIONS = true.
Proof. vm_compute. reflexivity. Qed.

Lemma printed_close_shelf sid d total :
  dict_get sid SHELF_DIMENSIONS = Some d ->
  (0 <= total <= print_bound (sd_width d * sd_rows d))%Z ->
  (0 < sd_width d * sd_rows d)%Z /\ printed_close (sd_width d * sd_rows d) total = true.
Proof.
  intros Hd Ht. pose proof printed_checked as H. rewrite forallb_forall in H.
  specialize (H _ (dict_get_In _ _ _ Hd)). simpl in H. apply andb_true_iff in H as [Ha H].
  split; [lia|]. apply (check_from_spec _ _ _ _ H). unfold print_bound in *. lia.
Qed.

Lemma format_fixed_nonneg p x :
  nonneg_float x = true -> format_fixed p x = fixed_digits p (printed_units p x).
Proof.
  unfold nonneg_float, format_fixed, printed_units.
  destruct (Prim2SF x) as [[]|[]| |[] m e]; try discriminate; intros _; apply str_app_nil.
Qed.

Lemma close_Q n a t :
  (0 < a)%Z -> (Z.abs (2 * n * a - 500 * t) <= a)%Z ->
  (Qabs (inject_Z n / 10 - utilization t a) <= 1 # 20)%Q.
Proof.
  intros Ha Hc. destruct a as [|a|a]; [lia| |lia]. unfold utilization.
  apply Qabs_Qle_condition. unfold Qdiv, Qminus, Qplus, Qmult, Qinv, Qopp, Qle, inject_Z; simpl.
  split; lia.
Qed.

(** ** The width column *)

Definition width_exact (w : Z) : bool :=
  String.eqb (format_fixed 2 (total_float w)) (fixed_digits 2 (25 * w)).

Lemma width_checked : check_from width_exact 0 400 = true.
Proof. vm_compute. reflexivity. Qed.

(** Widths up to 100 inches print exactly: [w] quarters as [w / 4] with
    two decimals. *)
Lemma width_text_exact w :
  (0 <= w <= 400)%Z -> format_fixed 2 (total_float w) = fixed_digits 2 (25 * w).
Proof.
  intros Hw. apply String.eqb_eq. change (width_exact w = true).
  apply (check_from_spec _ 0 400); [exact width_checked|lia].
Qed.

(** The table prints every estimate exactly (0.50, 0.75, ..., 2.00). *)
Lemma book_width_text pages :
  format_fixed 2 (total_float (estimate_book_width pages)) =
  fixed_digits 2 (25 * estimate_book_width pages).
Proof. apply width_text_exact. pose proof (estimate_book_width_range pages). lia. Qed.

(** ** The banner's numbers *)

(** C16: the banner prints the exact utilization to its precision: for
    every shelf [calculate_space_usage] returns, whatever the categorizer,
    [format(utilization, '.1f')] prints a number [n / 10] with
    [|n / 10 - 25 * total / available| <= 1/20], for every total up to
    ten times the shelf's capacity. *)
Theorem calculate_space_usage_printed_percentage f items u sid sh :
  calculate_space_usage f items = Ok u -> dict_get sid u = Some sh ->
  (su_total_width sh <= print_bound (su_available_width sh))%Z ->
  format_fixed 1 (py_utilization (su_total_width sh) (su_available_width sh)) =
    fixed_digits 1 (printed_units 1 (py_utilization (su_total_width sh) (su_available_width sh))) /\
  (Qabs (inject_Z (printed_units 1 (py_utilization (su_total_width sh) (su_available_width sh))) / 10
         - su_utilization sh) <= 1 # 20)%Q.
Proof.
  intros Hu Hget Hb. destruct SHELF_DIMENSIONS_wf as [Hnd _].
  destruct (calculation_shelf _ _ _ _ _ _ Hnd Hu Hget) as (d & Hd & Hav & Hutil & Hpos).
  rewrite Hutil. rewrite Hav in *.
  destruct (printed_close_shelf sid d (su_total_width sh) Hd ltac:(lia)) as [Ha Hc].
  unfold printed_close in Hc. apply andb_true_iff in Hc as [Hn Hc]. apply Z.leb_le in Hc.
  split; [by apply format_fixed_nonneg|]. by apply close_Q.
Qed.

Lemma calculate_space_usage_printed_percentage_witness :
  exists u sh, calculate_space_usage None sample_items = Ok u /\
    dict_get "office_a" u = Some sh /\
    (su_total_width sh <= print_bound (su_available_width sh))%Z /\
    format_fixed 1 (py_utilization (su_total_width sh) (su_available_width sh)) =
      fixed_digits 1 (printed_units 1 (py_utilization (su_total_width sh) (su_available_width sh))) /\
    (Qabs (inject_Z (printed_units 1 (py_utilization (su_total_width sh) (su_available_width sh))) / 10
           - su_utilization sh) <= 1 # 20)%Q.
Proof.
  destruct (calculate_space_usage None sample_items) as [u|] eqn:E;
    [|vm_compute in E; discriminate E].
  destruct (dict_get "office_a" u) as [sh|] eqn:Eg;
    [|vm_compute in E; injection E as <-; discriminate Eg].
  assert (Hb : (su_total_width sh <= print_bound (su_available_width sh))%Z)
    by (vm_compute in E; injection E as <-; vm_compute in Eg; injection Eg as <-; vm_compute; discriminate).
  exists u, sh. split_and!; [reflexivity | exact Eg | exact Hb |..];
    apply (calculate_space_usage_printed_percentage None sample_items u "office_a" sh E Eg Hb).
Defined.

End Format.
