(* ===== verification/Render.v ===== *)
(** * The HTML text of the report

    [generate_html] (src/generate_organization.py, lines 392-540) builds
    its result by appending f-strings to [html_content]: the page head
    with the item counts and the date, one banner per shelf of
    [ORGANIZATION], and one section per shelf with a table per row.  This
    file models that text: the literal pieces of the template as
    constants ([t_head0], ..., [t_tail]), the loops as folds of the
    error monad over the accumulated string ([banner_step],
    [shelf_step], [row_step], [book_step]) and the whole function as
    [generate_html_text].  Strings are the UTF-8 bytes the file is
    written with ([open(output_file, 'w', encoding='utf-8')]); the
    template characters outside ASCII are copied from the source as
    they are, including its mis-encoded emoji.

    The float [space_usage[shelf_id]['utilization']] is the float of
    line 217 ([FloatBands.py_utilization]); the modification time of line
    432 is an input ([mtime]: [str] of the float the file system gives,
    or [None] when the script file does not exist).

    [render] writes the text of a structured report of Report.v, and
    [generate_html_text_refines] proves that the page is that text on
    every dictionary the calculator returns.  [generate_html_text_tags]
    counts the page's tag characters: only the template contributes
    them, one table line per listed book.  [main_page] is the page
    [main] computes (lines 542-576). *)

From Stdlib Require Import ZArith QArith List String Ascii Floats Lia.
From stdpp Require Import base list strings.
From S2P Require Import Prelude Shelves PyStr PyInt SpaceUsage Report FloatBands Pipeline Format.

Open Scope string_scope.
Open Scope list_scope.
Import ListNotations.
Import SpaceUsage Report FloatBands Pipeline Format.

Module Render.

(** ** The template *)

(** A template literal, written with a backquote for each double quote
    of the source (the template has no backquote). *)
Fixpoint tmpl (s : string) : string :=
  match s with
  | EmptyString => EmptyString
  | String c s' => String (if Ascii.eqb c "`" then dquote else c) (tmpl s')
  end.

Definition t_head0 : string := tmpl "
<!DOCTYPE html>
<html lang=`en`>
<head>
    <meta charset=`UTF-8`>
    <meta name=`viewport` content=`width=device-width, initial-scale=1.0`>
    <title>Library Organization Guide</title>
    <style>
        body { font-family: Arial, sans-serif; margin: 20px; background-color: #f5f5f5; }
        .container { max-width: 1200px; margin: 0 auto; background: white; padding: 20px; border-radius: 8px; }
        h1 { color: #2c3e50; text-align: center; border-bottom: 3px solid #3498db; padding-bottom: 10px; }
        h2 { color: #34495e; border-left: 4px solid #3498db; padding-left: 10px; }
        .summary { background: #ecf0f1; padding: 15px; border-radius: 5px; margin-bottom: 20px; }
        .shelf { margin-bottom: 30px; border: 1px solid #ddd; border-radius: 5px; overflow: hidden; }
        .shelf-header { background: #3498db; color: white; padding: 10px; font-weight: bold; }
        .row { border-bottom: 1px solid #eee; }
        .row-header { background: #ecf0f1; padding: 8px; font-weight: bold; display: flex; justify-content: space-between; }
        table { width: 100%; border-collapse: collapse; }
        th, td { padding: 8px; text-align: left; border-bottom: 1px solid #ddd; }
        th { background-color: #f8f9fa; }
        tr:nth-child(even) { background-color: #f8f9fa; }
        .width-estimate { color: #7f8c8d; font-size: 0.9em; }
        .space-info { background: #d5f4e6; padding: 5px; border-radius: 3px; margin-left: 10px; }
        .over-capacity { background: #f8d7da; }
        .near-capacity { background: #fff3cd; }
        .good-capacity { background: #d1ecf1; }
    </style>
</head>
<body>
    <div class=`container`>
        <h1>üìö Library Organization Guide</h1>
        
        <div class=`summary`>
            <h2>Collection Summary</h2>
            <p><strong>Total Books:</strong> ".

Definition t_head1 : string := tmpl "</p>
            <p><strong>Total Video Games:</strong> ".

Definition t_head2 : string := tmpl "</p>
            <p><strong>Total Music CDs:</strong> ".

Definition t_head3 : string := tmpl "</p>
            <p><strong>Organization Date:</strong> ".

Definition t_head4 : string := tmpl "</p>
        </div>

        <div class=`summary`>
            <h2>Space Utilization Overview</h2>
    ".

Definition t_banner0 : string := tmpl "
            <div class=`space-info ".

Definition t_banner1 : string := tmpl "`>
                <strong>".

Definition t_banner2 : string := tmpl ":</strong> 
                ".

Definition t_banner3 : string := tmpl "% utilization 
                (".

Definition t_banner4 : string := tmpl "` used of ".

Definition t_banner5 : string := tmpl "` available)
                <span style=`margin-left: 10px;`>".

Definition t_banner6 : string := tmpl "</span>
            </div>
        ".

Definition t_overview_end : string := tmpl "
        </div>
    ".

Definition t_shelf0 : string := tmpl "
        <div class=`shelf`>
            <div class=`shelf-header`>
                ".

Definition t_shelf1 : string := tmpl " (".

Definition t_shelf2 : string := tmpl "` √ó ".

Definition t_shelf3 : string := tmpl "` √ó ".

Definition t_shelf4 : string := tmpl " rows)
                - ".

Definition t_shelf5 : string := tmpl "% utilized
            </div>
        ".

Definition t_row0 : string := tmpl "
            <div class=`row`>
                <div class=`row-header`>
                    <span>Row ".

Definition t_row1 : string := tmpl ": ".

Definition t_row2 : string := tmpl "</span>
                    <span class=`width-estimate`>".

Definition t_row3 : string := tmpl "` estimated width (".

Definition t_row4 : string := tmpl " books)</span>
                </div>
                <table>
                    <thead>
                        <tr>
                            <th>Title</th>
                            <th>Author</th>
                            <th>Pages</th>
                            <th>Est. Width</th>
                        </tr>
                    </thead>
                    <tbody>
            ".

Definition t_book0 : string := tmpl "
                        <tr>
                            <td>".

Definition t_book1 : string := tmpl "</td>
                            <td>".

Definition t_book2 : string := tmpl "</td>
                            <td>".

Definition t_book3 : string := tmpl "</td>
                            <td class=`width-estimate`>".

Definition t_book4 : string := tmpl "`</td>
                        </tr>
                ".

Definition t_row_end : string := tmpl "
                    </tbody>
                </table>
            </div>
            ".

Definition t_shelf_end : string := tmpl "</div>".

Definition t_tail : string := tmpl "
        <div style=`margin-top: 30px; padding: 15px; background: #f8f9fa; border-radius: 5px;`>
            <h3>Notes:</h3>
            <ul>
                <li>Width estimates are based on page count: ~0.5` for <100 pages, ~1.0` for 200-300 pages, ~1.5` for 500-750 pages</li>
                <li>Actual widths may vary based on paper type, binding, and publisher</li>
                <li>Consider leaving 10-15% space on each shelf for easy access and future additions</li>
                <li>Video games and music CDs are not included in this organization (separate storage recommended)</li>
            </ul>
        </div>
    </div>
</body>
</html>
    ".

(** Lines 443-451: the status labels, byte for byte as in the source. *)
Definition status_text (st : capacity_status) : string :=
  match st with
  | OverCapacity => "‚ö†Ô∏è Over capacity"
  | NearCapacity => "‚ö° Near capacity"
  | GoodCapacity => "‚úÖ Good capacity"
  end.

(** ** The loops of [generate_html] *)

(** [for x in l: acc = f(acc, x)] in the error monad. *)
Fixpoint foldM {A B} (f : B -> A -> pyres B) (l : list A) (acc : B) : pyres B :=
  match l with
  | [] => Ok acc
  | x :: l' => acc' <- f acc x ;; foldM f l' acc'
  end.

(** [space_usage.get(shelf_id, {}).get('utilization', 0)] as a float. *)
Definition util_float (usage : option shelf_usage) : float :=
  match usage with
  | Some sh => py_utilization (su_total_width sh) (su_available_width sh)
  | None => float_of_Z 0
  end.

(** [usage.get('total_width', 0)] as a float. *)
Definition total_width_float (usage : option shelf_usage) : float :=
  match usage with Some sh => total_float (su_total_width sh) | None => float_of_Z 0 end.

(** Lines 440-462: the banner of one shelf appended. *)
Definition banner_step (u : space_usage) (html : string) (sid : string) : pyres string :=
  let usage := dict_get sid u in
  let utilization := util_float usage in
  let st := status_of_float utilization in
  dims <- dict_index sid SHELF_DIMENSIONS ;;
  Ok (html +:+ t_banner0 +:+ status_class st +:+ t_banner1 +:+ display_name sid +:+ t_banner2 +:+
      format_fixed 1 utilization +:+ t_banner3 +:+ format_fixed 1 (total_width_float usage) +:+
      t_banner4 +:+ py_str (sd_width dims * sd_rows dims) +:+ t_banner5 +:+ status_text st +:+
      t_banner6).

(** Lines 508-515: the table line of one book appended. *)
Definition book_step (html : string) (book : book_entry) : pyres string :=
  t <- escape_field (be_title book) ;;
  a <- escape_field (be_author book) ;;
  Ok (html +:+ t_book0 +:+ t +:+ t_book1 +:+ a +:+ t_book2 +:+ pages_text (be_pages book) +:+
      t_book3 +:+ format_fixed 2 (total_float (be_width book)) +:+ t_book4).

(** [usage.get('rows', {}).get(row_num, {})] *)
Definition row_usage_of (usage : option shelf_usage) (row_num : Z) : option row_usage :=
  match usage with Some sh => dict_get row_num (su_rows sh) | None => None end.

(** [row_usage.get('items', [])] *)
Definition books_of (usage : option shelf_usage) (row_num : Z) : list book_entry :=
  match row_usage_of usage row_num with Some r => ru_items r | None => [] end.

(** Lines 485-521: one row appended: its header, its books sorted by
    title, the end of its table. *)
Definition row_step (usage : option shelf_usage) (html : string) (row : Z * string) : pyres string :=
  let '(row_num, row_name) := row in
  let row_usage := row_usage_of usage row_num in
  let row_books := books_of usage row_num in
  let row_width := match row_usage with Some r => ru_width r | None => 0%Z end in
  let html := html +:+ t_row0 +:+ py_str row_num +:+ t_row1 +:+ row_name +:+ t_row2 +:+
              format_fixed 1 (total_float row_width) +:+ t_row3 +:+
              py_str (Z.of_nat (List.length row_books)) +:+ t_row4 in
  sorted <- sorted_row_books row_books ;;
  html <- foldM book_step sorted html ;;
  Ok (html +:+ t_row_end).

(** Lines 471-523: one shelf appended. *)
Definition shelf_step (u : space_usage) (html : string) (shelf : string * dict Z string)
    : pyres string :=
  let '(shelf_id, shelf_rows) := shelf in
  let shelf_name := display_name shelf_id in
  dims <- dict_index shelf_id SHELF_DIMENSIONS ;;
  let usage := dict_get shelf_id u in
  let html := html +:+ t_shelf0 +:+ shelf_name +:+ t_shelf1 +:+ py_str (sd_width dims) +:+
              t_shelf2 +:+ py_str (sd_depth dims) +:+ t_shelf3 +:+ py_str (sd_rows dims) +:+
              t_shelf4 +:+ format_fixed 1 (util_float usage) +:+ t_shelf5 in
  html <- foldM (row_step usage) shelf_rows html ;;
  Ok (html +:+ t_shelf_end).

(** Line 432: [str] of the modification time, or ['Unknown']. *)
Definition mtime_text (mtime : option string) : string :=
  match mtime with Some t => t | None => "Unknown" end.

(** [generate_html(all_items, space_usage)] (lines 392-540). *)
Definition generate_html_text (mtime : option string) (all_items : list item) (u : space_usage)
    : pyres string :=
  nb <- count_kind "book" all_items ;;
  nv <- count_kind "videogame" all_items ;;
  nm <- count_kind "music" all_items ;;
  let html := t_head0 +:+ py_str (Z.of_nat nb) +:+ t_head1 +:+ py_str (Z.of_nat nv) +:+ t_head2 +:+
              py_str (Z.of_nat nm) +:+ t_head3 +:+ mtime_text mtime +:+ t_head4 in
  html <- foldM (fun html '(shelf_id, _) => banner_step u html shelf_id) ORGANIZATION html ;;
  let html := html +:+ t_overview_end in
  _ <- select_books all_items ;;
  html <- foldM (shelf_step u) ORGANIZATION html ;;
  Ok (html +:+ t_tail).

(** ** The text of a structured report

    What [generate_html] appends, read off the structured [report] of
    Report.v: the specification of the text. *)

Definition cat (l : list string) : string := fold_right String.append "" l.

Definition render_banner (b : banner) : string :=
  t_banner0 +:+ status_class (bn_status b) +:+ t_banner1 +:+ display_name (bn_shelf b) +:+ t_banner2 +:+
  format_fixed 1 (py_utilization (bn_total_width b) (bn_available b)) +:+ t_banner3 +:+
  format_fixed 1 (total_float (bn_total_width b)) +:+ t_banner4 +:+ py_str (bn_available b) +:+
  t_banner5 +:+ status_text (bn_status b) +:+ t_banner6.

Definition render_line (l : book_line) : string :=
  t_book0 +:+ bl_title l +:+ t_book1 +:+ bl_author l +:+ t_book2 +:+ bl_pages l +:+ t_book3 +:+
  format_fixed 2 (total_float (bl_width l)) +:+ t_book4.

Definition render_row (r : row_section) : string :=
  t_row0 +:+ py_str (rs_row r) +:+ t_row1 +:+ rs_name r +:+ t_row2 +:+
  format_fixed 1 (total_float (rs_width r)) +:+ t_row3 +:+ py_str (Z.of_nat (rs_count r)) +:+
  t_row4 +:+ cat (map render_line (rs_lines r)) +:+ t_row_end.

Definition render_shelf (sh : shelf_section) : string :=
  t_shelf0 +:+ ss_name sh +:+ t_shelf1 +:+ py_str (sd_width (ss_dims sh)) +:+ t_shelf2 +:+
  py_str (sd_depth (ss_dims sh)) +:+ t_shelf3 +:+ py_str (sd_rows (ss_dims sh)) +:+ t_shelf4 +:+
  format_fixed 1 (py_utilization (ss_total_width sh) (sd_width (ss_dims sh) * sd_rows (ss_dims sh))) +:+
  t_shelf5 +:+ cat (map render_row (ss_rows sh)) +:+ t_shelf_end.

Definition render (mtime : option string) (r : report) : string :=
  t_head0 +:+ py_str (Z.of_nat (rp_books r)) +:+ t_head1 +:+ py_str (Z.of_nat (rp_videogames r)) +:+
  t_head2 +:+ py_str (Z.of_nat (rp_music r)) +:+ t_head3 +:+ mtime_text mtime +:+ t_head4 +:+
  cat (map render_banner (rp_banners r)) +:+ t_overview_end +:+
  cat (map render_shelf (rp_shelves r)) +:+ t_tail.

(** The dictionaries [calculate_space_usage] returns, with totals up to
    100 times the capacity: each shelf is configured, with its capacity,
    its exact utilization and a total in range. *)
Definition usage_ok (u : space_usage) : Prop :=
  forall sid sh, dict_get sid u = Some sh ->
  exists d, dict_get sid SHELF_DIMENSIONS = Some d /\
    su_available_width sh = (sd_width d * sd_rows d)%Z /\
    su_utilization sh = utilization (su_total_width sh) (su_available_width sh) /\
    (0 <= su_total_width sh <= bound (su_available_width sh))%Z.

(** The number of book lines of the page: the books of the rows of
    [ORGANIZATION] in the dictionary. *)
Definition listed_books (u : space_usage) : nat :=
  list_sum (map (fun (p : string * dict Z string) =>
                  list_sum (map (fun r => List.length (books_of (dict_get p.1 u) r.1)) p.2))
                ORGANIZATION).

(** The occurrences of a character. *)
Fixpoint count_char (c : ascii) (s : string) : nat :=
  match s with
  | EmptyString => 0
  | String x s' => (if Ascii.eqb x c then 1 else 0) + count_char c s'
  end.

Definition tag_char (c : ascii) : Prop := c = "<"%char \/ c = ">"%char.

(** ** Folds that append *)

Lemma str_app_nil_r s : s +:+ "" = s.
Proof. induction s; str_simpl; congruence. Qed.

Lemma cat_cons x l : cat (x :: l) = x +:+ cat l.
Proof. reflexivity. Qed.

(** A loop whose body appends [h y] for the value [y] of a fallible
    [g x] appends the text of [mapM g]. *)
Lemma foldM_append {A B} (f : string -> A -> pyres string) (g : A -> pyres B) (h : B -> string) l acc :
  (forall acc x, In x l -> f acc x = (y <- g x ;; Ok (acc +:+ h y))) ->
  foldM f l acc = (ys <- mapM g l ;; Ok (acc +:+ cat (map h ys))).
Proof.
  revert acc. induction l as [|x l IH]; intros acc Hf; simpl.
  - by rewrite str_app_nil_r.
  - rewrite Hf by (left; done). destruct (g x) as [y|e]; simpl; [|done].
    rewrite IH by (intros; apply Hf; by right). destruct (mapM g l) as [ys|e]; simpl; [|done].
    by rewrite str_app_assoc.
Qed.

(** ** Each loop appends the text of its part of the report *)

Lemma book_step_spec html e :
  book_step html e = (l <- book_line_of e ;; Ok (html +:+ render_line l)).
Proof.
  unfold book_step, book_line_of.
  destruct (escape_field (be_title e)); simpl; [|done].
  by destruct (escape_field (be_author e)).
Qed.

Lemma row_step_spec usage html rn name :
  row_step usage html (rn, name) = (r <- row_section_of usage rn name ;; Ok (html +:+ render_row r)).
Proof.
  unfold row_step, row_section_of.
  destruct (sorted_row_books _) as [sorted|e]; simpl; [|done].
  rewrite (foldM_append book_step book_line_of render_line) by (intros; apply book_step_spec).
  destruct (mapM book_line_of sorted); simpl; [|done].
  unfold render_row. cbn [rs_row rs_name rs_width rs_count rs_lines]. by rewrite <- !str_app_assoc.
Qed.

(** An absent shelf prints a utilization of 0.0 as its capacity would. *)
Lemma zero_usage_text sid d :
  dict_get sid SHELF_DIMENSIONS = Some d ->
  format_fixed 1 (py_utilization 0%Z (sd_width d * sd_rows d)) = format_fixed 1 (float_of_Z 0).
Proof.
  intros Hd. apply dict_get_In in Hd.
  assert (H : Forall (fun p => format_fixed 1 (py_utilization 0%Z (sd_width p.2 * sd_rows p.2)) =
                               format_fixed 1 (float_of_Z 0)) SHELF_DIMENSIONS)
    by (repeat constructor).
  rewrite List.Forall_forall in H. exact (H _ Hd).
Qed.

(** The float the code prints for a shelf is the one of its capacity. *)
Lemma util_float_spec u sid d :
  usage_ok u -> dict_get sid SHELF_DIMENSIONS = Some d ->
  format_fixed 1 (util_float (dict_get sid u)) =
  format_fixed 1 (py_utilization (match dict_get sid u with Some sh => su_total_width sh | None => 0%Z end)
                                 (sd_width d * sd_rows d)).
Proof.
  intros Hu Hd. destruct (dict_get sid u) as [sh|] eqn:Hg; cbn [util_float].
  - destruct (Hu _ _ Hg) as (d' & Hd' & Hav & _). rewrite Hd in Hd'. injection Hd' as <-. by rewrite Hav.
  - by rewrite (zero_usage_text sid d Hd).
Qed.

Lemma banner_step_spec u html sid :
  usage_ok u -> banner_step u html sid = (b <- banner_of u sid ;; Ok (html +:+ render_banner b)).
Proof.
  intros Hu. unfold banner_step, banner_of.
  destruct (dict_index sid SHELF_DIMENSIONS) as [d|e] eqn:Hd; simpl; [|done].
  apply dict_index_Ok in Hd. unfold render_banner. cbn [bn_status bn_shelf bn_total_width bn_available].
  rewrite (util_float_spec u sid d Hu Hd).
  destruct (dict_get sid u) as [sh|] eqn:Hg; cbn [total_width_float util_float].
  - destruct (Hu _ _ Hg) as (d' & Hd' & Hav & Hut & Hb). rewrite Hd in Hd'. injection Hd' as <-.
    rewrite Hav in Hb. rewrite Hav, Hut, Hav.
    pose proof (float_bands_agree sid d (su_total_width sh) Hd Hb) as Hba.
    unfold bands_agree in Hba. apply andb_true_iff in Hba as [Hs _].
    by rewrite (bool_decide_eq_true_1 _ Hs).
  - replace (status_of_float (float_of_Z 0)) with GoodCapacity by (vm_compute; reflexivity).
    replace (format_fixed 1 (total_float 0%Z)) with (format_fixed 1 (float_of_Z 0)) by (vm_compute; reflexivity).
    rewrite (zero_usage_text sid d Hd). reflexivity.
Qed.

Lemma shelf_step_spec u html sid rows :
  usage_ok u ->
  shelf_step u html (sid, rows) = (sh <- shelf_section_of u sid rows ;; Ok (html +:+ render_shelf sh)).
Proof.
  intros Hu. unfold shelf_step, shelf_section_of.
  destruct (dict_index sid SHELF_DIMENSIONS) as [d|e] eqn:Hd; simpl; [|done].
  apply dict_index_Ok in Hd.
  rewrite (foldM_append (row_step (dict_get sid u)) (fun '(rn, name) => row_section_of (dict_get sid u) rn name)
             render_row) by (intros ? [rn name] _; apply row_step_spec).
  destruct (mapM _ rows); simpl; [|done].
  unfold render_shelf. cbn [ss_name ss_dims ss_total_width ss_rows].
  rewrite (util_float_spec u sid d Hu Hd). by rewrite <- !str_app_assoc.
Qed.

Lemma count_kind_select_books k items n :
  count_kind k items = Ok n -> exists bs, select_books items = Ok bs.
Proof.
  revert n. induction items as [|it items IH]; intros n; simpl; [eauto|].
  destruct (dict_index "item_type" it) as [ty|]; simpl; [|discriminate].
  destruct (count_kind k items) as [m|] eqn:Hm; simpl; [|discriminate]. intros _.
  destruct (IH m eq_refl) as [bs ->]. simpl. eauto.
Qed.

(** ** The text refines the structured report *)

(** C19: the structured report is what the page shows: on a dictionary
    [calculate_space_usage] returns (totals up to 100 times the
    capacity), [generate_html] raises exactly when the structured
    [Report.generate_html] does, with the same exception, and otherwise
    returns the text [render] writes from the structured report. *)
Theorem generate_html_text_refines mtime all_items u :
  usage_ok u ->
  generate_html_text mtime all_items u =
  (r <- Report.generate_html all_items u ;; Ok (render mtime r)).
Proof.
  intros Hu. unfold generate_html_text, Report.generate_html.
  destruct (count_kind "book" all_items) as [nb|e] eqn:Hb; cbv beta iota; [|done].
  destruct (count_kind "videogame" all_items) as [nv|e]; cbv beta iota; [|done].
  destruct (count_kind "music" all_items) as [nm|e]; cbv beta iota; [|done].
  rewrite (foldM_append _ (fun '(sid, _) => banner_of u sid) render_banner)
    by (intros ? [sid rows] _; by apply banner_step_spec).
  destruct (mapM _ ORGANIZATION) as [banners|e]; cbv beta iota; [|done].
  destruct (count_kind_select_books _ _ _ Hb) as [bs ->]. cbv beta iota.
  rewrite (foldM_append _ (fun '(sid, rows) => shelf_section_of u sid rows) render_shelf)
    by (intros ? [sid rows] _; by apply shelf_step_spec).
  destruct (mapM _ ORGANIZATION) as [shelves|e]; cbv beta iota; [|done].
  unfold render. cbn [rp_books rp_videogames rp_music rp_banners rp_shelves].
  by rewrite <- !str_app_assoc.
Qed.

(** The calculator's dictionaries satisfy [usage_ok] when their totals
    are in range. *)
Lemma calculation_usage_ok f items u :
  calculate_space_usage f items = Ok u ->
  (forall sid sh, dict_get sid u = Some sh -> (su_total_width sh <= bound (su_available_width sh))%Z) ->
  usage_ok u.
Proof.
  intros Hc Hb sid sh Hg. destruct SHELF_DIMENSIONS_wf as [Hnd _].
  destruct (calculation_shelf _ _ _ _ _ _ Hnd Hc Hg) as (d & Hd & Hav & Hut & Hpos).
  exact (ex_intro _ d (conj Hd (conj Hav (conj Hut (conj Hpos (Hb sid sh Hg)))))).
Qed.

(** The bound, checked on a computed dictionary. *)
Lemma usage_bounded (u : space_usage) :
  forallb (fun p : string * shelf_usage => su_total_width p.2 <=? bound (su_available_width p.2))%Z u = true ->
  forall sid sh, dict_get sid u = Some sh -> (su_total_width sh <= bound (su_available_width sh))%Z.
Proof. intros H sid sh Hg%dict_get_In. rewrite forallb_forall in H. apply Z.leb_le, (H _ Hg). Qed.

Lemma generate_html_text_refines_witness :
  exists u, calculate_space_usage None sample_items = Ok u /\ usage_ok u /\
    generate_html_text (Some "1731110400.0") sample_items u =
    (r <- Report.generate_html sample_items u ;; Ok (render (Some "1731110400.0") r)).
Proof.
  destruct (calculate_space_usage None sample_items) as [u|] eqn:E; [|vm_compute in E; discriminate E].
  assert (Hok : usage_ok u)
    by (apply (calculation_usage_ok _ _ _ E), usage_bounded; vm_compute in E; injection E as <-; reflexivity).
  exists u. split; [reflexivity|]. split; [exact Hok|].
  exact (generate_html_text_refines (Some "1731110400.0") sample_items u Hok).
Defined.

(** ** No printed value holds a tag character *)

Section Tags.
Context (c : ascii) (Hc : tag_char c).

Lemma count_char_app a b : count_char c (a +:+ b) = count_char c a + count_char c b.
Proof. induction a as [|x a IH]; str_simpl; cbn [count_char]; [done|]. rewrite IH. lia. Qed.

Lemma count_closed (s : string) : count_char "<" s = 0 -> count_char ">" s = 0 -> count_char c s = 0.
Proof. by destruct Hc as [-> | ->]. Qed.

Lemma count_digit d : Ascii.eqb (digit_char (d mod 10)) c = false.
Proof.
  unfold digit_char. assert (Hd : (Z.to_nat (d mod 10) < 10)%nat) by (pose proof (Z.mod_pos_bound d 10); lia).
  remember (Z.to_nat (d mod 10)) as k eqn:Hk. clear Hk.
  do 10 (destruct k as [|k]; [destruct Hc as [-> | ->]; reflexivity|]). lia.
Qed.

Lemma count_digits_of f n tail : count_char c (digits_of f n tail) = count_char c tail.
Proof.
  revert n tail. induction f as [|f IH]; intros n tail; cbn [digits_of]; [done|].
  destruct (n <? 10)%Z; [|rewrite IH]; cbn [count_char]; by rewrite count_digit.
Qed.

Lemma count_py_str n : count_char c (py_str n) = 0.
Proof.
  unfold py_str. destruct (n <? 0)%Z; cbn [count_char]; rewrite count_digits_of;
    [destruct Hc as [-> | ->]|]; reflexivity.
Qed.

Lemma count_zeros n : count_char c (zeros n) = 0.
Proof. induction n as [|n IH]; cbn [zeros count_char]; [done|]. rewrite IH. by destruct Hc as [-> | ->]. Qed.

Lemma count_fixed_digits p n : count_char c (fixed_digits p n) = 0.
Proof.
  unfold fixed_digits, pad_digits. rewrite count_char_app, count_py_str.
  destruct p; [by apply count_closed|]. rewrite str_app_cons, str_app_nil. cbn [count_char].
  rewrite count_char_app, count_zeros, count_py_str. by destruct Hc as [-> | ->].
Qed.

Lemma count_format_fixed p x : count_char c (format_fixed p x) = 0.
Proof.
  unfold format_fixed.
  destruct (Prim2SF x) as [[]|[]| |[] m e];
    try (by apply count_closed); rewrite count_char_app, count_fixed_digits, Nat.add_0_r; by apply count_closed.
Qed.

Lemma count_escape s : count_char c (html_escape s) = 0.
Proof.
  rewrite html_escape_per_char. induction s as [|x s IH]; [done|]. cbn [escape_chars].
  rewrite count_char_app, IH, Nat.add_0_r. unfold escape_char.
  destruct (Ascii.eqb_spec x "&"); [by apply count_closed|].
  destruct (Ascii.eqb_spec x "<"); [by apply count_closed|].
  destruct (Ascii.eqb_spec x ">"); [by apply count_closed|].
  destruct (Ascii.eqb x dquote); [by apply count_closed|].
  destruct (Ascii.eqb x "'"); [by apply count_closed|].
  cbn [count_char]. destruct (Ascii.eqb_spec x c); [|done]. by destruct Hc; subst.
Qed.

Lemma count_escape_field x t : escape_field x = Ok t -> count_char c t = 0.
Proof. destruct x; cbn; [intros [= <-]; apply count_escape|discriminate]. Qed.

Lemma count_pages_text n : count_char c (pages_text n) = 0.
Proof. unfold pages_text. destruct (0 <? n)%Z; [apply count_py_str|by apply count_closed]. Qed.

Lemma count_status st : count_char c (status_class st) = 0 /\ count_char c (status_text st) = 0.
Proof. by destruct st; split; apply count_closed. Qed.

End Tags.

(** ** The tag characters of the page *)

Definition line_count (c : ascii) : nat :=
  count_char c t_book0 + count_char c t_book1 + count_char c t_book2 + count_char c t_book3 +
  count_char c t_book4.

Definition row_count (c : ascii) (name : string) : nat :=
  count_char c t_row0 + count_char c t_row1 + count_char c name + count_char c t_row2 +
  count_char c t_row3 + count_char c t_row4 + count_char c t_row_end.

Definition banner_count (c : ascii) (sid : string) : nat :=
  count_char c t_banner0 + count_char c t_banner1 + count_char c (display_name sid) +
  count_char c t_banner2 + count_char c t_banner3 + count_char c t_banner4 + count_char c t_banner5 +
  count_char c t_banner6.

Definition shelf_count (c : ascii) (sid : string) (rows : dict Z string) : nat :=
  count_char c t_shelf0 + count_char c (display_name sid) + count_char c t_shelf1 +
  count_char c t_shelf2 + count_char c t_shelf3 + count_char c t_shelf4 + count_char c t_shelf5 +
  list_sum (map (fun r => row_count c r.2) rows) + count_char c t_shelf_end.

(** The tag characters of the page apart from the date and the book lines. *)
Definition skeleton_count (c : ascii) : nat :=
  count_char c t_head0 + count_char c t_head1 + count_char c t_head2 + count_char c t_head3 +
  count_char c t_head4 + list_sum (map (fun p => banner_count c p.1) ORGANIZATION) +
  count_char c t_overview_end + list_sum (map (fun p => shelf_count c p.1 p.2) ORGANIZATION) +
  count_char c t_tail.

Lemma list_sum_split {A} (a b : A -> nat) k l :
  list_sum (map (fun x => a x + k * b x) l) = list_sum (map a l) + k * list_sum (map b l).
Proof. induction l as [|x l IH]; simpl; [lia|]. rewrite IH. lia. Qed.

Lemma list_sum_const {A} k (l : list A) : list_sum (map (fun _ => k) l) = k * List.length l.
Proof. induction l as [|x l IH]; simpl; [lia|]. rewrite IH. lia. Qed.

Lemma sorted_row_books_length l s : sorted_row_books l = Ok s -> List.length s = List.length l.
Proof.
  unfold sorted_row_books. case_match; [discriminate|]. intros [= <-].
  symmetry. apply Permutation_length, sort_by_title_permutation.
Qed.

Section TagCount.
Context (c : ascii) (Hc : tag_char c).

(** A loop whose every step adds [w x] occurrences. *)
Lemma foldM_count {A} (f : string -> A -> pyres string) (w : A -> nat) l acc res :
  (forall acc x acc', In x l -> f acc x = Ok acc' -> count_char c acc' = count_char c acc + w x) ->
  foldM f l acc = Ok res -> count_char c res = count_char c acc + list_sum (map w l).
Proof.
  revert acc. induction l as [|x l IH]; intros acc Hf; cbn [foldM map].
  - intros [= <-]. change (list_sum []) with 0. lia.
  - change (list_sum (w x :: map w l)) with (w x + list_sum (map w l)).
    destruct (f acc x) as [acc'|e] eqn:Hx; cbv beta iota; [|discriminate]. intros Hres.
    rewrite (IH acc') by (done || (intros; apply Hf; [by right|done])).
    rewrite (Hf acc x acc') by (done || by left). lia.
Qed.

Lemma book_step_count html e h :
  book_step html e = Ok h -> count_char c h = count_char c html + line_count c.
Proof.
  unfold book_step. destruct (escape_field (be_title e)) as [t|] eqn:Ht; cbv beta iota; [|discriminate].
  destruct (escape_field (be_author e)) as [a|] eqn:Ha; cbv beta iota; [|discriminate]. intros [= <-].
  rewrite !count_char_app, (count_escape_field c Hc _ _ Ht), (count_escape_field c Hc _ _ Ha),
    count_pages_text, count_format_fixed by done.
  unfold line_count. lia.
Qed.

Lemma row_step_count usage html r h :
  row_step usage html r = Ok h ->
  count_char c h = count_char c html + row_count c r.2 + line_count c * List.length (books_of usage r.1).
Proof.
  destruct r as [rn name]. unfold row_step.
  destruct (sorted_row_books _) as [sorted|e] eqn:Hs; cbv beta iota; [|discriminate].
  destruct (foldM book_step sorted _) as [h'|e] eqn:Hf; cbv beta iota; [|discriminate]. intros [= <-].
  apply (foldM_count _ (fun _ => line_count c)) in Hf; [|intros; by eapply book_step_count].
  rewrite list_sum_const, (sorted_row_books_length _ _ Hs) in Hf.
  rewrite count_char_app, Hf, !count_char_app, !count_py_str, count_format_fixed by done.
  unfold row_count. cbn [fst snd]. lia.
Qed.

Lemma shelf_step_count u html p h :
  shelf_step u html p = Ok h ->
  count_char c h = count_char c html + shelf_count c p.1 p.2 +
    line_count c * list_sum (map (fun r => List.length (books_of (dict_get p.1 u) r.1)) p.2).
Proof.
  destruct p as [sid rows]. unfold shelf_step.
  destruct (dict_index sid SHELF_DIMENSIONS) as [d|e]; cbv beta iota; [|discriminate].
  destruct (foldM (row_step _) rows _) as [h'|e] eqn:Hf; cbv beta iota; [|discriminate]. intros [= <-].
  apply (foldM_count _ (fun r => row_count c r.2 + line_count c * List.length (books_of (dict_get sid u) r.1)))
    in Hf; [|intros ? ? ? _ H; rewrite (row_step_count _ _ _ _ H); lia].
  rewrite list_sum_split in Hf.
  rewrite count_char_app, Hf, !count_char_app, !count_py_str, count_format_fixed by done.
  unfold shelf_count. cbn [fst snd]. lia.
Qed.

Lemma banner_step_count u html sid h :
  banner_step u html sid = Ok h -> count_char c h = count_char c html + banner_count c sid.
Proof.
  unfold banner_step. destruct (dict_index sid SHELF_DIMENSIONS) as [d|e]; cbv beta iota; [|discriminate].
  intros [= <-]. destruct (count_status c Hc (status_of_float (util_float (dict_get sid u)))) as [H1 H2].
  rewrite !count_char_app, H1, H2, !count_format_fixed, count_py_str by done.
  unfold banner_count. lia.
Qed.

(** The page's tag characters: those of the date, of the skeleton of
    the template, and of one table line per listed book. *)
Lemma generate_html_text_count mtime all_items u html :
  generate_html_text mtime all_items u = Ok html ->
  count_char c html = count_char c (mtime_text mtime) + skeleton_count c + line_count c * listed_books u.
Proof.
  unfold generate_html_text.
  destruct (count_kind "book" all_items) as [nb|e]; cbv beta iota; [|discriminate].
  destruct (count_kind "videogame" all_items) as [nv|e]; cbv beta iota; [|discriminate].
  destruct (count_kind "music" all_items) as [nm|e]; cbv beta iota; [|discriminate].
  destruct (foldM _ ORGANIZATION _) as [h1|e] eqn:Hb; cbv beta iota; [|discriminate].
  destruct (select_books all_items) as [bs|e]; cbv beta iota; [|discriminate].
  destruct (foldM (shelf_step u) ORGANIZATION _) as [h2|e] eqn:Hs; cbv beta iota; [|discriminate].
  intros [= <-].
  apply (foldM_count _ (fun p => banner_count c p.1)) in Hb; [|intros ? [sid rows] ? _; apply banner_step_count].
  apply (foldM_count _ (fun p => shelf_count c p.1 p.2 + line_count c *
           list_sum (map (fun r => List.length (books_of (dict_get p.1 u) r.1)) p.2))) in Hs;
    [|intros ? ? ? _ H; rewrite (shelf_step_count _ _ _ _ H); lia].
  rewrite list_sum_split in Hs.
  rewrite count_char_app, Hs, count_char_app, Hb, !count_char_app, !count_py_str by done.
  unfold skeleton_count, listed_books. lia.
Qed.

End TagCount.

(** C20: the page is well nested up to one bracket: whatever the export
    holds (titles and authors with markup included), a page
    [generate_html] returns has 500 [<] and 499 [>] besides those of the
    date and ten of each per table line of a book.  The single unmatched
    [<] is the raw [<100 pages] of the notes (line 529). *)
Theorem generate_html_text_tags mtime all_items u html :
  generate_html_text mtime all_items u = Ok html ->
  count_char "<"%char html = count_char "<"%char (mtime_text mtime) + 500 + 10 * listed_books u /\
  count_char ">"%char html = count_char ">"%char (mtime_text mtime) + 499 + 10 * listed_books u.
Proof.
  intros H.
  pose proof (generate_html_text_count "<"%char ltac:(by left) _ _ _ _ H) as Hl.
  pose proof (generate_html_text_count ">"%char ltac:(by right) _ _ _ _ H) as Hr.
  assert (H1 : skeleton_count "<"%char = 500) by (vm_compute; reflexivity).
  assert (H2 : skeleton_count ">"%char = 499) by (vm_compute; reflexivity).
  assert (H3 : line_count "<"%char = 10) by (vm_compute; reflexivity).
  assert (H4 : line_count ">"%char = 10) by (vm_compute; reflexivity).
  rewrite H1, H3 in Hl. rewrite H2, H4 in Hr. split; assumption.
Qed.

(** A title with markup and an author with an ampersand. *)
Definition markup_items : list item :=
  [[("item_type", Some "book"); ("title", Some "<b>Dune</b>"); ("creators", Some "Herbert & Son");
    ("length", Some "412")]].

Lemma generate_html_text_tags_witness :
  exists u html, calculate_space_usage None markup_items = Ok u /\
    generate_html_text None markup_items u = Ok html /\
    listed_books u = 1 /\
    count_char "<"%char html = count_char "<"%char (mtime_text None) + 500 + 10 * listed_books u /\
    count_char ">"%char html = count_char ">"%char (mtime_text None) + 499 + 10 * listed_books u.
Proof.
  destruct (calculate_space_usage None markup_items) as [u|] eqn:E; [|vm_compute in E; discriminate E].
  destruct (generate_html_text None markup_items u) as [html|e] eqn:Eh;
    [|vm_compute in E; injection E as <-; vm_compute in Eh; discriminate Eh].
  exists u, html. split_and!; [reflexivity|exact Eh|vm_compute in E; injection E as <-; reflexivity|..];
    apply (generate_html_text_tags None markup_items u html Eh).
Defined.

(** ** [main]'s page *)

(** Lines 542-573: [main] reads the exports, balances the books and
    renders the page of all items. *)
Definition main_page (mtime : option string) (sources : list csv_source) : pyres string :=
  let all_items := flat_map parse_csv_file sources in
  books <- select_books all_items ;;
  r <- iterative_balance books 10 ;;
  generate_html_text mtime all_items r.1.

End Render.
