(* ===== verification/Console.v ===== *)
(** * The console and the output file of [main]

    [main] (src/generate_organization.py, lines 542-585) and
    [iterative_balance] (lines 369-390) print their progress and the
    utilization of each shelf, [parse_csv_file] prints the exception
    that ends the reading of a file (line 164), and [main] writes the
    page to library_organization.html (lines 579-582).  This file models
    these effects as a state and error monad [io] over a [world]: the
    text written to standard output and the contents of the output file.
    Printed text is kept as the UTF-8 bytes of the source's literals
    (their emoji are mis-encoded in the source, as in Render.v); the page
    is written with [encoding='utf-8'], so the file holds the bytes of
    [generate_html_text].  The paths [Path.glob] yields are an input, in
    their order, and so is the message of an [OSError] raised by [open].

    [main_io_refines] shows that the effects of [main] on the file are
    exactly those of the page model [main_page]: it writes the page when
    the page is produced and leaves the file alone when an exception
    ends the script; [main_io_crash_transcript] says where its console
    stops on a crash; [console_good_page_over] compares the console's
    status of a shelf with the page's band. *)

From Stdlib Require Import ZArith QArith List String Ascii Floats Lia.
From stdpp Require Import base list strings.
From S2P Require Import Prelude Shelves PyStr PyInt SpaceUsage Balanced Report FloatBands Pipeline Format Render.
Import SpaceUsage Report FloatBands Pipeline Format Render.

Open Scope string_scope.
Open Scope list_scope.
Import ListNotations.

Module Console.

(** ** The world and the monad *)

(** Standard output so far, and the contents of
    library_organization.html ([None] while it does not exist). *)
Record world := mk_world { w_stdout : string; w_file : option string }.

(** A step of the script: the world after it, and its value or the
    exception it raises. *)
Definition io (A : Type) : Type := world -> world * pyres A.

#[export] Instance io_ret : MRet io := fun A x w => (w, Ok x).
#[export] Instance io_bind : MBind io := fun A B k m w =>
  let '(w', r) := m w in
  match r with Ok x => k x w' | Err e => (w', Err e) end.

(** A computation of [pyres] run in the world: it raises or returns. *)
Definition lift {A} (r : pyres A) : io A := fun w => (w, r).

Definition newline_char : ascii := ascii_of_nat 10.
Definition newline : string := String newline_char "".

(** [print(s)]: the text and a line feed. *)
Definition print (s : string) : io unit :=
  fun w => (mk_world (w_stdout w +:+ s +:+ newline) (w_file w), Ok tt).

(** [with open(output_file, 'w', encoding='utf-8') as f: f.write(s)] *)
Definition write_file (s : string) : io unit :=
  fun w => (mk_world (w_stdout w) (Some s), Ok tt).

Fixpoint forM_ {A} (f : A -> io unit) (l : list A) : io unit :=
  match l with
  | [] => mret tt
  | x :: l' => _ ← f x; forM_ f l'
  end.

Fixpoint foldM_io {A B} (f : B -> A -> io B) (l : list A) (acc : B) : io B :=
  match l with
  | [] => mret acc
  | x :: l' => acc' ← f acc x; foldM_io f l' acc'
  end.

(** ** The script *)

Section Script.

(** [str(e)] of the [OSError] [open] raises on a path. *)
Variable open_error : string -> string.

(** [str(e)] of the exception that ends the reading of a file:
    [open] fails, or the reader raises [csv.Error], which in text mode
    it does only on a field over the size limit (CsvReader.v). *)
Definition read_error (path : string) (src : csv_source) : option string :=
  match src with
  | Unreadable => Some (open_error path)
  | Rows _ true => Some "field larger than field limit (131072)"
  | Rows _ false => None
  end.

(** Lines 150-166 with the print of line 164. *)
Definition parse_csv_file_io (path : string) (src : csv_source) : io (list item) :=
  _ ← match read_error path src with
      | Some e => print ("Error reading " +:+ path +:+ ": " +:+ e)
      | None => mret tt
      end;
  mret (parse_csv_file src).

(** [data['utilization']] *)
Definition shelf_util (sh : shelf_usage) : float := util_float (Some sh).

(** Lines 369-390 with their prints. *)
Definition iterative_balance_io (items : list item) (max_iterations : Z) : io (space_usage * Z) :=
  _ ← print "üîÑ Using balanced categorization approach...";
  space_usage ← lift (calculate_space_usage (Some Balanced.balanced_categorize_book) items);
  _ ← print "üìä Utilization with balanced approach:";
  _ ← forM_ (fun p : string * shelf_usage =>
               print ("   " +:+ p.1 +:+ ": " +:+ format_fixed 1 (shelf_util p.2) +:+ "% utilization"))
            space_usage;
  let over_capacity := List.filter (fun p : string * shelf_usage => over_float (shelf_util p.2)) space_usage in
  _ ← match over_capacity with
      | [] => print "‚úÖ All shelves within capacity!"
      | _ :: _ =>
          _ ← print ("‚ö†Ô∏è  " +:+ py_str (Z.of_nat (List.length over_capacity)) +:+ " shelves still over capacity");
          print "üí° Consider: 1) Getting additional shelving, 2) Digital copies, 3) Storage rotation"
      end;
  mret (space_usage, 1%Z).

(** Line 572: the console's status of a shelf. *)
Definition console_good : string := "‚úÖ Good".
Definition console_over : string := "‚ö†Ô∏è Over".

Definition console_status (util : float) : string :=
  if PrimFloat.leb util (float_of_Z 100) then console_good else console_over.

Definition output_file : string := "library_organization.html".

(** One file of the loop of lines 552-557. *)
Definition process_file (all_items : list item) (file : string * csv_source) : io (list item) :=
  let '(path, src) := file in
  _ ← print ("üìñ Processing " +:+ path +:+ "...");
  items ← parse_csv_file_io path src;
  _ ← print ("   Found " +:+ py_str (Z.of_nat (List.length items)) +:+ " items");
  mret (all_items ++ items).

(** Lines 544-559: the exports read, in the order of [glob]. *)
Definition main_read (csv_files : list (string * csv_source)) : io (list item) :=
  _ ← print "üîç Processing library CSV files...";
  _ ← print ("Found " +:+ py_str (Z.of_nat (List.length csv_files)) +:+ " CSV files");
  all_items ← foldM_io process_file csv_files [];
  _ ← print ("üìä Total items: " +:+ py_str (Z.of_nat (List.length all_items)));
  mret all_items.

(** Lines 561-573: the books selected and balanced, and the final
    utilization of each shelf printed. *)
Definition main_balance (all_items : list item) : io (space_usage * Z) :=
  books ← lift (select_books all_items);
  _ ← print ("üìö Books to organize: " +:+ py_str (Z.of_nat (List.length books)));
  _ ← print "‚öñÔ∏è  Performing iterative capacity balancing...";
  r ← iterative_balance_io books 10;
  let '(space_usage, iterations) := r in
  _ ← print (newline +:+ "üéØ Final utilization after " +:+ py_str iterations +:+ " iterations:");
  _ ← forM_ (fun p : string * shelf_usage =>
               let util := shelf_util p.2 in
               print ("   " +:+ p.1 +:+ ": " +:+ format_fixed 1 util +:+ "% utilization " +:+
                      console_status util))
            space_usage;
  mret r.

(** Lines 575-585: the page generated and written. *)
Definition main_write (mtime : option string) (all_items : list item) (space_usage : space_usage)
    : io unit :=
  _ ← print (newline +:+ "üåê Generating HTML...");
  html_content ← lift (generate_html_text mtime all_items space_usage);
  _ ← write_file html_content;
  _ ← print ("‚úÖ Generated " +:+ output_file);
  print ("üöÄ Open " +:+ output_file +:+ " in your browser to view the organization guide").

(** Lines 542-585: [main] on the paths [glob] yields with the contents of
    their files, and the modification time of the script. *)
Definition main_io (mtime : option string) (csv_files : list (string * csv_source)) : io unit :=
  all_items ← main_read csv_files;
  r ← main_balance all_items;
  main_write mtime all_items r.1.

End Script.

(** ** What a computation does to the world

    [behaves m r f]: run in any world, [m] appends some text to the
    standard output, changes the output file by [f], and returns or
    raises as [r]. *)
Definition behaves {A} (m : io A) (r : pyres A) (f : option string -> option string) : Prop :=
  forall w, exists out, m w = (mk_world (w_stdout w +:+ out) (f (w_file w)), r).

Lemma behaves_ret {A} (x : A) : behaves (mret x) (Ok x) id.
Proof. intros [o f]. exists "". by rewrite str_app_nil_r. Qed.

Lemma behaves_print s : behaves (print s) (Ok tt) id.
Proof. intros w. by exists (s +:+ newline). Qed.

Lemma behaves_lift {A} (r : pyres A) : behaves (lift r) r id.
Proof. intros [o f]. exists "". by rewrite str_app_nil_r. Qed.

Lemma behaves_write s : behaves (write_file s) (Ok tt) (fun _ => Some s).
Proof. intros w. exists "". by rewrite str_app_nil_r. Qed.

Lemma behaves_bind {A B} (m : io A) (k : A -> io B) x r f g :
  behaves m (Ok x) f -> behaves (k x) r g -> behaves (m ≫= k) r (fun o => g (f o)).
Proof.
  intros Hm Hk w. destruct (Hm w) as [o1 E1]. unfold mbind, io_bind. rewrite E1.
  destruct (Hk (mk_world (w_stdout w +:+ o1) (f (w_file w)))) as [o2 E2]. rewrite E2.
  exists (o1 +:+ o2). cbn. by rewrite str_app_assoc.
Qed.

Lemma behaves_bind_err {A B} (m : io A) (k : A -> io B) e f :
  behaves m (Err e) f -> behaves (m ≫= k) (Err e) f.
Proof. intros Hm w. destruct (Hm w) as [o E]. exists o. unfold mbind, io_bind. by rewrite E. Qed.

Lemma behaves_forM_ {A} (f : A -> io unit) l :
  (forall x, behaves (f x) (Ok tt) id) -> behaves (forM_ f l) (Ok tt) id.
Proof.
  intros Hf. induction l as [|x l IH]; [apply behaves_ret|].
  exact (behaves_bind _ _ _ _ _ _ (Hf x) IH).
Qed.

Lemma behaves_foldM_io {A B} (f : B -> A -> io B) (g : B -> A -> B) l acc :
  (forall acc x, behaves (f acc x) (Ok (g acc x)) id) ->
  behaves (foldM_io f l acc) (Ok (fold_left g l acc)) id.
Proof.
  intros Hf. revert acc. induction l as [|x l IH]; intros acc; [apply behaves_ret|].
  exact (behaves_bind _ _ _ _ _ _ (Hf acc x) (IH _)).
Qed.

Lemma behaves_bind_id {A B} (m : io A) (k : A -> io B) x r g :
  behaves m (Ok x) id -> behaves (k x) r g -> behaves (m ≫= k) r g.
Proof. exact (behaves_bind m k x r id g). Qed.

Lemma behaves_print_then {B} s (k : unit -> io B) r g :
  behaves (k tt) r g -> behaves (print s ≫= k) r g.
Proof. apply behaves_bind_id, behaves_print. Qed.

Lemma fold_left_app_flat_map {A B} (g : A -> list B) l acc :
  fold_left (fun acc x => acc ++ g x) l acc = acc ++ flat_map g l.
Proof.
  revert acc. induction l as [|x l IH]; intros acc; simpl; [by rewrite app_nil_r|].
  by rewrite IH, app_assoc.
Qed.

(** [behaves_ending m r f last]: as [behaves], and the text [m]
    appends ends with [last]. *)
Definition behaves_ending {A} (m : io A) (r : pyres A) (f : option string -> option string)
    (last : string) : Prop :=
  forall w, exists out, m w = (mk_world (w_stdout w +:+ (out +:+ last)) (f (w_file w)), r).

Lemma ending_print s : behaves_ending (print s) (Ok tt) id (s +:+ newline).
Proof. intros w. exists "". reflexivity. Qed.

Lemma ending_bind_id {A B} (m : io A) (k : A -> io B) x r g last :
  behaves m (Ok x) id -> behaves_ending (k x) r g last -> behaves_ending (m ≫= k) r g last.
Proof.
  intros Hm Hk w. destruct (Hm w) as [o1 E1]. unfold mbind, io_bind. rewrite E1.
  destruct (Hk (mk_world (w_stdout w +:+ o1) (id (w_file w)))) as [o2 E2]. rewrite E2.
  exists (o1 +:+ o2). cbn. by rewrite !str_app_assoc.
Qed.

Lemma ending_bind_err {A B} (m : io A) (k : A -> io B) e f last :
  behaves_ending m (Err e) f last -> behaves_ending (m ≫= k) (Err e) f last.
Proof. intros Hm w. destruct (Hm w) as [o E]. exists o. unfold mbind, io_bind. by rewrite E. Qed.

(** A print followed by a raise: the text ends with the printed line. *)
Lemma ending_print_raise {B} s e (k : unit -> io B) :
  (forall w, k tt w = (w, Err e)) -> behaves_ending (print s ≫= k) (Err e) id (s +:+ newline).
Proof. intros Hk w. exists "". unfold mbind, io_bind, print. by rewrite Hk. Qed.

(** ** Each phase prints, and computes what the pure model does *)

Section Phases.
Variable open_error : string -> string.

Lemma parse_csv_file_io_behaves path src :
  behaves (parse_csv_file_io open_error path src) (Ok (parse_csv_file src)) id.
Proof.
  unfold parse_csv_file_io. destruct (read_error open_error path src).
  - apply behaves_print_then, behaves_ret.
  - eapply behaves_bind_id; apply behaves_ret.
Qed.

Lemma process_file_behaves acc file :
  behaves (process_file open_error acc file) (Ok (acc ++ parse_csv_file file.2)) id.
Proof.
  destruct file as [path src]. unfold process_file. apply behaves_print_then.
  eapply behaves_bind_id; [apply parse_csv_file_io_behaves|].
  apply behaves_print_then, behaves_ret.
Qed.

Lemma main_read_behaves csv_files :
  behaves (main_read open_error csv_files) (Ok (flat_map parse_csv_file (map snd csv_files))) id.
Proof.
  unfold main_read. do 2 apply behaves_print_then.
  eapply behaves_bind_id; [apply (behaves_foldM_io _ (fun acc f => acc ++ parse_csv_file f.2)),
                           process_file_behaves|].
  rewrite fold_left_app_flat_map. cbn [app].
  replace (flat_map parse_csv_file (map snd csv_files)) with (flat_map (fun f => parse_csv_file f.2) csv_files)
    by (clear; induction csv_files; simpl; congruence).
  apply behaves_print_then, behaves_ret.
Qed.

Lemma iterative_balance_io_behaves items n :
  behaves (iterative_balance_io items n) (iterative_balance items n) id.
Proof.
  unfold iterative_balance_io, iterative_balance. apply behaves_print_then.
  destruct (calculate_space_usage _ items) as [u|e]; cbv beta iota;
    [|apply behaves_bind_err, behaves_lift].
  eapply behaves_bind_id; [apply behaves_lift|]. apply behaves_print_then.
  eapply behaves_bind_id; [apply behaves_forM_; intros; apply behaves_print|].
  destruct (List.filter _ u).
  - apply behaves_print_then, behaves_ret.
  - eapply behaves_bind_id; [apply behaves_print_then, behaves_print|]. apply behaves_ret.
Qed.

Lemma main_balance_behaves all_items :
  behaves (main_balance all_items) (books <- select_books all_items ;; iterative_balance books 10) id.
Proof.
  unfold main_balance. destruct (select_books all_items) as [books|e]; cbv beta iota;
    [|apply behaves_bind_err, behaves_lift].
  eapply behaves_bind_id; [apply behaves_lift|]. do 2 apply behaves_print_then.
  pose proof (iterative_balance_io_behaves books 10) as Hi.
  destruct (iterative_balance books 10) as [[u n]|e]; [|by apply behaves_bind_err].
  apply (behaves_bind_id _ _ _ _ _ Hi).
  apply behaves_print_then.
  eapply behaves_bind_id; [apply behaves_forM_; intros; apply behaves_print|]. apply behaves_ret.
Qed.

Lemma main_write_behaves mtime all_items u :
  behaves (main_write mtime all_items u)
    (html <- generate_html_text mtime all_items u ;; Ok tt)
    (match generate_html_text mtime all_items u with Ok html => fun _ => Some html | Err _ => id end).
Proof.
  unfold main_write. apply behaves_print_then.
  destruct (generate_html_text mtime all_items u) as [html|e]; cbv beta iota;
    [|apply behaves_bind_err, behaves_lift].
  eapply behaves_bind_id; [apply behaves_lift|].
  refine (behaves_bind _ _ _ _ _ id (behaves_write html) _).
  apply behaves_print_then, behaves_print.
Qed.

(** The calculator raises right after the first line of [iterative_balance]. *)
Lemma iterative_balance_io_err items n e :
  calculate_space_usage (Some Balanced.balanced_categorize_book) items = Err e ->
  behaves_ending (iterative_balance_io items n) (Err e) id ("üîÑ Using balanced categorization approach..." +:+ newline).
Proof.
  intros Hc. unfold iterative_balance_io. apply ending_print_raise.
  intros w. unfold mbind, io_bind, lift. by rewrite Hc.
Qed.

Lemma main_balance_err all_items books e :
  select_books all_items = Ok books ->
  calculate_space_usage (Some Balanced.balanced_categorize_book) books = Err e ->
  behaves_ending (main_balance all_items) (Err e) id ("üîÑ Using balanced categorization approach..." +:+ newline).
Proof.
  intros Hs Hc. unfold main_balance. rewrite Hs.
  apply (ending_bind_id _ _ books); [apply behaves_lift|].
  do 2 (apply (ending_bind_id _ _ tt); [apply behaves_print|]).
  by apply ending_bind_err, iterative_balance_io_err.
Qed.

(** [generate_html] raises right after the line announcing it. *)
Lemma main_write_err mtime all_items u e :
  generate_html_text mtime all_items u = Err e ->
  behaves_ending (main_write mtime all_items u) (Err e) id (newline +:+ "üåê Generating HTML..." +:+ newline).
Proof.
  intros Hg. unfold main_write. rewrite str_app_assoc. apply ending_print_raise.
  intros w. unfold mbind, io_bind, lift. by rewrite Hg.
Qed.

End Phases.

(** ** [main]'s effects *)

(** C21: [main] writes the page and nothing else: whatever the exports,
    the paths and the world, it only appends to standard output, and it
    writes to library_organization.html exactly the page [main_page]
    computes and returns normally, or raises the exception [main_page]
    raises and leaves the file as it was. *)
Theorem main_io_refines open_error mtime csv_files w :
  exists out, main_io open_error mtime csv_files w =
    match main_page mtime (map snd csv_files) with
    | Ok html => (mk_world (w_stdout w +:+ out) (Some html), Ok tt)
    | Err e => (mk_world (w_stdout w +:+ out) (w_file w), Err e)
    end.
Proof.
  cut (behaves (main_io open_error mtime csv_files)
         (match main_page mtime (map snd csv_files) with Ok _ => Ok tt | Err e => Err e end)
         (match main_page mtime (map snd csv_files) with Ok html => fun _ => Some html | Err _ => id end)).
  { intros H. destruct (H w) as [out E]. exists out. rewrite E. by destruct (main_page _ _). }
  unfold main_io, main_page. cbv zeta.
  eapply behaves_bind_id; [apply main_read_behaves|].
  pose proof (main_balance_behaves (flat_map parse_csv_file (map snd csv_files))) as Hb.
  destruct (select_books _) as [books|e]; cbv beta iota in *; [|by apply behaves_bind_err].
  destruct (iterative_balance books 10) as [r|e]; [|by apply behaves_bind_err].
  apply (behaves_bind_id _ _ _ _ _ Hb).
  pose proof (main_write_behaves mtime (flat_map parse_csv_file (map snd csv_files)) r.1) as Hw.
  by destruct (generate_html_text _ _ _).
Qed.

(** C22: when [main] crashes, its console stops at the phase that raised
    and the page is not written: the output file is untouched and the
    printed text ends with the line that opens the balancing (the
    calculator raised) or with the line announcing the HTML (the
    renderer raised); no line claims the page was generated. *)
Theorem main_io_crash_transcript open_error mtime csv_files w w' e :
  main_io open_error mtime csv_files w = (w', Err e) ->
  w_file w' = w_file w /\
  exists out, w_stdout w' = w_stdout w +:+ (out +:+ ("üîÑ Using balanced categorization approach..." +:+ newline)) \/
              w_stdout w' = w_stdout w +:+ (out +:+ (newline +:+ "üåê Generating HTML..." +:+ newline)).
Proof.
  set (all_items := flat_map parse_csv_file (map snd csv_files)).
  assert (Hs : select_books all_items = Ok (List.filter item_is_book all_items))
    by apply select_books_Ok, parse_typed.
  assert (Hp : main_page mtime (map snd csv_files) =
               (u <- calculate_space_usage (Some Balanced.balanced_categorize_book)
                       (List.filter item_is_book all_items) ;;
                generate_html_text mtime all_items u)).
  { unfold main_page, iterative_balance. cbv zeta. fold all_items. rewrite Hs. cbv beta iota.
    by destruct (calculate_space_usage _ _). }
  pose proof (main_balance_behaves all_items) as Hb. rewrite Hs in Hb.
  unfold iterative_balance in Hb. intros Hrun.
  destruct (main_io_refines open_error mtime csv_files w) as [out0 E0]. rewrite Hrun in E0.
  rewrite Hp in E0.
  destruct (calculate_space_usage (Some Balanced.balanced_categorize_book) (List.filter item_is_book all_items))
    as [u|e'] eqn:Hc; cbv beta iota in E0, Hb.
  - destruct (generate_html_text mtime all_items u) as [html|e'] eqn:Hg; [discriminate E0|].
    injection E0 as _ <-.
    assert (H : behaves_ending (main_io open_error mtime csv_files) (Err e) id
                  (newline +:+ "üåê Generating HTML..." +:+ newline)).
    { eapply ending_bind_id; [apply main_read_behaves|].
      eapply ending_bind_id; [exact Hb|]. by apply main_write_err. }
    destruct (H w) as [out E]. rewrite Hrun in E. injection E as Ew. subst w'.
    split; [done|]. exists out. by right.
  - injection E0 as _ <-.
    assert (H : behaves_ending (main_io open_error mtime csv_files) (Err e) id ("üîÑ Using balanced categorization approach..." +:+ newline)).
    { eapply ending_bind_id; [apply main_read_behaves|]. by eapply ending_bind_err, main_balance_err. }
    destruct (H w) as [out E]. rewrite Hrun in E. injection E as Ew. subst w'.
    split; [done|]. exists out. by left.
Qed.

(** An export whose book line lacks the creators field. *)
Definition short_row_export : csv_source :=
  read_source (Some ("item_type,title,creators" +:+ String newline_char ("book,Dune" +:+ String newline_char ""))).

Lemma main_io_crash_transcript_witness :
  exists w' out,
    main_io (fun _ => "") None [("library_books.csv", short_row_export)] (mk_world "" None) =
      (w', Err AttributeError) /\
    w_file w' = None /\
    (w_stdout w' = "" +:+ (out +:+ ("üîÑ Using balanced categorization approach..." +:+ newline)) \/
     w_stdout w' = "" +:+ (out +:+ (newline +:+ "üåê Generating HTML..." +:+ newline))).
Proof.
  destruct (main_io _ _ _ _) as [w' r] eqn:E.
  assert (Hr : r = Err AttributeError) by (vm_compute in E; congruence). subst r.
  destruct (main_io_crash_transcript _ _ _ _ _ _ E) as [Hf [out Ho]].
  exists w', out. split; [reflexivity|]. split; [exact Hf|exact Ho].
Defined.

(** ** A shelf the page calls over capacity and the console calls good *)

(** A book row of the export. *)
Definition dune (pages : string) : item :=
  [("item_type", Some "book"); ("title", Some "Dune"); ("creators", Some "Frank Herbert");
   ("length", Some pages)].

(** 57 books of more than 750 pages and one of 400: 115.25 inches, all
    on [office_b] (the balanced categorizer's default). *)
Definition office_b_export : list item := repeat (dune "800") 57 ++ [dune "400"].

(** The console's comparison, checked on every total up to ten times
    the capacity of each configured shelf. *)
Definition console_agree (available total : Z) : bool :=
  Bool.eqb (PrimFloat.leb (py_utilization total available) (float_of_Z 100))
           (Qle_bool (utilization total available) 100).

Lemma console_checked :
  forallb (fun p => let a := (sd_width p.2 * sd_rows p.2)%Z in
                    check_from (console_agree a) 0 (Z.to_nat (print_bound a))) SHELF_DIMENSIONS = true.
Proof. vm_compute. reflexivity. Qed.

Lemma console_agree_shelf sid d total :
  dict_get sid SHELF_DIMENSIONS = Some d ->
  (0 <= total <= print_bound (sd_width d * sd_rows d))%Z ->
  console_agree (sd_width d * sd_rows d) total = true.
Proof.
  intros Hd Ht. pose proof console_checked as H. rewrite forallb_forall in H.
  specialize (H _ (dict_get_In _ _ _ Hd)). simpl in H.
  apply (check_from_spec _ _ _ _ H). unfold print_bound in *. lia.
Qed.

Lemma shelf_capacity_pos sid d : dict_get sid SHELF_DIMENSIONS = Some d -> (0 < sd_width d * sd_rows d)%Z.
Proof.
  intros Hd%dict_get_In.
  assert (H : Forall (fun p => (0 < sd_width p.2 * sd_rows p.2)%Z) SHELF_DIMENSIONS)
    by (repeat constructor; vm_compute; reflexivity).
  rewrite List.Forall_forall in H. exact (H _ Hd).
Qed.

Lemma utilization_le_100 total avail :
  (0 < avail)%Z -> Qle_bool (utilization total avail) 100 = (total <=? 4 * avail)%Z.
Proof.
  intros Hav. destruct avail as [|p|p]; [lia | | lia].
  unfold utilization, Qle_bool. simpl. rewrite !Z.mul_1_r, Pos.mul_1_l.
  destruct (Z.leb_spec (25 * total) (100 * Z.pos p)), (Z.leb_spec total (4 * Z.pos p)); lia.
Qed.

(** C28: the console and the page disagree on full shelves.  For every
    shelf [calculate_space_usage] returns, whatever the categorizer, and
    every total up to ten times its capacity, [main]'s console marks the
    shelf good exactly when its books fit ([util <= 100], line 572), and
    it marks it good while the page's banner says over capacity
    ([utilization > 90], line 443) exactly when the used width is above
    90% and at most 100% of the capacity. *)
Theorem console_good_page_over f items u sid sh :
  calculate_space_usage f items = Ok u -> dict_get sid u = Some sh ->
  (su_total_width sh <= print_bound (su_available_width sh))%Z ->
  (console_status (shelf_util sh) = console_good <->
     (su_total_width sh <= 4 * su_available_width sh)%Z) /\
  (status_of_float (shelf_util sh) = OverCapacity /\ console_status (shelf_util sh) = console_good <->
     (18 * su_available_width sh < 5 * su_total_width sh <= 20 * su_available_width sh)%Z).
Proof.
  intros Hu Hget Hb. destruct SHELF_DIMENSIONS_wf as [Hnd _].
  destruct (calculation_shelf _ _ _ _ _ _ Hnd Hu Hget) as (d & Hd & Hav & Hutil & Hpos).
  pose proof (shelf_capacity_pos _ _ Hd) as Hcap. unfold shelf_util, util_float.
  rewrite Hav in *.
  pose proof (console_agree_shelf sid d (su_total_width sh) Hd ltac:(unfold print_bound in *; lia)) as Hc. unfold console_agree in Hc.
  apply Bool.eqb_prop in Hc. rewrite utilization_le_100 in Hc by lia.
  pose proof (float_bands_agree sid d (su_total_width sh) Hd ltac:(unfold bound, print_bound in *; lia)) as Hf.
  unfold bands_agree in Hf. apply andb_true_iff in Hf as [Hf _]. apply bool_decide_eq_true_1 in Hf.
  rewrite Report.status_of_utilization in Hf by lia.
  assert (Hne : console_good <> console_over) by (vm_compute; discriminate).
  unfold console_status. rewrite Hc, Hf.
  destruct (Z.leb_spec (su_total_width sh) (4 * (sd_width d * sd_rows d))),
    (Z.ltb_spec (18 * (sd_width d * sd_rows d)) (5 * su_total_width sh)),
    (Z.ltb_spec (3 * (sd_width d * sd_rows d)) (su_total_width sh));
    repeat split; intros; destruct_and?; try congruence; lia.
Qed.

Lemma console_good_page_over_witness :
  exists u sh,
    calculate_space_usage (Some Balanced.balanced_categorize_book) office_b_export = Ok u /\
    dict_get "office_b" u = Some sh /\
    (su_total_width sh <= print_bound (su_available_width sh))%Z /\
    (18 * su_available_width sh < 5 * su_total_width sh <= 20 * su_available_width sh)%Z /\
    status_of_float (shelf_util sh) = OverCapacity /\ console_status (shelf_util sh) = console_good.
Proof.
  destruct (calculate_space_usage _ office_b_export) as [u|] eqn:E; [|vm_compute in E; discriminate E].
  destruct (dict_get "office_b" u) as [sh|] eqn:Eg;
    [|vm_compute in E; injection E as <-; discriminate Eg].
  assert (Hsh : su_total_width sh = 461%Z /\ su_available_width sh = 128%Z)
    by (vm_compute in E; injection E as <-; vm_compute in Eg; injection Eg as <-; split; reflexivity).
  destruct Hsh as [Ht Ha].
  assert (Hb : (su_total_width sh <= print_bound (su_available_width sh))%Z)
    by (rewrite Ht, Ha; vm_compute; discriminate).
  assert (Hr : (18 * su_available_width sh < 5 * su_total_width sh <= 20 * su_available_width sh)%Z)
    by (rewrite Ht, Ha; lia).
  exists u, sh. refine (conj eq_refl (conj Eg (conj Hb (conj Hr _)))).
  exact (proj2 (proj2 (console_good_page_over _ _ _ _ _ E Eg Hb)) Hr).
Defined.

End Console.
