(* ===== verification/Screenshot.v ===== *)
(** * The screenshot script [selenium-screenshot.py]

    [capture_screenshot(url, output_path, wait_seconds, description)]
    (src/frontend/scripts/selenium-screenshot.py, lines 15-62) opens a
    headless Chrome session, loads the page, polls [document.readyState]
    with [WebDriverWait(driver, 10)], sleeps [wait_seconds], saves the
    screenshot, and in a [finally] quits the driver whenever one was
    created.  [main] (lines 64-75) parses the arguments and turns the
    result into the exit code.

    The browser is an oracle [browser]: what each call does (return or
    raise), what each readiness poll observes, and whether writing the
    file succeeds.  [WebDriverWait.until] polls every 0.5 s and gives up
    after 10 s: [ready_polls] = 20 polls.  [time.sleep] raises on a
    negative wait, on a wait of [sleep_limit] seconds or more, and when
    the deadline passes the end of the clock ([br_sleep_ok]);
    [driver.quit()] is taken to return.

    The session is a state machine: [step] is the transition relation of
    the code, with one rule per outcome of each call; [capture_run] is
    the executable run on an oracle.  Theorems: every final state reached
    from the start has quit the browser (no leaked process, by rule
    induction), the run is a path of [step] ending in a final state
    (refinement), every run terminates within 26 transitions and ends in a
    returned state (liveness, from the rank [phase_rank] and progress),
    the readiness wait is bounded, and the run reports success although
    the file could not be written.

    [capture_run_io] and [screenshot_main_io] are the same functions with
    the text they print; the text of an exception raised by the browser
    is an oracle ([error_text]).  [capture_run_io_run] and
    [screenshot_main_io_exit] show that the prints change neither the
    run nor the exit code.  The Chrome options (lines 24-29) only
    configure the browser the oracle stands for. *)

From Stdlib Require Import ZArith List String Ascii Bool Lia.
From stdpp Require Import base list strings relations.
From S2P Require Import Prelude PyInt.

Open Scope string_scope.
Open Scope list_scope.
Import ListNotations.

Module Screenshot.

(** ** The browser oracle *)

(** What [driver.save_screenshot] does: write the file, fail to write it
    ([OSError] inside [get_screenshot_as_file], which returns [False]),
    or raise. *)
Inductive save_outcome := SaveWritten | SaveWriteFailed | SaveRaises.

Record browser := mk_browser {
  br_create_ok : bool;              (** [webdriver.Chrome(...)] returns *)
  br_get_ok : bool;                 (** [driver.get(url)] returns *)
  br_polls : list (option bool);    (** each poll: [Some (readyState == 'complete')], or [None] when it raises *)
  br_sleep_ok : bool;               (** the clock can hold the deadline of [time.sleep] (see [sleep_returns]) *)
  br_save : save_outcome }.

(** [time.sleep(w)] (line 48) converts [w] seconds to CPython's 64-bit
    count of nanoseconds, raising [OverflowError] from [sleep_limit]
    seconds on, and raises [ValueError] on a negative [w].  It then waits
    until the monotonic clock reaches its current time plus [w], raising
    [OSError] when that deadline passes the end of the clock (from about
    [sleep_limit] seconds minus the machine's uptime): the oracle
    [br_sleep_ok] says whether the system can hold the deadline. *)
Definition sleep_limit : Z := 9223372037.

Definition sleep_returns (b : browser) (w : Z) : bool :=
  (0 <=? w)%Z && (w <? sleep_limit)%Z && br_sleep_ok b.

(** [str(e)] of the exception [time.sleep(w)] raises (CPython 3.11). *)
Definition sleep_error (w : Z) : string :=
  if (w <? 0)%Z then "sleep length must be non-negative"
  else if (sleep_limit <=? w)%Z then "timestamp too large to convert to C _PyTime_t"
  else "[Errno 22] Invalid argument".

(** [WebDriverWait(driver, 10)] with the default poll frequency of 0.5 s. *)
Definition ready_polls : nat := 20.

(** ** The session state *)

Inductive phase :=
  | PStart
  | PCreated
  | PLoading (polls_done : nat)
  | PReady
  | PRendered
  | PCaptured
  | PFailed
  | PReturned (ok : bool).

Inductive event := EvCreate | EvGet | EvPoll | EvSleep | EvSave | EvQuit.

Record session := mk_session {
  ss_phase : phase;
  ss_driver : bool;     (** [driver] is not [None] *)
  ss_live : bool;       (** the browser process runs *)
  ss_file : bool;       (** the image was written *)
  ss_trace : list event }.

Definition start : session := mk_session PStart false false false [].

Definition goto (s : session) (p : phase) (ev : list event) : session :=
  mk_session p (ss_driver s) (ss_live s) (ss_file s) (ss_trace s ++ ev).

(** The [finally] clause: [if driver: driver.quit()]. *)
Definition finish (s : session) (ok : bool) : session :=
  mk_session (PReturned ok) (ss_driver s) false (ss_file s)
             (ss_trace s ++ if ss_driver s then [EvQuit] else []).

(** ** The transition relation (lines 31-62) *)

Section Step.
Variable wait_seconds : Z.

Inductive step : session -> session -> Prop :=
| step_create_ok s : ss_phase s = PStart ->
    step s (mk_session PCreated true true (ss_file s) (ss_trace s ++ [EvCreate]))
| step_create_raise s : ss_phase s = PStart ->
    step s (goto s PFailed [EvCreate])
| step_get_ok s : ss_phase s = PCreated -> step s (goto s (PLoading 0) [EvGet])
| step_get_raise s : ss_phase s = PCreated -> step s (goto s PFailed [EvGet])
| step_poll_complete s n : ss_phase s = PLoading n -> step s (goto s PReady [EvPoll])
| step_poll_loading s n : ss_phase s = PLoading n -> (S n < ready_polls)%nat ->
    step s (goto s (PLoading (S n)) [EvPoll])
(** Ten seconds have passed: with slow polls this comes before the
    20th poll, and there is never a 21st. *)
| step_poll_timeout s n : ss_phase s = PLoading n -> step s (goto s PFailed [EvPoll])
| step_poll_raise s n : ss_phase s = PLoading n -> step s (goto s PFailed [EvPoll])
(** [time.sleep] returns only on a wait in range; it may raise on any wait
    (always outside the range, and on a deadline past the clock's end). *)
| step_sleep s : ss_phase s = PReady -> (0 <= wait_seconds < sleep_limit)%Z ->
    step s (goto s PRendered [EvSleep])
| step_sleep_raise s : ss_phase s = PReady -> step s (goto s PFailed [EvSleep])
| step_save_written s : ss_phase s = PRendered ->
    step s (mk_session PCaptured (ss_driver s) (ss_live s) true (ss_trace s ++ [EvSave]))
| step_save_write_failed s : ss_phase s = PRendered -> step s (goto s PCaptured [EvSave])
| step_save_raise s : ss_phase s = PRendered -> step s (goto s PFailed [EvSave])
| step_return_true s : ss_phase s = PCaptured -> step s (finish s true)
| step_return_false s : ss_phase s = PFailed -> step s (finish s false).

Definition reachable (s : session) : Prop := rtc step start s.
End Step.

Definition is_final (s : session) : bool :=
  match ss_phase s with PReturned _ => true | _ => false end.

(** ** The executable run *)

Inductive wait_outcome := WaitReady | WaitTimeout | WaitRaised.

Definition wait_phase (o : wait_outcome) : phase :=
  match o with WaitReady => PReady | _ => PFailed end.

(** [WebDriverWait(driver, 10).until(...)]: at most [fuel] polls; a poll
    the oracle does not describe sees a page still loading. *)
Fixpoint wait_ready (fuel : nat) (polls : list (option bool)) : wait_outcome * nat :=
  match fuel with
  | O => (WaitTimeout, O)
  | S f =>
      match polls with
      | Some true :: _ => (WaitReady, 1%nat)
      | None :: _ => (WaitRaised, 1%nat)
      | Some false :: rest => let '(o, k) := wait_ready f rest in (o, S k)
      | [] => let '(o, k) := wait_ready f [] in (o, S k)
      end
  end.

(** Lines 31-62 on an oracle: the result and the final session. *)
Definition capture_run (b : browser) (wait_seconds : Z) : bool * session :=
  let s0 := start in
  if negb (br_create_ok b) then (false, finish (goto s0 PFailed [EvCreate]) false) else
  let s1 := mk_session PCreated true true false [EvCreate] in
  if negb (br_get_ok b) then (false, finish (goto s1 PFailed [EvGet]) false) else
  let s2 := goto s1 (PLoading 0) [EvGet] in
  let '(o, k) := wait_ready ready_polls (br_polls b) in
  let s3 := goto s2 (wait_phase o) (repeat EvPoll k) in
  match o with
  | WaitReady =>
      if negb (sleep_returns b wait_seconds) then (false, finish (goto s3 PFailed [EvSleep]) false) else
      let s4 := goto s3 PRendered [EvSleep] in
      match br_save b with
      | SaveWritten =>
          (true, finish (mk_session PCaptured (ss_driver s4) (ss_live s4) true
                                    (ss_trace s4 ++ [EvSave])) true)
      | SaveWriteFailed => (true, finish (goto s4 PCaptured [EvSave]) true)
      | SaveRaises => (false, finish (goto s4 PFailed [EvSave]) false)
      end
  | _ => (false, finish s3 false)
  end.

(** [capture_screenshot(...)] returns the boolean of the run. *)
Definition capture_screenshot (b : browser) (wait_seconds : Z) : bool :=
  fst (capture_run b wait_seconds).

(** [main()] (lines 64-75): the exit code; a [wait_seconds] that [int]
    rejects raises [ValueError], uncaught, which exits with status 1. *)
Definition screenshot_main (b : browser) (argv : list string) : Z :=
  if (List.length argv <? 3)%nat then 1%Z
  else
    let wait := match nth_error argv 3 with
                | Some w => py_int w
                | None => Some 20%Z
                end in
    match wait with
    | None => 1%Z
    | Some w => if capture_screenshot b w then 0%Z else 1%Z
    end.

(** ** The console

    What [capture_screenshot] and [main] print.  The text of an exception
    the browser raises is an oracle, by the call that raised it;
    [time.sleep] on a negative time raises [ValueError] with CPython's
    message. *)

Inductive raise_site := RaiseCreate | RaiseGet | RaisePoll | RaiseTimeout | RaiseSave.

(** [print(s)] *)
Definition line (s : string) : string := s +:+ String (ascii_of_nat 10) "".

Section ConsoleText.
(** [str(e)] of the exception raised at each call. *)
Variable error_text : raise_site -> string.

(** Line 57: [print(f"  ✗ Error: {e}")] *)
Definition error_line (msg : string) : string := line ("  ✗ Error: " +:+ msg).

(** Lines 15-62 with their prints: the result, the final session and
    the text printed. *)
Definition capture_run_io (b : browser) (url output_path : string) (wait_seconds : Z)
    (description : string) : bool * session * string :=
  let out0 := line (String (ascii_of_nat 10) description) +:+ line ("  URL: " +:+ url) +:+
              line ("  Wait: " +:+ py_str wait_seconds +:+ "s for app to fully render") +:+
              line ("  Output: " +:+ output_path) in
  let s0 := start in
  if negb (br_create_ok b) then
    (false, finish (goto s0 PFailed [EvCreate]) false, out0 +:+ error_line (error_text RaiseCreate)) else
  let s1 := mk_session PCreated true true false [EvCreate] in
  let out1 := out0 +:+ line "  Loading page..." in
  if negb (br_get_ok b) then
    (false, finish (goto s1 PFailed [EvGet]) false, out1 +:+ error_line (error_text RaiseGet)) else
  let s2 := goto s1 (PLoading 0) [EvGet] in
  let '(o, k) := wait_ready ready_polls (br_polls b) in
  let s3 := goto s2 (wait_phase o) (repeat EvPoll k) in
  match o with
  | WaitReady =>
      let out2 := out1 +:+ line "  Page loaded (readyState=complete)" +:+
                  line ("  Waiting " +:+ py_str wait_seconds +:+ "s for app rendering...") in
      if negb (sleep_returns b wait_seconds) then
        (false, finish (goto s3 PFailed [EvSleep]) false, out2 +:+ error_line (sleep_error wait_seconds)) else
      let s4 := goto s3 PRendered [EvSleep] in
      let saved := out2 +:+ line ("  ✓ Screenshot saved to " +:+ output_path) in
      match br_save b with
      | SaveWritten =>
          (true, finish (mk_session PCaptured (ss_driver s4) (ss_live s4) true
                                    (ss_trace s4 ++ [EvSave])) true, saved)
      | SaveWriteFailed => (true, finish (goto s4 PCaptured [EvSave]) true, saved)
      | SaveRaises => (false, finish (goto s4 PFailed [EvSave]) false, out2 +:+ error_line (error_text RaiseSave))
      end
  | WaitTimeout => (false, finish s3 false, out1 +:+ error_line (error_text RaiseTimeout))
  | WaitRaised => (false, finish s3 false, out1 +:+ error_line (error_text RaisePoll))
  end.

(** Lines 64-75 with their prints: the exit code and the text printed.
    A wait that [int] rejects raises [ValueError] before any print. *)
Definition screenshot_main_io (b : browser) (argv : list string) : Z * string :=
  if (List.length argv <? 3)%nat then
    (1%Z, line "Usage: selenium-screenshot.py <url> <output_path> [wait_seconds] [description]")
  else
    let url := nth 1 argv "" in
    let output := nth 2 argv "" in
    let wait := match nth_error argv 3 with Some w => py_int w | None => Some 20%Z end in
    match wait with
    | None => (1%Z, "")
    | Some w =>
        let desc := match nth_error argv 4 with Some d => d | None => "Capturing " +:+ url end in
        let '(success, _, out) := capture_run_io b url output w desc in
        (if success then 0%Z else 1%Z, out)
    end.

End ConsoleText.

(** ** The session invariant *)

#[export] Instance event_eq_dec : EqDecision event.
Proof. solve_decision. Defined.

Definition count_ev (e : event) (tr : list event) : nat :=
  length (List.filter (fun x => bool_decide (x = e)) tr).

(** The browser runs exactly while a driver exists and the function has
    not returned; it has been quit once on return when it was created;
    polls are counted by the loading phase and never exceed the bound. *)
Definition session_inv (s : session) : Prop :=
  (is_final s = false -> ss_live s = ss_driver s) /\
  (is_final s = true -> ss_live s = false) /\
  count_ev EvQuit (ss_trace s) = (if is_final s && ss_driver s then 1 else 0)%nat /\
  (count_ev EvPoll (ss_trace s) <= ready_polls)%nat /\
  (forall n, ss_phase s = PLoading n ->
     count_ev EvPoll (ss_trace s) = n /\ (n < ready_polls)%nat) /\
  ((ss_phase s = PStart \/ ss_phase s = PCreated) -> count_ev EvPoll (ss_trace s) = 0%nat).

Lemma count_ev_app e t1 t2 : count_ev e (t1 ++ t2) = (count_ev e t1 + count_ev e t2)%nat.
Proof. unfold count_ev. rewrite List.filter_app, length_app. reflexivity. Qed.

Lemma count_ev_repeat e k : count_ev e (repeat e k) = k.
Proof. induction k as [|k IH]; [reflexivity|]. unfold count_ev in *. simpl.
  rewrite bool_decide_eq_true_2 by reflexivity. simpl. lia. Qed.

Lemma goto_goto s p q e1 e2 : goto (goto s p e1) q e2 = goto s q (e1 ++ e2).
Proof. unfold goto. simpl. rewrite app_assoc. reflexivity. Qed.

Lemma start_inv : session_inv start.
Proof. unfold session_inv, count_ev, ready_polls; simpl; repeat split; intros; try discriminate; lia. Qed.

Lemma step_preserves w s s' : session_inv s -> step w s s' -> session_inv s'.
Proof.
  intros Hinv Hst. destruct Hst as [s Hp|s Hp|s Hp|s Hp|s n Hp|s n Hp Hn|s n Hp|s n Hp
    |s Hp Hw|s Hp|s Hp|s Hp|s Hp|s Hp|s Hp];
  destruct s as [p d l f tr]; simpl in Hp; subst p;
  destruct Hinv as (Hl & Hf & Hq & Hc & Hld & Hpre);
  unfold session_inv, is_final, goto, finish, ready_polls in *; simpl in *;
  repeat match goal with
  | H : ?a = ?a -> _ |- _ => specialize (H eq_refl)
  | H : ?a = ?a \/ _ -> _ |- _ => specialize (H (or_introl eq_refl))
  | H : _ \/ ?a = ?a -> _ |- _ => specialize (H (or_intror eq_refl))
  | H : forall n, PLoading ?m = PLoading n -> _ |- _ => specialize (H m eq_refl)
  end;
  rewrite ?count_ev_app; repeat split; intros;
  repeat match goal with
  | H : PLoading _ = PLoading _ |- _ => injection H as <-
  | H : ?a = ?b |- _ => discriminate H
  | H : _ \/ _ |- _ => destruct H as [H|H]
  end;
  destruct d; subst; unfold count_ev in *; simpl in *; try lia; congruence.
Qed.

Lemma star_inv w s s' : rtc (step w) s s' -> session_inv s -> session_inv s'.
Proof. induction 1; eauto using step_preserves. Qed.

Lemma reachable_inv w s : reachable w s -> session_inv s.
Proof. intros H. exact (star_inv w _ _ H start_inv). Qed.

#[local] Hint Resolve rtc_once : core.

(** One poll that sees the page still loading, then the rest of the wait. *)
Lemma wait_ready_next w s n p k :
  ss_phase s = PLoading n -> (S n < ready_polls)%nat ->
  rtc (step w) (goto s (PLoading (S n)) [EvPoll]) (goto (goto s (PLoading (S n)) [EvPoll]) p (repeat EvPoll k)) ->
  rtc (step w) s (goto s p (repeat EvPoll (S k))).
Proof.
  intros Hp Hn Hr. eapply rtc_l; [apply (step_poll_loading w s n Hp Hn)|].
  rewrite goto_goto in Hr. exact Hr.
Qed.

(** The readiness wait is a path of the relation from the first poll. *)
Lemma wait_ready_path w f ps s n o k :
  ss_phase s = PLoading n -> (n + S f = ready_polls)%nat ->
  wait_ready (S f) ps = (o, k) ->
  rtc (step w) s (goto s (wait_phase o) (repeat EvPoll k)).
Proof.
  revert ps s n o k. induction f as [|f IH]; intros ps s n o k Hp Hn Hw.
  - destruct ps as [|[[|]|] ps]; simpl in Hw; injection Hw as <- <-; eauto using step.
  - destruct ps as [|[[|]|] ps];
      try solve [simpl in Hw; injection Hw as <- <-; eauto using step].
    + change (wait_ready (S (S f)) []) with
        (let '(o, k) := wait_ready (S f) [] in (o, S k)) in Hw.
      destruct (wait_ready (S f) []) as [o' k'] eqn:E. injection Hw as <- <-.
      eapply wait_ready_next; [exact Hp|lia|eapply IH; [reflexivity|lia|exact E]].
    + change (wait_ready (S (S f)) (Some false :: ps)) with
        (let '(o, k) := wait_ready (S f) ps in (o, S k)) in Hw.
      destruct (wait_ready (S f) ps) as [o' k'] eqn:E. injection Hw as <- <-.
      eapply wait_ready_next; [exact Hp|lia|eapply IH; [reflexivity|lia|exact E]].
Qed.

(** The executable run is a path of the relation from the start. *)
Lemma capture_run_path b w :
  rtc (step w) start (snd (capture_run b w)) /\
  ss_phase (snd (capture_run b w)) = PReturned (fst (capture_run b w)).
Proof.
  unfold capture_run.
  destruct (wait_ready ready_polls (br_polls b)) as [o k] eqn:E.
  destruct (br_create_ok b); cbn [negb fst snd];
    [|split; [eapply rtc_l; [apply step_create_raise; reflexivity|]; eauto using step|reflexivity]].
  set (s1 := mk_session PCreated true true false [EvCreate]).
  assert (H1 : rtc (step w) start s1)
    by (apply rtc_once; exact (step_create_ok w start eq_refl)).
  destruct (br_get_ok b); cbn [negb fst snd]; [|split; [eauto using rtc_r, step|reflexivity]].
  assert (H2 := rtc_r _ _ _ H1 (step_get_ok w s1 eq_refl)).
  assert (H3 := transitivity H2
    (wait_ready_path w 19 (br_polls b) (goto s1 (PLoading 0) [EvGet]) 0 o k eq_refl eq_refl E)).
  destruct o; cbn [fst snd wait_phase] in *; [|split; [eauto using rtc_r, step|reflexivity]..].
  destruct (sleep_returns b w) eqn:Hw; cbn [negb].
  2:{ split; [|reflexivity]. eauto using rtc_r, step. }
  unfold sleep_returns in Hw. apply andb_true_iff in Hw as [Hw _].
  apply andb_true_iff in Hw as [Hw0 Hw1]. apply Z.leb_le in Hw0. apply Z.ltb_lt in Hw1.
  - assert (H4 := rtc_r _ _ _ H3
      (step_sleep w (goto (goto s1 (PLoading 0) [EvGet]) PReady (repeat EvPoll k)) eq_refl
         (conj Hw0 Hw1))).
    destruct (br_save b); split; try reflexivity; eauto using rtc_r, step.
Qed.

Lemma session_inv_final s : session_inv s -> is_final s = true ->
  ss_live s = false /\ count_ev EvQuit (ss_trace s) = (if ss_driver s then 1 else 0)%nat.
Proof. intros (_ & Hf & Hq & _) Hfin. rewrite Hfin in Hq. auto. Qed.

Lemma fst_let_succ {A} (p : A * nat) : fst (let '(o, k) := p in (o, S k)) = fst p.
Proof. destruct p; reflexivity. Qed.

(** The wait succeeds exactly when one of the first [n] polls sees the
    page complete and every poll before it saw it loading. *)
Lemma wait_ready_ready_iff n ps :
  fst (wait_ready n ps) = WaitReady <->
  exists i, (i < n)%nat /\ ps !! i = Some (Some true) /\
            forall j, (j < i)%nat -> ps !! j = Some (Some false).
Proof.
  revert ps. induction n as [|n IH]; intros ps; simpl.
  { split; [discriminate|intros (i & Hi & _); lia]. }
  destruct ps as [|[[|]|] ps]; rewrite ?fst_let_succ.
  - rewrite IH. split; intros (i & _ & Hi & _); discriminate.
  - split; [intros _; exists 0%nat; split; [lia|split; [reflexivity|intros; lia]]|reflexivity].
  - rewrite IH. split.
    + intros (i & Hi & Hs & Hb). exists (S i). split; [lia|split; [exact Hs|]].
      intros [|j] Hj; [reflexivity|apply Hb; lia].
    + intros ([|i] & Hi & Hs & Hb); [discriminate|].
      exists i. split; [lia|split; [exact Hs|]]. intros j Hj. apply (Hb (S j)). lia.
  - split; [discriminate|]. intros ([|i] & _ & Hs & Hb); [discriminate|].
    specialize (Hb 0%nat ltac:(lia)). discriminate.
Qed.

(** ** Termination and progress of the relation *)

(** A rank that every step decreases: the number of control points left,
    counting the polls still allowed while loading. *)
Definition phase_rank (p : phase) : nat :=
  match p with
  | PStart => 26
  | PCreated => 25
  | PLoading n => 4 + (ready_polls - n)
  | PReady => 3
  | PRendered => 2
  | PCaptured | PFailed => 1
  | PReturned _ => 0
  end.

Lemma step_rank w s s' : step w s s' -> (phase_rank (ss_phase s') < phase_rank (ss_phase s))%nat.
Proof.
  destruct 1 as [s Hp|s Hp|s Hp|s Hp|s n Hp|s n Hp Hn|s n Hp|s n Hp
    |s Hp Hw|s Hp|s Hp|s Hp|s Hp|s Hp|s Hp];
  rewrite Hp; simpl; unfold ready_polls in *; lia.
Qed.

Lemma step_sn w s : sn (step w) s.
Proof.
  remember (phase_rank (ss_phase s)) as r eqn:Hr. revert s Hr.
  induction (lt_wf r) as [r _ IH]; intros s ->.
  constructor. intros s' Hst. eapply IH; [apply (step_rank w s s' Hst)|reflexivity].
Qed.

Lemma nsteps_rank w n s s' :
  nsteps (step w) n s s' -> (n + phase_rank (ss_phase s') <= phase_rank (ss_phase s))%nat.
Proof. induction 1 as [|n x y z Hxy _ IH]; [lia|]. pose proof (step_rank w x y Hxy). lia. Qed.

(** Every state that has not returned can make a step, whatever the
    browser does: the code has a continuation for every outcome. *)
Lemma step_progress w s : is_final s = false -> red (step w) s.
Proof.
  unfold is_final, red. destruct s as [p d l f tr]; simpl.
  destruct p; intros H; try discriminate;
    [eexists; apply step_create_ok; reflexivity
    |eexists; apply step_get_ok; reflexivity
    |eexists; apply step_poll_complete with (n := polls_done); reflexivity
    | |eexists; apply step_save_written; reflexivity
    |eexists; apply step_return_true; reflexivity
    |eexists; apply step_return_false; reflexivity].
  eexists; apply step_sleep_raise; reflexivity.
Qed.

Lemma final_nf w s : is_final s = true -> nf (step w) s.
Proof.
  unfold is_final, nf, red. intros Hf [s' Hst].
  destruct Hst; match goal with H : ss_phase _ = _ |- _ => rewrite H in Hf end; discriminate.
Qed.

Lemma nf_final w s : nf (step w) s -> is_final s = true.
Proof.
  intros Hnf. destruct (is_final s) eqn:Hf; [done|]. by destruct (Hnf (step_progress w s Hf)).
Qed.

Lemma reaches_final w s : exists s', rtc (step w) s s' /\ is_final s' = true.
Proof.
  induction (step_sn w s) as [s _ IH].
  destruct (is_final s) eqn:Hf; [exists s; split; [apply rtc_refl|done]|].
  destruct (step_progress w s Hf) as [s1 H1]. destruct (IH s1 H1) as (s2 & H12 & Hf2).
  exists s2. split; [eapply rtc_l; eauto|done].
Qed.

(** ** Theorems *)

(** C6: no leaked browser.  Every state the session reaches from the
    start that has returned has quit the browser: no process is left
    running, and [driver.quit()] ran exactly once when a driver was
    created, never otherwise. *)
Theorem reachable_no_leak w s :
  reachable w s -> is_final s = true ->
  ss_live s = false /\ count_ev EvQuit (ss_trace s) = (if ss_driver s then 1 else 0)%nat.
Proof. intros Hr Hfin. exact (session_inv_final s (reachable_inv w s Hr) Hfin). Qed.

Definition browser_ok : browser := mk_browser true true [Some false; Some true] true SaveWritten.

Lemma reachable_no_leak_witness :
  reachable 2 (snd (capture_run browser_ok 2)) /\ is_final (snd (capture_run browser_ok 2)) = true /\
  ss_live (snd (capture_run browser_ok 2)) = false /\
  count_ev EvQuit (ss_trace (snd (capture_run browser_ok 2))) =
    (if ss_driver (snd (capture_run browser_ok 2)) then 1 else 0)%nat.
Proof.
  split; [apply (proj1 (capture_run_path browser_ok 2))|split; [reflexivity|]].
  apply (reachable_no_leak 2); [apply (proj1 (capture_run_path browser_ok 2))|reflexivity].
Defined.

(** The readiness wait is bounded: in every reachable state the
    session has polled [document.readyState] at most [ready_polls] = 20
    times. *)
Theorem reachable_polls_bounded w s :
  reachable w s -> (count_ev EvPoll (ss_trace s) <= ready_polls)%nat.
Proof. intros Hr. apply (reachable_inv w s Hr). Qed.

Definition browser_slow : browser := mk_browser true true [] true SaveWritten.

Lemma reachable_polls_bounded_witness :
  reachable 2 (snd (capture_run browser_slow 2)) /\
  (count_ev EvPoll (ss_trace (snd (capture_run browser_slow 2))) <= ready_polls)%nat.
Proof.
  split; [apply (proj1 (capture_run_path browser_slow 2))|].
  apply (reachable_polls_bounded 2). apply (proj1 (capture_run_path browser_slow 2)).
Defined.

(** C7: refinement: for every behaviour of the browser and every wait,
    the executable run of [capture_screenshot] is a path of the session
    relation from the start to a returned state whose result is the
    function's result; in particular the function always returns. *)
Theorem capture_run_refines b w :
  reachable w (snd (capture_run b w)) /\
  ss_phase (snd (capture_run b w)) = PReturned (capture_screenshot b w).
Proof. exact (capture_run_path b w). Qed.

(** C24: [capture_screenshot] returns [True] exactly when the browser
    starts, the page loads, one of the first 20 readiness polls sees
    [complete] after polls that all saw the page loading, [time.sleep]
    returns (the wait is not negative, below [sleep_limit] and its
    deadline fits the clock), and [save_screenshot] does not raise. *)
Theorem capture_screenshot_spec b w :
  capture_screenshot b w = true <->
  br_create_ok b = true /\ br_get_ok b = true /\
  (exists i, (i < ready_polls)%nat /\ br_polls b !! i = Some (Some true) /\
             forall j, (j < i)%nat -> br_polls b !! j = Some (Some false)) /\
  sleep_returns b w = true /\ br_save b <> SaveRaises.
Proof.
  rewrite <- wait_ready_ready_iff. unfold capture_screenshot, capture_run.
  destruct (wait_ready ready_polls (br_polls b)) as [o k]. cbn [fst].
  destruct (br_create_ok b), (br_get_ok b), o, (sleep_returns b w), (br_save b);
    cbn; intuition (try discriminate; try congruence).
Qed.

(** The prints do not change the run: [capture_run] is the run of
    [capture_run_io] without its text, and [screenshot_main] its exit code. *)
Lemma capture_run_io_run error_text b url output_path w description :
  let '(r, s, _) := capture_run_io error_text b url output_path w description in
  capture_run b w = (r, s).
Proof.
  unfold capture_run_io, capture_run.
  destruct (br_create_ok b), (br_get_ok b); cbn -[wait_ready]; try reflexivity.
  destruct (wait_ready ready_polls (br_polls b)) as [[] k]; cbn -[wait_ready]; try reflexivity.
  destruct (sleep_returns b w); [|reflexivity]. by destruct (br_save b).
Qed.

Lemma screenshot_main_io_exit error_text b argv :
  fst (screenshot_main_io error_text b argv) = screenshot_main b argv.
Proof.
  unfold screenshot_main_io, screenshot_main, capture_screenshot.
  destruct (List.length argv <? 3)%nat; [reflexivity|].
  destruct (match nth_error argv 3 with Some w => py_int w | None => Some 20%Z end) as [w|]; [|reflexivity].
  match goal with |- context [capture_run_io error_text b ?u ?o w ?d] =>
    pose proof (capture_run_io_run error_text b u o w d) as H;
    destruct (capture_run_io error_text b u o w d) as [[r s] t] end.
  by rewrite H.
Qed.

(** C29: a failed write is reported as success.  When the session gets
    as far as [driver.save_screenshot] and writing the file fails, the
    call returns [False], which the code ignores: [capture_screenshot]
    returns [True] and [main] exits 0, though no image was written, and
    the last line printed says the screenshot was saved to the path. *)
Theorem capture_screenshot_ignores_write_failure b w :
  br_create_ok b = true -> br_get_ok b = true ->
  fst (wait_ready ready_polls (br_polls b)) = WaitReady -> sleep_returns b w = true ->
  br_save b = SaveWriteFailed ->
  capture_screenshot b w = true /\ ss_file (snd (capture_run b w)) = false /\
  forall error_text url output_path description, exists printed,
    snd (capture_run_io error_text b url output_path w description) =
    printed +:+ line ("  ✓ Screenshot saved to " +:+ output_path).
Proof.
  intros Hc Hg Hr Hw Hs. unfold capture_screenshot, capture_run, capture_run_io.
  rewrite Hc, Hg, Hs. destruct (wait_ready ready_polls (br_polls b)) as [o k].
  cbn [fst] in Hr. subst o. rewrite Hw.
  split_and!; [reflexivity | reflexivity | intros; eexists; reflexivity].
Qed.

Definition browser_write_fails : browser := mk_browser true true [Some true] true SaveWriteFailed.

Lemma capture_screenshot_ignores_write_failure_witness :
  capture_screenshot browser_write_fails 20 = true /\
  ss_file (snd (capture_run browser_write_fails 20)) = false /\
  forall error_text url output_path description, exists printed,
    snd (capture_run_io error_text browser_write_fails url output_path 20 description) =
    printed +:+ line ("  ✓ Screenshot saved to " +:+ output_path).
Proof.
  apply capture_screenshot_ignores_write_failure; reflexivity.
Defined.


(** The specification's example: when the page cannot be loaded
    ([driver.get] raises, as on an unreachable address) a capture with a
    wait of 0 s reports failure, and the browser it started has been quit
    exactly once and is no longer running. *)
Theorem capture_unreachable_no_leak b :
  br_create_ok b = true -> br_get_ok b = false ->
  capture_screenshot b 0 = false /\ ss_live (snd (capture_run b 0)) = false /\
  count_ev EvQuit (ss_trace (snd (capture_run b 0))) = 1%nat.
Proof.
  intros Hc Hg. unfold capture_screenshot, capture_run. rewrite Hc, Hg.
  split_and!; reflexivity.
Qed.

Definition browser_unreachable : browser := mk_browser true false [] true SaveWritten.

Lemma capture_unreachable_no_leak_witness :
  capture_screenshot browser_unreachable 0 = false /\
  ss_live (snd (capture_run browser_unreachable 0)) = false /\
  count_ev EvQuit (ss_trace (snd (capture_run browser_unreachable 0))) = 1%nat.
Proof. apply capture_unreachable_no_leak; reflexivity. Defined.

(** C10: liveness: from every state the session reaches, every execution
    terminates (the relation is strongly normalizing there), some
    execution reaches a returned state, and every execution that cannot
    go on has returned with the browser quit: [capture_screenshot]
    always returns and never leaves the browser behind. *)
Theorem reachable_eventually_returns w s :
  reachable w s ->
  sn (step w) s /\
  (exists s', rtc (step w) s s' /\ is_final s' = true) /\
  (forall s', rtc (step w) s s' -> nf (step w) s' -> is_final s' = true /\ ss_live s' = false).
Proof.
  intros Hr. split_and!; [apply step_sn|apply reaches_final|].
  intros s' Hss' Hnf. pose proof (nf_final w s' Hnf) as Hf. split; [done|].
  apply (session_inv_final s'); [|done]. apply (reachable_inv w). unfold reachable in *. by trans s.
Qed.

Lemma reachable_eventually_returns_witness :
  reachable 0 start /\
  sn (step 0) start /\
  (exists s', rtc (step 0) start s' /\ is_final s' = true) /\
  (forall s', rtc (step 0) start s' -> nf (step 0) s' -> is_final s' = true /\ ss_live s' = false).
Proof.
  assert (H : reachable 0 start) by apply rtc_refl.
  split; [exact H | exact (reachable_eventually_returns 0 start H)].
Defined.

(** C25: bounded runs: every sequence of transitions from the start has at
    most 26 steps (two calls to set up, at most 20 polls, the sleep, the
    save and the return), whatever the browser does. *)
Theorem capture_steps_bounded w n s :
  nsteps (step w) n start s -> (n <= 26)%nat.
Proof. intros H. pose proof (nsteps_rank w n start s H). simpl in *. lia. Qed.

Lemma capture_steps_bounded_witness :
  exists n, nsteps (step 2) n start (snd (capture_run browser_ok 2)) /\ (n <= 26)%nat.
Proof.
  destruct (rtc_nsteps_1 _ _ (proj1 (capture_run_path browser_ok 2))) as [n Hn].
  exists n. split; [exact Hn|]. exact (capture_steps_bounded 2 n _ Hn).
Defined.

End Screenshot.
